(** * datacraft-framework: a shallow embedding of the orchestration engine

    The development follows the layout of the Python package
    [datacraft_framework]: one module per source file, holding the
    functions of that file translated to Gallina, followed by the
    theorems that relate the embedding to the specification. *)

From Stdlib Require Import ZArith List Bool Ascii String Lia.
From Stdlib Require Import Floats.PrimFloat Floats.FloatOps Floats.SpecFloat.
From Stdlib Require Import Numbers.Cyclic.Int63.Uint63.
Import ListNotations.

Open Scope string_scope.
Open Scope Z_scope.

(* ================================================================== *)
(** * Part I: the embedding *)
(* ================================================================== *)

(** ** Python values the code manipulates *)

Module Py.

(** An f-string, piece by piece: literal text and the interpolated
    values, left unformatted. *)
Inductive piece : Type :=
| Lit (s : string)
| Int (z : Z)
| Float (f : float)
| Str (s : option string).

(** The exceptions that the modelled code paths can raise. *)
Inductive exn : Type :=
| ValueError
| TypeError
| OverflowError
| UnboundLocalError
| KeyError
| IndexError
| ZeroDivisionError
| ColumnNotFoundError
| InvalidOperationError
| AttributeError
| RegexError
| Exception (msg : list piece).

(** The outcome of running a Python function: it returns or it raises. *)
Inductive outcome (A : Type) : Type :=
| Return (a : A)
| Raise (e : exn).

Arguments Return {A} a.
Arguments Raise {A} e.

Definition bind {A B : Type} (m : outcome A) (k : A -> outcome B) : outcome B :=
  match m with
  | Return a => k a
  | Raise e => Raise e
  end.

End Py.

Notation "x <- m ;; k" := (Py.bind m (fun x => k))
  (at level 100, m at next level, right associativity).

(** ** [float] arithmetic of the interpreter: IEEE 754 binary64 *)

Module PyFloat.

(** [float(z)].  The conversion is exact up to 2^53 in magnitude, which
    covers the row counts and thresholds it is applied to here; on that
    range [a / b] on integers and the comparison of a float with an integer
    are those of the corresponding floats. *)
Definition of_int (z : Z) : float :=
  if z <? 0 then PrimFloat.opp (PrimFloat.of_uint63 (Uint63.of_Z (- z)))
  else PrimFloat.of_uint63 (Uint63.of_Z z).

(** [a / b] on two [int]s: true division. *)
Definition truediv (a b : Z) : Py.outcome float :=
  if b =? 0 then Py.Raise Py.ZeroDivisionError
  else Py.Return (PrimFloat.div (of_int a) (of_int b)).

(** [x >= t] and [x <= t] for a float [x] and an int [t] *)
Definition ge_int (x : float) (t : Z) : bool := PrimFloat.leb (of_int t) x.
Definition le_int (x : float) (t : Z) : bool := PrimFloat.leb x (of_int t).

End PyFloat.

(** ** [str] methods used by the code: [split], [join], [in], [replace] *)

Module PyStr.

(** [s.split(sep)] for a one-character separator.  Python never returns an
    empty list here, so the result is given as its first segment and the
    list of the remaining ones. *)
Fixpoint split (sep : ascii) (s : string) : string * list string :=
  match s with
  | EmptyString => (EmptyString, [])
  | String a s' =>
      let (h, t) := split sep s' in
      if Ascii.eqb a sep then (EmptyString, h :: t) else (String a h, t)
  end.

Definition split_list (sep : ascii) (s : string) : list string :=
  let (h, t) := split sep s in h :: t.

(** [sep.join(l)] *)
Fixpoint join (sep : string) (l : list string) : string :=
  match l with
  | [] => EmptyString
  | [x] => x
  | x :: rest => x ++ sep ++ join sep rest
  end.

(** The character [c] does not occur in [s]. *)
Fixpoint lacks (c : ascii) (s : string) : bool :=
  match s with
  | EmptyString => true
  | String a s' => negb (Ascii.eqb a c) && lacks c s'
  end.

(** [sub in s] *)
Fixpoint contains (sub s : string) : bool :=
  String.prefix sub s ||
  match s with
  | EmptyString => false
  | String _ s' => contains sub s'
  end.

Fixpoint drop (n : nat) (s : string) : string :=
  match n, s with
  | O, _ => s
  | S n', String _ s' => drop n' s'
  | S _, EmptyString => EmptyString
  end.

(** [s.replace(old, new)] for a non-empty [old]: every non-overlapping
    occurrence, scanning from the left.  [fuel] bounds the number of scan
    steps; [replace] supplies the length of [s], which is enough. *)
Fixpoint replace_fuel (fuel : nat) (old new s : string) : string :=
  match fuel with
  | O => s
  | S fuel' =>
      match s with
      | EmptyString => EmptyString
      | String a s' =>
          if String.prefix old s
          then new ++ replace_fuel fuel' old new (drop (String.length old) s)
          else String a (replace_fuel fuel' old new s')
      end
  end.

Definition replace (old new s : string) : string :=
  replace_fuel (String.length s) old new s.

End PyStr.

(** ** Common/S3Process.py *)

Module S3Process.

Record s3_path : Type := {
  bucket : string;
  key : string;
  s3_location : string
}.

(** [path_to_s3(location, env)] *)
Definition path_to_s3 (location env : string) : s3_path :=
  let (first, splited_inbound) := PyStr.split "/" location in
  let bucket_name := env ++ "-" ++ first in
  let key_inbound := PyStr.join "/" splited_inbound in
  {| bucket := bucket_name;
     key := key_inbound;
     s3_location := "s3a://" ++ bucket_name ++ "/" ++ key_inbound |}.

End S3Process.

(** ** Common/FileNameGenerator.py *)

Module FileNameGenerator.

(** The calendar date that [datetime.now()] returns. *)
Record date : Type := { year : nat; month : nat; day : nat }.

Definition digit (n : nat) : ascii := ascii_of_nat (48 + Nat.modulo n 10).

(** The last [width] decimal digits of [n], zero padded. *)
Fixpoint decimal (width n : nat) : string :=
  match width with
  | O => EmptyString
  | S w => decimal w (Nat.div n 10) ++ String (digit n) EmptyString
  end.

(** [today_date.strftime("%Y%m%d")], [("%Y%m")] and [("%Y")] *)
Definition strftime_Ymd (d : date) : string :=
  decimal 4 (year d) ++ decimal 2 (month d) ++ decimal 2 (day d).
Definition strftime_Ym (d : date) : string :=
  decimal 4 (year d) ++ decimal 2 (month d).
Definition strftime_Y (d : date) : string := decimal 4 (year d).

(** [file_name_generator(save_file_name)], with the clock made explicit. *)
Definition file_name_generator (today_date : date) (save_file_name : string)
  : string :=
  if PyStr.contains "YYYYMMDD" save_file_name then
    PyStr.replace "YYYYMMDD" (strftime_Ymd today_date) save_file_name
  else if PyStr.contains "YYYYMM" save_file_name then
    PyStr.replace "YYYYMM" (strftime_Ym today_date) save_file_name
  else if PyStr.contains "YYYY" save_file_name then
    PyStr.replace "YYYY" (strftime_Y today_date) save_file_name
  else save_file_name.

End FileNameGenerator.

(** ** Common/PatternValidator.py *)

Module PatternValidator.

Section WithRegexEngine.

(** [re.match(pattern, string)] of the Python standard library, reduced to
    the truth value of its result; it raises on a pattern that does not
    compile. *)
Variable regex_pattern_matches : string -> string -> Py.outcome bool.

(** The body shared by the three date-token branches of
    [validate_pattern]: they differ in the token and its character class
    only. *)
Definition token_branch (token class file_pattern file_name : string)
  : Py.outcome (option bool) :=
  if PyStr.contains "*" file_pattern then
    match PyStr.split_list "*" file_pattern with
    | [regex_pattern_; other_pattern] =>
        let regex_pattern :=
          regex_pattern_ ++ ".*" ++ PyStr.replace token class other_pattern in
        b <- regex_pattern_matches regex_pattern file_name ;;
        Py.Return (Some b)
    | _ => Py.Raise Py.ValueError
    end
  else
    let regex_pattern := PyStr.replace token class file_pattern in
    b <- regex_pattern_matches regex_pattern file_name ;;
    Py.Return (Some b).

(** [validate_pattern(file_pattern, file_name, custom)].  The result is
    [Some b] for [return True]/[return False] and [None] where the function
    body ends without a [return]. *)
Definition validate_pattern (file_pattern file_name : string) (custom : bool)
  : Py.outcome (option bool) :=
  if negb custom then
    if PyStr.contains "YYYYMMDD" file_pattern then
      token_branch "YYYYMMDD" "[0-9]{8}" file_pattern file_name
    else if PyStr.contains "YYYYMM" file_pattern then
      token_branch "YYYYMM" "[0-9]{6}" file_pattern file_name
    else if PyStr.contains "YYYY" file_pattern then
      token_branch "YYYY" "[0-9]{4}" file_pattern file_name
    else Py.Return None
  else
    b <- regex_pattern_matches file_pattern file_name ;;
    Py.Return (Some b).

End WithRegexEngine.

End PatternValidator.

(** ** Common/JsonDataMapper.py *)

Module JsonDataMapper.

(** The values a JSONPath match can carry. *)
Inductive value : Type :=
| VNone
| VBool (b : bool)
| VInt (z : Z)
| VFloat (f : float)
| VStr (s : string)
| VContainer.

(** [int(f)] for a float: truncation towards zero. *)
Definition int_of_float (f : float) : Py.outcome Z :=
  match FloatOps.Prim2SF f with
  | SpecFloat.S754_zero _ => Py.Return 0
  | SpecFloat.S754_infinity _ => Py.Raise Py.OverflowError
  | SpecFloat.S754_nan => Py.Raise Py.ValueError
  | SpecFloat.S754_finite s m e =>
      let mag := if 0 <=? e then Z.pos m * 2 ^ e else Z.pos m / 2 ^ (- e) in
      Py.Return (if s then - mag else mag)
  end.

Definition row : Type := list (string * value).

Section WithIntParser.

(** [int(s)] for a [str]: the integer literal grammar of the interpreter,
    [None] where it raises [ValueError]. *)
Variable int_of_str : string -> option Z.

(** [int(value)] *)
Definition py_int (v : value) : Py.outcome Z :=
  match v with
  | VNone => Py.Raise Py.TypeError
  | VBool b => Py.Return (if b then 1 else 0)
  | VInt z => Py.Return z
  | VFloat f => int_of_float f
  | VStr s =>
      match int_of_str s with
      | Some z => Py.Return z
      | None => Py.Raise Py.ValueError
      end
  | VContainer => Py.Raise Py.TypeError
  end.

(** [values[i] if i < len(values) else values[-1]] *)
Definition pick (values : list value) (i : nat) : Py.outcome value :=
  if Nat.ltb i (List.length values) then
    match nth_error values i with
    | Some v => Py.Return v
    | None => Py.Raise Py.IndexError
    end
  else
    match values with
    | [] => Py.Raise Py.IndexError
    | v :: rest => Py.Return (List.last rest v)
    end.

(** The [try: item[key] = int(value) except ValueError: item[key] = value]
    block: only [ValueError] is handled. *)
Definition convert (v : value) : Py.outcome value :=
  match py_int v with
  | Py.Return z => Py.Return (VInt z)
  | Py.Raise Py.ValueError => Py.Return v
  | Py.Raise e => Py.Raise e
  end.

(** The inner loop: one output row. *)
Fixpoint build_item (data : list (string * list value)) (i : nat)
  : Py.outcome row :=
  match data with
  | [] => Py.Return []
  | (key, values) :: rest =>
      value <- pick values i ;;
      cell <- convert value ;;
      item <- build_item rest i ;;
      Py.Return ((key, cell) :: item)
  end.

Fixpoint build_rows (data : list (string * list value)) (indices : list nat)
  : Py.outcome (list row) :=
  match indices with
  | [] => Py.Return []
  | i :: rest =>
      item <- build_item data i ;;
      result <- build_rows data rest ;;
      Py.Return (item :: result)
  end.

Definition max_length (data : list (string * list value)) : nat :=
  fold_right (fun kv acc => Nat.max (List.length (snd kv)) acc) O data.

(** [convert_to_dict(data)]; [max] of an empty sequence raises. *)
Definition convert_to_dict (data : list (string * list value))
  : Py.outcome (list row) :=
  match data with
  | [] => Py.Raise Py.ValueError
  | _ => build_rows data (seq 0 (max_length data))
  end.

End WithIntParser.

(** An integer-literal reader for evaluation: [int] on ASCII text, which
    is white space, an optional sign, decimal digits with single
    underscores between them, white space.  ([int] reads the decimal
    digits and the white space of other scripts as well.) *)
Definition is_digit (a : ascii) : bool :=
  let n := nat_of_ascii a in Nat.leb 48 n && Nat.leb n 57.

Definition is_space (a : ascii) : bool :=
  let n := nat_of_ascii a in
  (Nat.leb 9 n && Nat.leb n 13) || (Nat.leb 28 n && Nat.leb n 32).

Fixpoint lstrip (s : string) : string :=
  match s with
  | EmptyString => EmptyString
  | String a s' => if is_space a then lstrip s' else s
  end.

Fixpoint all_space (s : string) : bool :=
  match s with
  | EmptyString => true
  | String a s' => is_space a && all_space s'
  end.

(** The digits of a literal: an underscore stands between two digits,
    and only white space follows the last digit. *)
Fixpoint read_literal (s : string) (acc : Z) (after_digit : bool) : option Z :=
  match s with
  | EmptyString => if after_digit then Some acc else None
  | String a s' =>
      if is_digit a
      then read_literal s' (10 * acc + Z.of_nat (nat_of_ascii a - 48)) true
      else if after_digit && Ascii.eqb a "_" then read_literal s' acc false
      else if after_digit && is_space a && all_space s' then Some acc
      else None
  end.

Fixpoint read_digits (s : string) (acc : Z) : option Z :=
  match s with
  | EmptyString => Some acc
  | String a s' =>
      if is_digit a
      then read_digits s' (10 * acc + Z.of_nat (nat_of_ascii a - 48))
      else None
  end.

Definition plain_int_of_str (s : string) : option Z :=
  match lstrip s with
  | String "-" ds => option_map Z.opp (read_literal ds 0 false)
  | String "+" ds => read_literal ds 0 false
  | ds => read_literal ds 0 false
  end.

End JsonDataMapper.

(** ** Models/schema.py: the control-plane rows the modelled code reads
    and writes *)

Module Schema.

(** [logDqmDtl]; every column is [Optional] in the source.  The two
    timestamp columns are left out. *)
Record logDqmDtl : Type := {
  dqm_process_id : option Z;
  dqm_dataset_id : option Z;
  dqm_batch_id : option Z;
  dqm_source_file : option string;
  dqm_column_name : option string;
  dqm_qc_type : option string;
  dqm_qc_param : option string;
  dqm_qc_filter : option string;
  dqm_criticality : option string;
  dqm_criticality_threshold_pct : option Z;
  dqm_error_count : option Z;
  dqm_error_pct : option float;
  dqm_status : option string
}.

(** [logTransformationDtl] *)
Record logTransformationDtl : Type := {
  tr_batch_id : option Z;
  tr_process_id : option Z;
  tr_dataset_id : option Z;
  tr_source_file : option string;
  tr_status : option string;
  tr_exception_details : option string
}.

(** [logDataStandardisationDtl] *)
Record logDataStandardisationDtl : Type := {
  std_batch_id : option Z;
  std_process_id : option Z;
  std_dataset_id : option Z;
  std_source_file : option string;
  std_data_standardisation_location : option string;
  std_status : option string;
  std_exception_details : option string
}.

(** [logRawProcessDtl], the columns the silver engine reads. *)
Record logRawProcessDtl : Type := {
  raw_batch_id : option Z;
  raw_source_file : option string
}.

(** [ctlDqmMasterDtl], the columns a rule function reads. *)
Record ctlDqmMasterDtl : Type := {
  column_name : string;
  qc_type : string;
  qc_param : option string;
  qc_filter : option string;
  criticality : option string;
  criticality_threshold_pct : option Z
}.

(** [ctlDataStandardisationDtl] *)
Record ctlDataStandardisationDtl : Type := {
  std_column_name : string;
  function_name : option string;
  function_params : option string
}.

(** [ctlDatasetMaster], the columns the modelled code reads. *)
Record ctlDatasetMaster : Type := {
  process_id : Z;
  dataset_id : Z;
  landing_location : option string;
  data_standardisation_location : option string;
  data_standardisation_partition_columns : option string
}.

End Schema.

(** ** SQL's three-valued conditions, as the selectors use them *)

Module Sql.

(** [None] is UNKNOWN. *)
Definition tri : Type := option bool.

Definition eq_int (c : option Z) (v : Z) : tri := option_map (Z.eqb v) c.
Definition eq_str (c : option string) (v : string) : tri :=
  option_map (String.eqb v) c.

Definition not_ (t : tri) : tri := option_map negb t.

Definition is_null {A : Type} (c : option A) : bool :=
  match c with None => true | Some _ => false end.

(** [c IN (subquery)] *)
Definition in_ (c : option string) (subquery : list (option string)) : tri :=
  match subquery, c with
  | [], _ => Some false
  | _, None => None
  | _, Some v =>
      if existsb (fun x => match x with Some w => String.eqb v w | None => false end)
           subquery
      then Some true
      else if existsb is_null subquery then None else Some false
  end.

(** A row is kept by WHERE exactly when the condition is TRUE. *)
Definition holds (t : tri) : bool :=
  match t with Some true => true | _ => false end.

End Sql.

(** ** Common/OrchestrationProcess.py *)

Module OrchestrationProcess.

Import Schema.

(** [get_unprocessed_transformation_files(process_id, dataset_id)] over the
    contents of the two log tables.  The query has no ORDER BY; rows come
    back in table order. *)
Definition get_unprocessed_transformation_files
  (log_dqm : list logDqmDtl) (log_transformation : list logTransformationDtl)
  (process_id dataset_id : Z) : list logDqmDtl :=
  let subquery :=
    map tr_source_file
      (filter (fun t => Sql.holds (Sql.eq_str (tr_status t) "SUCCEEDED"))
         log_transformation) in
  filter
    (fun d =>
       Sql.holds (Sql.not_ (Sql.in_ (dqm_source_file d) subquery))
       && Sql.holds (Sql.eq_int (dqm_process_id d) process_id)
       && Sql.holds (Sql.eq_int (dqm_dataset_id d) dataset_id))
    log_dqm.

(** [insert_log_dqm], [insert_log_transformation],
    [insert_data_standardisation_log]: the log tables only grow. *)
Definition insert_log_dqm (log : list logDqmDtl) (r : logDqmDtl) :=
  (log ++ [r])%list.
Definition insert_log_transformation
  (log : list logTransformationDtl) (r : logTransformationDtl) :=
  (log ++ [r])%list.
Definition insert_data_standardisation_log
  (log : list logDataStandardisationDtl) (r : logDataStandardisationDtl) :=
  (log ++ [r])%list.

(** The selector as the specification words it: the source files that have
    a SUCCEEDED row in the DQM log for this process and dataset and no
    SUCCEEDED row in the transformation log. *)
Definition spec_unprocessed_at_gold
  (log_dqm : list logDqmDtl) (log_transformation : list logTransformationDtl)
  (process_id dataset_id : Z) (source_file : string) : Prop :=
  (exists d, In d log_dqm /\ dqm_source_file d = Some source_file /\
             dqm_process_id d = Some process_id /\
             dqm_dataset_id d = Some dataset_id /\
             dqm_status d = Some "SUCCEEDED") /\
  ~ (exists t, In t log_transformation /\ tr_source_file t = Some source_file /\
               tr_status t = Some "SUCCEEDED").

End OrchestrationProcess.

(** ** Data frames, as far as the engine's own code looks into them *)

Module Polars.

Inductive cell : Type :=
| Null
| Text (s : string)
| Num (z : Z).

(** A frame is a schema and positional rows. *)
Record Frame : Type := {
  columns : list string;
  rows : list (list cell)
}.

(** [len(df)] *)
Definition len (df : Frame) : Z := Z.of_nat (List.length (rows df)).

Fixpoint col_index (name : string) (cols : list string) : option nat :=
  match cols with
  | [] => None
  | c :: rest =>
      if String.eqb c name then Some O else option_map S (col_index name rest)
  end.

Definition get (i : nat) (r : list cell) : cell := nth i r Null.

(** [df.filter(p(polars.col(name)))] for a row-wise predicate; an
    [Error] from the predicate is an operation the column's type does not
    support. *)
Fixpoint filter_rows (i : nat) (p : cell -> option bool) (rs : list (list cell))
  : Py.outcome (list (list cell)) :=
  match rs with
  | [] => Py.Return []
  | r :: rest =>
      match p (get i r) with
      | None => Py.Raise Py.InvalidOperationError
      | Some keep =>
          kept <- filter_rows i p rest ;;
          Py.Return (if keep then r :: kept else kept)
      end
  end.

Definition filter_col (name : string) (p : cell -> option bool) (df : Frame)
  : Py.outcome Frame :=
  match col_index name (columns df) with
  | None => Py.Raise Py.ColumnNotFoundError
  | Some i =>
      kept <- filter_rows i p (rows df) ;;
      Py.Return {| columns := columns df; rows := kept |}
  end.

Fixpoint set_nth (i : nat) (v : cell) (r : list cell) : list cell :=
  match i, r with
  | O, _ :: rest => v :: rest
  | O, [] => [v]
  | S i', c :: rest => c :: set_nth i' v rest
  | S i', [] => Null :: set_nth i' v []
  end.

(** [df.with_columns(polars.lit(v).alias(name))]: a new frame in which
    column [name] holds [v] in every row; [df] itself is not changed. *)
Definition with_columns_lit (name : string) (v : cell) (df : Frame) : Frame :=
  match col_index name (columns df) with
  | Some i => {| columns := columns df; rows := map (set_nth i v) (rows df) |}
  | None =>
      {| columns := (columns df ++ [name])%list;
         rows := map (set_nth (List.length (columns df)) v) (rows df) |}
  end.

(** [polars.lit(v)] for an integer or [None] *)
Definition lit (v : option Z) : cell :=
  match v with Some z => Num z | None => Null end.

(** [polars.DataFrame(list_of_dicts)]: the columns are the keys in order of
    first appearance, a key that a dict lacks gives a null. *)
Definition dict : Type := list (string * cell).

Fixpoint lookup (k : string) (d : dict) : cell :=
  match d with
  | [] => Null
  | (k', v) :: rest => if String.eqb k' k then v else lookup k rest
  end.

Fixpoint add_keys (seen : list string) (ks : list string) : list string :=
  match ks with
  | [] => seen
  | k :: rest =>
      if existsb (String.eqb k) seen then add_keys seen rest
      else add_keys (seen ++ [k])%list rest
  end.

Definition DataFrame (ds : list dict) : Frame :=
  let cols := fold_left (fun seen d => add_keys seen (map fst d)) ds [] in
  {| columns := cols; rows := map (fun d => map (fun c => lookup c d) cols) ds |}.

(** *** The regular expressions that occur as literals in the code *)

Inductive regex : Type :=
| Bol                                  (* ^ *)
| Eol                                  (* $ *)
| Chr (c : ascii)                      (* a literal character *)
| Digit                                (* \d *)
| Seq (r1 r2 : regex)
| Opt (r : regex)                      (* r? *)
| PlusDigit                            (* \d+ *)
| Group (r : regex).                   (* ( r ) *)

(** [\d] on ASCII text: the digits 0 to 9.  The engine's class also holds
    the decimal digits of other scripts, which UTF-8 writes in several
    bytes; the matcher below reads text byte by byte and is exact on
    ASCII text. *)
Definition is_digit (a : ascii) : bool :=
  let n := nat_of_ascii a in Nat.leb 48 n && Nat.leb n 57.

(** Greedy [\d+] with backtracking into the continuation [k]. *)
Fixpoint match_plus_digit (s : string) (k : string -> bool) : bool :=
  match s with
  | EmptyString => false
  | String a s' => is_digit a && (match_plus_digit s' k || k s')
  end.

(** [match_at r at_start s k]: [r] matches a prefix of [s] and [k] accepts
    what follows; [at_start] tells whether [s] is the whole haystack.  The
    continuation receives the same flag for the rest. *)
Fixpoint match_at (r : regex) (at_start : bool) (s : string)
  (k : bool -> string -> bool) : bool :=
  match r with
  | Bol => at_start && k at_start s
  | Eol => match s with EmptyString => k at_start s | _ => false end
  | Chr c =>
      match s with
      | String a s' => Ascii.eqb a c && k false s'
      | EmptyString => false
      end
  | Digit =>
      match s with
      | String a s' => is_digit a && k false s'
      | EmptyString => false
      end
  | Seq r1 r2 =>
      match_at r1 at_start s (fun st s' => match_at r2 st s' k)
  | Opt r' => match_at r' at_start s k || k at_start s
  | PlusDigit => match_plus_digit s (k false)
  | Group r' => match_at r' at_start s k
  end.

(** A match starting at some position of the haystack. *)
Fixpoint search_from (r : regex) (at_start : bool) (s : string) : bool :=
  match_at r at_start s (fun _ _ => true) ||
  match s with
  | EmptyString => false
  | String _ s' => search_from r false s'
  end.

(** [polars.col(c).str.contains(r)] on one cell: null on a null, an error
    on a column that is not text. *)
Definition str_contains (r : regex) (c : cell) : option bool :=
  match c with
  | Text s => Some (search_from r true s)
  | Null => Some false
  | Num _ => None
  end.

End Polars.

(** ** Common/DataProcessor.py *)

Module DataProcessor.

Import Polars.

(** What [DeltaTableWriter] accepts as [input_data]. *)
Inductive input : Type :=
| InFrame (df : Frame)
| InPath (path : string)
| InDicts (ds : list dict).

(** One call of [write_delta] that goes through: the frame it is called
    on and its arguments.  [target_keyword] is [None] where the target is
    passed positionally, as it is in every call that goes through. *)
Record write_delta_call : Type := {
  written : Frame;
  target : string;
  target_keyword : option string;
  mode : string;
  partition_by : list string
}.

Section DeltaTableWriter.

(** [polars.read_csv(path, separator, infer_schema, storage_options)] *)
Variable read_csv : string -> option string -> bool -> Py.outcome Frame.

(** [DeltaTableWriter.__init__]: the result is the [write_delta] call the
    constructor makes, if it makes one.  In the branch for a list of
    dictionaries the call is [df.write_delta(file=save_location, ...)]:
    [write_delta] takes its target as the required first parameter and has
    no parameter [file], so the call raises TypeError and nothing is
    written. *)
Definition DeltaTableWriter (input_data : input) (save_location : string)
  (batch_id : option Z) (partition_columns : string)
  (outbound_file_delimiter : option string) (infer_schema : bool)
  : Py.outcome (option write_delta_call) :=
  match input_data with
  | InFrame df =>
      let input_data := with_columns_lit "batch_id" (lit batch_id) df in
      Py.Return (Some {| written := input_data;
                         target := save_location;
                         target_keyword := None;
                         mode := "append";
                         partition_by := PyStr.split_list "," partition_columns |})
  | InPath path =>
      if PyStr.contains "csv" path || PyStr.contains "txt" path then
        df <- read_csv path outbound_file_delimiter infer_schema ;;
        let df := with_columns_lit "batch_id" (lit batch_id) df in
        Py.Return (Some {| written := df;
                           target := save_location;
                           target_keyword := None;
                           mode := "append";
                           partition_by := PyStr.split_list "," partition_columns |})
      else Py.Return None
  | InDicts ds =>
      let df := DataFrame ds in
      (* the frame that [with_columns] returns is dropped *)
      let _ := with_columns_lit "batch_id" (lit batch_id) df in
      (* the keyword arguments are evaluated, then the call is refused *)
      let _ := PyStr.split_list "," partition_columns in
      Py.Raise Py.TypeError
  end.

End DeltaTableWriter.

(** Every row of the frame carries [batch_id] in a column of that name. *)
Definition tagged_with (batch_id : Z) (df : Frame) : Prop :=
  exists i, col_index "batch_id" (columns df) = Some i /\
            Forall (fun r => get i r = Num batch_id) (rows df).

Definition tagged_withb (batch_id : Z) (df : Frame) : bool :=
  match col_index "batch_id" (columns df) with
  | Some i =>
      forallb (fun r => match get i r with
                        | Num z => Z.eqb z batch_id
                        | _ => false
                        end) (rows df)
  | None => false
  end.

(** *** The gold table and the SCD-2 merge *)

(** A gold row: the values of the primary-key columns, the remaining
    business columns, and the part of the SCD-2 envelope that the merge
    reads or writes.  Dates are kept in their ISO form.  A primary-key
    column is a data column and can hold NULL ([None]); [sys_checksum]
    is the hash of the concatenated data columns, and the concatenation
    of a row that holds a NULL is NULL.  The envelope's dates and flag
    are written from literals. *)
Record gold_row : Type := {
  primary_key : list (option string);
  business : list cell;
  eff_strt_dt : string;
  eff_end_dt : string;
  sys_del_flg : string;
  sys_checksum : option string
}.

Definition active_sentinel : string := "9999-12-31".

(** [target.k = staging.k AND ...] over the primary-key columns.  SQL's
    [=] is not true when either side is NULL, so a key that holds a NULL
    matches no key, itself included. *)
Fixpoint key_eqb (k1 k2 : list (option string)) : bool :=
  match k1, k2 with
  | [], [] => true
  | Some a :: k1', Some b :: k2' => String.eqb a b && key_eqb k1' k2'
  | _, _ => false
  end.

(** [target.eff_end_dt == '9999-12-31' AND target.k = staging.k AND ...] *)
Definition merge_predicate (target_row staging_row : gold_row) : bool :=
  String.eqb (eff_end_dt target_row) active_sentinel
  && key_eqb (primary_key target_row) (primary_key staging_row).

(** [when_matched_update(predicate="target.sys_checksum !=
    staging.sys_checksum", updates={eff_end_dt: staging.eff_strt_dt,
    sys_del_flg: 'Y'})]; [!=] is not true on a NULL either. *)
Definition update_predicate (target_row staging_row : gold_row) : bool :=
  match sys_checksum target_row, sys_checksum staging_row with
  | Some a, Some b => negb (String.eqb a b)
  | _, _ => false
  end.

Definition updates (target_row staging_row : gold_row) : gold_row :=
  {| primary_key := primary_key target_row;
     business := business target_row;
     eff_strt_dt := eff_strt_dt target_row;
     eff_end_dt := eff_strt_dt staging_row;
     sys_del_flg := "Y";
     sys_checksum := sys_checksum target_row |}.

(** The staging rows that the merge predicate joins to a target row. *)
Definition matches (staging_df : list gold_row) (target_row : gold_row)
  : list gold_row :=
  filter (merge_predicate target_row) staging_df.

(** What one merge makes of a target row.  The merge joins the target
    with the staging frame: a target row for which the update clause
    holds on some match comes out once per match, updated where the
    clause holds.  A row that no match updates stays as it is (its data
    file is not rewritten on its account). *)
Definition merged_target_row (when_matched_update : bool)
  (staging_df : list gold_row) (target_row : gold_row) : list gold_row :=
  let joined := matches staging_df target_row in
  if when_matched_update && existsb (update_predicate target_row) joined then
    map (fun s => if update_predicate target_row s
                  then updates target_row s else target_row)
        joined
  else [target_row].

(** One merge of the table-format library: the target rows as the join
    leaves them, then the staging rows that match no target row
    ([when_not_matched_insert_all]). *)
Definition merge (when_matched_update : bool) (staging_df target : list gold_row)
  : list gold_row :=
  (flat_map (merged_target_row when_matched_update staging_df) target
   ++ filter (fun s => negb (existsb (fun t => merge_predicate t s) target))
        staging_df)%list.

(** [DeltaTableWriterScdType2.__init__]: the two merges in sequence. *)
Definition DeltaTableWriterScdType2 (staging_df target : list gold_row)
  : list gold_row :=
  let phase1 := merge true staging_df target in
  merge false staging_df phase1.

(** Two keys are the same key when their values agree column by column,
    NULL with NULL: the rows "with key K" of the SCD-2 property. *)
Fixpoint key_same (k1 k2 : list (option string)) : bool :=
  match k1, k2 with
  | [], [] => true
  | Some a :: k1', Some b :: k2' => String.eqb a b && key_same k1' k2'
  | None :: k1', None :: k2' => key_same k1' k2'
  | _, _ => false
  end.

Definition is_active (k : list (option string)) (r : gold_row) : bool :=
  String.eqb (eff_end_dt r) active_sentinel && key_same (primary_key r) k.

(** The number of rows of key [k] that are currently active. *)
Definition active_count (k : list (option string)) (table : list gold_row)
  : nat :=
  List.length (filter (is_active k) table).

(** The SCD-2 property of a gold table. *)
Definition scd2 (table : list gold_row) : Prop :=
  forall k, (active_count k table <= 1)%nat.

(** What the gold engine guarantees of a staging frame's envelope:
    [eff_end_dt] is the sentinel and [eff_strt_dt] is today. *)
Definition staged (today : string) (r : gold_row) : Prop :=
  eff_end_dt r = active_sentinel /\ eff_strt_dt r = today.

(** No primary-key column of the row is NULL. *)
Definition keyed (r : gold_row) : Prop :=
  Forall (fun v => v <> None) (primary_key r).

End DataProcessor.

(** ** The two-phase merge as the specification words it *)

Module ScdType2.

Import DataProcessor.

(** The staged row that matches the active row [t] and differs from it
    in [sys_checksum]. *)
Definition successor (staging_df : list gold_row) (t : gold_row)
  : option gold_row :=
  find (fun s => merge_predicate t s && update_predicate t s) staging_df.

(** Phase 1 on a target row: a matched active row whose checksum differs
    is closed at the staging row's [eff_strt_dt] and flagged; any other
    row is left as it is. *)
Definition close (staging_df : list gold_row) (t : gold_row) : gold_row :=
  match successor staging_df t with
  | Some s => updates t s
  | None => t
  end.

(** An unmatched staged row: the target has no active row of its key. *)
Definition is_new (target : list gold_row) (s : gold_row) : bool :=
  negb (existsb (fun t => merge_predicate t s) target).

(** A replacement version: the target has active rows of the staged
    row's key, and each of them differs from it in checksum. *)
Definition is_replacement (target : list gold_row) (s : gold_row) : bool :=
  existsb (fun t => merge_predicate t s) target
  && forallb (fun t => implb (merge_predicate t s) (update_predicate t s))
       target.

(** Phase 1 closes and inserts the unmatched rows; phase 2 inserts the
    rows that phase 1 has left unmatched, the replacement versions. *)
Definition two_phase (staging_df target : list gold_row) : list gold_row :=
  (map (close staging_df) target
   ++ filter (is_new target) staging_df
   ++ filter (is_replacement target) staging_df)%list.

End ScdType2.

(** ** SilverLayerScripts/DataStandardization.py *)

Module DataStandardization.

Import Schema Polars.

(** The column expressions the standardization rules build. *)
Inductive str_expr : Type :=
| PadStart (fill_char : string) (length : Z)
| PadEnd (fill_char : string) (length : Z)
| StripChars
| StripCharsReplace (pattern value : string)
| StrReplace (pattern value : string)
| ToLowercase
| StrSlice (offset length : Z).

(** The control-plane log and the snapshot writes of one run. *)
Record state : Type := {
  log_standardization : list logDataStandardisationDtl;
  writes : list DataProcessor.write_delta_call
}.

Section WithEngine.

(** [df.with_columns(polars.col(column).str.<expr>)], evaluated by the
    query engine. *)
Variable with_columns_str : string -> str_expr -> Frame -> Py.outcome Frame.
(** [json_loads(function_params)[key]] *)
Variable json_field : option string -> string -> Py.outcome string.
(** [int(json_loads(function_params)[key])] *)
Variable json_int_field : option string -> string -> Py.outcome Z.
(** [traceback.format_exc()] inside an [except] block *)
Variable format_exc : Py.exn -> string.
(** [DeltaTableRead(landing, batch_id).read()], the rename and the
    [SchemaCaster] pass *)
Variable read_landing : option Z -> Py.outcome Frame.
Variable read_csv : string -> option string -> bool -> Py.outcome Frame.

Definition is_name (f : option string) (name : string) : bool :=
  match f with Some s => String.eqb s name | None => false end.

(** The body of the [try] block: one rule applied to the frame. *)
Definition apply_rule (data_standard : ctlDataStandardisationDtl) (df : Frame)
  : Py.outcome Frame :=
  let column := std_column_name data_standard in
  let params := function_params data_standard in
  if is_name (function_name data_standard) "padding" then
    padding_type <- json_field params "type" ;;
    padding_length <- json_int_field params "length" ;;
    padding_value <- json_field params "padding_value" ;;
    if String.eqb padding_type "left" then
      with_columns_str column (PadStart padding_value padding_length) df
    else if String.eqb padding_type "right" then
      with_columns_str column (PadEnd padding_value padding_length) df
    else Py.Raise (Py.Exception [Py.Lit "Unsuppored Padding type: ";
                                 Py.Str (Some padding_value)])
  else if is_name (function_name data_standard) "trim" then
    with_columns_str column StripChars df
  else if is_name (function_name data_standard) "blank_conversion" then
    with_columns_str column (StripCharsReplace "\s+" " ") df
  else if is_name (function_name data_standard) "replace" then
    to_replace_pattern <- json_field params "value" ;;
    replacement <- json_field params "value" ;;
    with_columns_str column (StrReplace to_replace_pattern replacement) df
  else if is_name (function_name data_standard) "type_conversion" then
    type_conversion_type <- json_field params "type" ;;
    if String.eqb type_conversion_type "lower" then
      with_columns_str column ToLowercase df
    else if String.eqb type_conversion_type "upper" then
      with_columns_str column ToLowercase df
    else Py.Return df
  else if is_name (function_name data_standard) "sub_string" then
    start_index <- json_int_field params "start_index" ;;
    length <- json_int_field params "length" ;;
    with_columns_str column (StrSlice start_index length) df
  else
    Py.Raise (Py.Exception [Py.Lit "Unknown Data Standardization Function: ";
                            Py.Str (function_name data_standard)]).

Definition log_row (dataset_master : ctlDatasetMaster)
  (unprocessed_file : logRawProcessDtl) (status : string)
  (exception_details : option string) : logDataStandardisationDtl :=
  {| std_batch_id := raw_batch_id unprocessed_file;
     std_process_id := Some (process_id dataset_master);
     std_dataset_id := Some (dataset_id dataset_master);
     std_source_file := raw_source_file unprocessed_file;
     std_data_standardisation_location :=
       data_standardisation_location dataset_master;
     std_status := Some status;
     std_exception_details := exception_details |}.

(** The loop over the rules.  The [except] block inserts a FAILED row and
    ends; the loop then goes on with the next rule and the frame as it
    was. *)
Fixpoint apply_rules (data_standard_detail : list ctlDataStandardisationDtl)
  (dataset_master : ctlDatasetMaster) (unprocessed_file : logRawProcessDtl)
  (df : Frame) (log : list logDataStandardisationDtl)
  : Frame * list logDataStandardisationDtl :=
  match data_standard_detail with
  | [] => (df, log)
  | data_standard :: rest =>
      match apply_rule data_standard df with
      | Py.Return df' =>
          apply_rules rest dataset_master unprocessed_file df' log
      | Py.Raise e =>
          apply_rules rest dataset_master unprocessed_file df
            (OrchestrationProcess.insert_data_standardisation_log log
               (log_row dataset_master unprocessed_file "FAILED"
                  (Some (format_exc e))))
      end
  end.

(** [path_to_s3(location=..., env=env)] on the two [Optional] locations,
    as the constructor computes them before it looks at the files:
    [None.split] raises. *)
Definition locations (dataset_master : ctlDatasetMaster) (env : string)
  : Py.outcome S3Process.s3_path :=
  match data_standardisation_location dataset_master,
        landing_location dataset_master with
  | Some location, Some _ => Py.Return (S3Process.path_to_s3 location env)
  | _, _ => Py.Raise Py.AttributeError
  end.

(** [DeltaTableWriter(input_data=df, ..., partition_columns=
    dataset_master.data_standardisation_partition_columns)]: a missing
    partition column list fails on [.split], after [with_columns] and
    before the write. *)
Definition write_standardized (df : Frame) (save_location : string)
  (batch_id : option Z) (partition_columns : option string)
  : Py.outcome (option DataProcessor.write_delta_call) :=
  match partition_columns with
  | Some partition_columns =>
      DataProcessor.DeltaTableWriter read_csv (DataProcessor.InFrame df)
        save_location batch_id partition_columns None false
  | None => Py.Raise Py.AttributeError
  end.

(** The body of the loop over the unprocessed files: one batch.  In the
    source the two arms of [if len(data_standard_detail) != 0] end in the
    same write and the same SUCCEEDED row; the write is outside every
    [try]. *)
Definition standardize_file
  (data_standard_detail : list ctlDataStandardisationDtl)
  (dataset_master : ctlDatasetMaster) (env : string)
  (unprocessed_file : logRawProcessDtl) (st : state)
  : state * Py.outcome unit :=
  match locations dataset_master env with
  | Py.Raise e => (st, Py.Raise e)
  | Py.Return data_standard_location =>
      match read_landing (raw_batch_id unprocessed_file) with
      | Py.Raise e => (st, Py.Raise e)
      | Py.Return df =>
          let (df, log) :=
            apply_rules data_standard_detail dataset_master unprocessed_file
              df (log_standardization st) in
          match write_standardized df
                  (S3Process.s3_location data_standard_location)
                  (raw_batch_id unprocessed_file)
                  (data_standardisation_partition_columns dataset_master) with
          | Py.Raise e =>
              ({| log_standardization := log; writes := writes st |},
               Py.Raise e)
          | Py.Return call =>
              ({| log_standardization :=
                    OrchestrationProcess.insert_data_standardisation_log log
                      (log_row dataset_master unprocessed_file "SUCCEEDED"
                         None);
                  writes := (writes st ++ match call with
                                          | Some c => [c]
                                          | None => []
                                          end)%list |},
               Py.Return tt)
          end
      end
  end.

(** [DataStandardization.__init__] over the list that
    [get_data_standardisation_unprocessed_files] returned. *)
Fixpoint standardize_files
  (data_standard_detail : list ctlDataStandardisationDtl)
  (dataset_master : ctlDatasetMaster) (env : string)
  (unprocessed_files : list logRawProcessDtl) (st : state)
  : state * Py.outcome unit :=
  match unprocessed_files with
  | [] => (st, Py.Return tt)
  | unprocessed_file :: rest =>
      match standardize_file data_standard_detail dataset_master env
              unprocessed_file st with
      | (st', Py.Return _) =>
          standardize_files data_standard_detail dataset_master env rest st'
      | (st', Py.Raise e) => (st', Py.Raise e)
      end
  end.

Definition DataStandardization
  (data_standard_detail : list ctlDataStandardisationDtl)
  (dataset_master : ctlDatasetMaster) (env : string)
  (unprocessed_files : list logRawProcessDtl) (st : state)
  : state * Py.outcome unit :=
  match locations dataset_master env with
  | Py.Raise e => (st, Py.Raise e)
  | Py.Return _ =>
      match unprocessed_files with
      | [] =>
          (st, Py.Raise (Py.Exception
             [Py.Lit "No Unprocessed files found for SILVER Layer for DatasetID: ";
              Py.Int (dataset_id dataset_master)]))
      | _ => standardize_files data_standard_detail dataset_master env
               unprocessed_files st
      end
  end.

End WithEngine.

(** The six function names the rule interpreter recognizes. *)
Definition recognized (f : option string) : bool :=
  existsb (fun n => match f with Some s => String.eqb s n | None => false end)
    ["padding"; "trim"; "blank_conversion"; "replace"; "type_conversion";
     "sub_string"].

End DataStandardization.

(** ** Common/RegexDateFormats.py *)

Module RegexDateFormats.

(** [get_date_regex(qc_param)].  The [return] sits inside the final
    [else], so the call yields [None] for each of the eight known
    formats. *)
Definition get_date_regex (qc_param : option string) : option string :=
  let known :=
    ["%Y-%m-%dT%H:%M:%S+0000"; "%Y"; "%Y-%m-%dT%H:%M:%S.%f+0000";
     "MM/DD/YYYY"; "YYYY-MM-DD HH24:MI:SS"; "%Y-%m-%dT%H:%M:%S.000Z";
     "YYYYMMDD"; "yyyy-MM-dd HH:mm:ss.nnnnnnn {+|-}hh:mm"] in
  match qc_param with
  | Some q =>
      if existsb (String.eqb q) known then None
      else Some "([0-9]{2}/[0-9]{2}/[0-9]{4})"
  | None => Some "([0-9]{2}/[0-9]{2}/[0-9]{4})"
  end.

End RegexDateFormats.

(** ** SilverLayerScripts/DataQualityCheck.py *)

Module DataQualityCheck.

Import Schema Polars.

Inductive qc_kind : Type :=
| QcNull | QcUnique | QcLength | QcDate | QcInteger | QcDecimal | QcDomain
| QcCustom.

(** [r"(^-?\d+$)"], the pattern that both [integer_dqm_check] and
    [decimal_dqm_check] pass to [str.contains]. *)
Definition integer_regex : regex :=
  Group (Seq Bol (Seq (Opt (Chr "-")) (Seq PlusDigit Eol))).

(** The decimal pattern as the specification gives it:
    [^-?\d+(\.\d+)?$]. *)
Definition spec_decimal_regex : regex :=
  Seq Bol (Seq (Opt (Chr "-"))
    (Seq PlusDigit (Seq (Opt (Group (Seq (Chr ".") PlusDigit))) Eol))).

(** [if dqm_detail.qc_filter:] *)
Definition truthy (x : option string) : bool :=
  match x with
  | Some (String _ _) => true
  | _ => false
  end.

Definition where_clause (qc_filter : option string) : string :=
  match qc_filter with
  | Some f => "SELECT * FROM self WHERE "
              ++ PyStr.join " AND " (PyStr.split_list "," f)
  | None => "SELECT * FROM self WHERE "
  end.

Section WithEngine.

(** The query engine: [df.sql(query)], [df.filter(polars.col(c))],
    [df.unique(subset)], [df.filter(polars.col(c).str.contains(p))] for a
    pattern given as text, and [df.filter(polars.col(c).sql(q))]. *)
Variable sql : string -> Frame -> Py.outcome Frame.
Variable filter_by_column : string -> Frame -> Py.outcome Frame.
Variable unique : list string -> Frame -> Py.outcome Frame.
Variable filter_contains : string -> option string -> Frame -> Py.outcome Frame.
Variable filter_sql_expr : string -> option string -> Frame -> Py.outcome Frame.
(** [json_loads(qc_param)[key]], put into an f-string *)
Variable json_field : option string -> string -> Py.outcome string.

(** The [if dqm_detail.qc_filter:] block as seven of the rule functions
    have it. *)
Definition apply_qc_filter (dqm_detail : ctlDqmMasterDtl) (passing : Frame)
  : Py.outcome Frame :=
  if truthy (qc_filter dqm_detail) then
    filtered <- filter_by_column (column_name dqm_detail) passing ;;
    sql (where_clause (qc_filter dqm_detail)) filtered
  else Py.Return passing.

(** The frame of passing rows, rule by rule. *)
Definition passing_rows (kind : qc_kind) (dqm_detail : ctlDqmMasterDtl)
  (df : Frame) : Py.outcome Frame :=
  match kind with
  | QcNull =>
      not_null <- filter_col (column_name dqm_detail)
                    (fun c => Some (match c with Null => false | _ => true end))
                    df ;;
      if truthy (qc_filter dqm_detail)
      then sql (where_clause (qc_filter dqm_detail)) not_null
      else Py.Return not_null
  | QcUnique =>
      unique_dqm_df <- unique (PyStr.split_list "," (column_name dqm_detail)) df ;;
      apply_qc_filter dqm_detail unique_dqm_df
  | QcLength =>
      param_exp <- json_field (qc_param dqm_detail) "expression" ;;
      param_value <- json_field (qc_param dqm_detail) "value" ;;
      length_validation_df <-
        sql ("SELECT * FROM self WHERE length(" ++ column_name dqm_detail
             ++ ") " ++ param_exp ++ " " ++ param_value) df ;;
      apply_qc_filter dqm_detail length_validation_df
  | QcDate =>
      date_dqm_df <-
        filter_contains (column_name dqm_detail)
          (RegexDateFormats.get_date_regex (qc_param dqm_detail)) df ;;
      apply_qc_filter dqm_detail date_dqm_df
  | QcInteger =>
      integer_dqm_df <-
        filter_col (column_name dqm_detail) (str_contains integer_regex) df ;;
      apply_qc_filter dqm_detail integer_dqm_df
  | QcDecimal =>
      decimal_dqm_df <-
        filter_col (column_name dqm_detail) (str_contains integer_regex) df ;;
      apply_qc_filter dqm_detail decimal_dqm_df
  | QcDomain =>
      match qc_param dqm_detail with
      | None => Py.Raise Py.AttributeError
      | Some allowed =>
          domain_dqm_df <-
            filter_col (column_name dqm_detail)
              (fun c => match c with
                        | Text s => Some (existsb (String.eqb s)
                                            (PyStr.split_list "," allowed))
                        | Null => Some false
                        | Num _ => None
                        end) df ;;
          apply_qc_filter dqm_detail domain_dqm_df
      end
  | QcCustom =>
      filter_sql_expr (column_name dqm_detail) (qc_param dqm_detail) df
  end.

End WithEngine.

(** The [logDqmDtl] row that every branch builds.  [process_id] is read
    from [dataset_master.dataset_id] and [qc_filter] from
    [dqm_detail.qc_param], as in the source. *)
Definition log_row (dataset_master : ctlDatasetMaster) (batch_id : option Z)
  (source_file : option string) (dqm_detail : ctlDqmMasterDtl)
  (error_count : Z) (error_pct : float) (status : string) : logDqmDtl :=
  {| dqm_process_id := Some (dataset_id dataset_master);
     dqm_dataset_id := Some (dataset_id dataset_master);
     dqm_batch_id := batch_id;
     dqm_source_file := source_file;
     dqm_column_name := Some (column_name dqm_detail);
     dqm_qc_type := Some (qc_type dqm_detail);
     dqm_qc_param := qc_param dqm_detail;
     dqm_qc_filter := qc_param dqm_detail;
     dqm_criticality := criticality dqm_detail;
     dqm_criticality_threshold_pct := criticality_threshold_pct dqm_detail;
     dqm_error_count := Some error_count;
     dqm_error_pct := Some error_pct;
     dqm_status := Some status |}.

Definition is_crit (dqm_detail : ctlDqmMasterDtl) (c : string) : bool :=
  match criticality dqm_detail with
  | Some s => String.eqb s c
  | None => false
  end.

(** [failure_percentage = (failure_count / total_count) * 100] *)
Definition failure_percentage (failure_count total_count : Z)
  : Py.outcome float :=
  q <- PyFloat.truediv failure_count total_count ;;
  Py.Return (PrimFloat.mul q (PyFloat.of_int 100)).

Definition failed_message (dataset_master : ctlDatasetMaster)
  (dqm_detail : ctlDqmMasterDtl) (pct : float) : list Py.piece :=
  [Py.Lit "DQM Checks failed for dataset ID: ";
   Py.Int (dataset_id dataset_master); Py.Lit " for ";
   Py.Str (Some (qc_type dqm_detail));
   Py.Lit "-Check as it crossed Criticality Threshold "; Py.Float pct;
   Py.Lit "%."].

(** Everything that follows the computation of the passing frame; the
    eight rule functions repeat this text.  The result pairs the DQM log
    with what the function returns: [Some] frame, [None] where the body
    ends without a [return], or the exception.  The anti-join that
    computes [failed_records] has no effect on either and is left out.

    In the zero-failure branch [null_check] writes
    [error_pct=failure_percentage], a name that is bound in the other
    branch only; the remaining seven functions write [error_pct=0]. *)
Definition gate (kind : qc_kind) (df passing : Frame)
  (batch_id : option Z) (source_file : option string)
  (dqm_detail : ctlDqmMasterDtl) (dataset_master : ctlDatasetMaster)
  (log : list logDqmDtl)
  : list logDqmDtl * Py.outcome (option Frame) :=
  let total_count := len df in
  let failure_count := total_count - len passing in
  let row := log_row dataset_master batch_id source_file dqm_detail in
  if negb (failure_count =? 0) then
    match failure_percentage failure_count total_count with
    | Py.Raise e => (log, Py.Raise e)
    | Py.Return pct =>
        if is_crit dqm_detail "C" then
          match criticality_threshold_pct dqm_detail with
          | None => (log, Py.Raise Py.TypeError)
          | Some threshold =>
              if PyFloat.ge_int pct threshold then
                (OrchestrationProcess.insert_log_dqm log
                   (row failure_count pct "FAILED"),
                 Py.Raise (Py.Exception
                             (failed_message dataset_master dqm_detail pct)))
              else if PyFloat.le_int pct threshold then
                (OrchestrationProcess.insert_log_dqm log
                   (row failure_count pct "SUCCEEDED"),
                 Py.Return (Some passing))
              else (log, Py.Return None)
          end
        else if is_crit dqm_detail "NC" then
          (OrchestrationProcess.insert_log_dqm log
             (row failure_count pct "SUCCEEDED"),
           Py.Return (Some passing))
        else (log, Py.Return None)
    end
  else
    match kind with
    | QcNull => (log, Py.Raise Py.UnboundLocalError)
    | _ =>
        (OrchestrationProcess.insert_log_dqm log
           (row failure_count (PyFloat.of_int 0) "SUCCEEDED"),
         Py.Return (Some passing))
    end.

Section RuleFunctions.

Variable sql : string -> Frame -> Py.outcome Frame.
Variable filter_by_column : string -> Frame -> Py.outcome Frame.
Variable unique : list string -> Frame -> Py.outcome Frame.
Variable filter_contains : string -> option string -> Frame -> Py.outcome Frame.
Variable filter_sql_expr : string -> option string -> Frame -> Py.outcome Frame.
Variable json_field : option string -> string -> Py.outcome string.

(** A rule function: select the passing rows, then log and gate. *)
Definition check (kind : qc_kind) (df : Frame) (batch_id : option Z)
  (source_file : option string) (dqm_detail : ctlDqmMasterDtl)
  (dataset_master : ctlDatasetMaster) (log : list logDqmDtl)
  : list logDqmDtl * Py.outcome (option Frame) :=
  match passing_rows sql filter_by_column unique filter_contains
          filter_sql_expr json_field kind dqm_detail df with
  | Py.Raise e => (log, Py.Raise e)
  | Py.Return passing =>
      gate kind df passing batch_id source_file dqm_detail dataset_master log
  end.

Definition null_check := check QcNull.
Definition unique_dqm := check QcUnique.
Definition length_dqm_check := check QcLength.
Definition date_dqm_check := check QcDate.
Definition integer_dqm_check := check QcInteger.
Definition decimal_dqm_check := check QcDecimal.
Definition domain_dqm_check := check QcDomain.
Definition custom_dqm_check := check QcCustom.

End RuleFunctions.

(** The decimal rule as the specification states it: a row passes exactly
    when the value matches [spec_decimal_regex]. *)
Definition spec_decimal_passes (c : cell) : bool :=
  match c with
  | Text s => search_from spec_decimal_regex true s
  | _ => false
  end.

End DataQualityCheck.

(** ** Log contents used to exercise the gold selector *)

Module GoldSelection.

Import Schema OrchestrationProcess.

(** A batch whose only DQM row records a critical breach. *)
Definition failed_dqm_row : logDqmDtl :=
  {| dqm_process_id := Some 1;
     dqm_dataset_id := Some 1;
     dqm_batch_id := Some 2025010109300012;
     dqm_source_file := Some "s3a://dev-bronze/inbound/sales_20250101.csv";
     dqm_column_name := Some "region";
     dqm_qc_type := Some "null";
     dqm_qc_param := None;
     dqm_qc_filter := None;
     dqm_criticality := Some "C";
     dqm_criticality_threshold_pct := Some 5;
     dqm_error_count := Some 10;
     dqm_error_pct := Some 10%float;
     dqm_status := Some "FAILED" |}.

Definition with_status (st : option string) (d : logDqmDtl) : logDqmDtl :=
  {| dqm_process_id := dqm_process_id d;
     dqm_dataset_id := dqm_dataset_id d;
     dqm_batch_id := dqm_batch_id d;
     dqm_source_file := dqm_source_file d;
     dqm_column_name := dqm_column_name d;
     dqm_qc_type := dqm_qc_type d;
     dqm_qc_param := dqm_qc_param d;
     dqm_qc_filter := dqm_qc_filter d;
     dqm_criticality := dqm_criticality d;
     dqm_criticality_threshold_pct := dqm_criticality_threshold_pct d;
     dqm_error_count := dqm_error_count d;
     dqm_error_pct := dqm_error_pct d;
     dqm_status := st |}.

End GoldSelection.

(** ** The row alignment in the words of the mapper's docstring, and
    inputs used to exercise the mapper *)

Module MapperCases.

Import JsonDataMapper.

(** The conversion applied to a text or integer value. *)
Definition converted (int_of_str : string -> option Z)
  (v : value) : value :=
  match v with
  | VStr s =>
      match int_of_str s with
      | Some z => VInt z
      | None => v
      end
  | _ => v
  end.

(** Text and integers are the values on which [int] either succeeds or
    raises [ValueError]. *)
Definition plain (v : value) : Prop :=
  match v with
  | VStr _ | VInt _ => True
  | _ => False
  end.

(** The i-th value, or the last one of a shorter list. *)
Definition aligned (values : list value) (i : nat)
  : value :=
  nth i values (List.last values VNone).


(** A column whose only extracted value is a JSON null. *)
Definition null_column : list (string * list value) := [("age", [VNone])].

(** Two columns of unequal length, text throughout. *)
Definition people : list (string * list value) :=
  [("name", [VStr "Alice"; VStr "Bob"; VStr "Carol"]);
   ("age", [VStr "30"; VStr "25"])].

End MapperCases.

(** ** Inputs used to exercise the table writer *)

Module WriterCases.

Import Polars.

(** One record as a list of dictionaries. *)
Definition one_record : list dict := [[("id", Num 1); ("region", Text "EU")]].

Definition one_frame : Frame :=
  {| columns := ["id"; "region"]; rows := [[Num 1; Text "EU"]] |}.

End WriterCases.

(** ** Gold tables used to exercise the merge *)

Module GoldCases.

Import DataProcessor.

Definition version (id name strt end_ flag checksum : string) : gold_row :=
  {| primary_key := [Some id];
     business := [Polars.Text name];
     eff_strt_dt := strt;
     eff_end_dt := end_;
     sys_del_flg := flag;
     sys_checksum := Some checksum |}.

(** Day 1: [{id=1, name="A"}] is published. *)
Definition day1 : list gold_row :=
  [version "1" "A" "2025-01-01" "9999-12-31" "N" "559aead0"].

(** Day 2: the same [id] arrives with [name="B"]. *)
Definition day2_staging : list gold_row :=
  [version "1" "B" "2025-01-02" "9999-12-31" "N" "df7e70e5"].

(** A staging frame in which one new [id] occurs twice. *)
Definition twice_staging : list gold_row :=
  [version "2" "C" "2025-01-02" "9999-12-31" "N" "6b23c0d5";
   version "2" "D" "2025-01-02" "9999-12-31" "N" "3f39d5c3"].

(** A staging frame of one row whose [id] is NULL; the checksum of the
    concatenated columns is NULL with it. *)
Definition null_key_staging : list gold_row :=
  [{| primary_key := [None];
      business := [Polars.Text "E"];
      eff_strt_dt := "2025-01-02";
      eff_end_dt := "9999-12-31";
      sys_del_flg := "N";
      sys_checksum := None |}].

End GoldCases.

(** ** Frames and rules used to exercise the quality gate *)

Module QualityCases.

Import Schema Polars.

Definition dataset : ctlDatasetMaster :=
  {| process_id := 7;
     dataset_id := 1;
     landing_location := Some "bronze/landing/sales";
     data_standardisation_location := Some "silver/standardized/sales";
     data_standardisation_partition_columns := Some "region" |}.

Definition rule (column type : string) (crit : string) (threshold : Z)
  : ctlDqmMasterDtl :=
  {| column_name := column;
     qc_type := type;
     qc_param := None;
     qc_filter := None;
     criticality := Some crit;
     criticality_threshold_pct := Some threshold |}.

(** Twenty rows, one of them without a region. *)
Definition regions : Frame :=
  {| columns := ["region"];
     rows := [Null] :: repeat [Text "EU"] 19 |}.

(** A hundred rows, twenty-nine of them without a region. *)
Definition regions_29_of_100 : Frame :=
  {| columns := ["region"];
     rows := (repeat [Null] 29 ++ repeat [Text "EU"] 71)%list |}.

(** One row, complete. *)
Definition one_region : Frame :=
  {| columns := ["region"]; rows := [[Text "EU"]] |}.

Definition one_id : Frame := {| columns := ["id"]; rows := [[Text "7"]] |}.

Definition one_amount : Frame :=
  {| columns := ["amount"]; rows := [[Text "1.5"]] |}.

(** Amounts of several shapes, one of them missing. *)
Definition amounts : Frame :=
  {| columns := ["amount"];
     rows := [[Text "12"]; [Text "1.5"]; [Null]; [Text "-7"]; [Text "7-"];
              [Text ""]] |}.

Definition batch : option Z := Some 2025010109300012.
Definition file : option string :=
  Some "s3a://dev-bronze/inbound/sales_20250101.csv".

(** A stand-in for the query engine where a rule does not reach it. *)
Definition idle : string -> Frame -> Py.outcome Frame :=
  fun _ df => Py.Return df.
Definition idle_unique : list string -> Frame -> Py.outcome Frame :=
  fun _ df => Py.Return df.
Definition idle_pattern : string -> option string -> Frame -> Py.outcome Frame :=
  fun _ _ df => Py.Return df.
Definition idle_json : option string -> string -> Py.outcome string :=
  fun _ _ => Py.Raise Py.TypeError.

(** Text made of decimal digits. *)
Fixpoint digits (s : string) : bool :=
  match s with
  | EmptyString => true
  | String a s' => is_digit a && digits s'
  end.

Definition nonempty_digits (s : string) : bool :=
  match s with
  | EmptyString => false
  | String _ _ => digits s
  end.

(** Text of ASCII characters only. *)
Fixpoint ascii_text (s : string) : bool :=
  match s with
  | EmptyString => true
  | String a s' => Nat.ltb (nat_of_ascii a) 128 && ascii_text s'
  end.

(** A cell of a column of ASCII text: such text, or a null. *)
Definition ascii_cell (c : cell) : Prop :=
  match c with
  | Text s => ascii_text s = true
  | Null => True
  | Num _ => False
  end.

(** An optional minus sign and at least one digit. *)
Definition integer_text (s : string) : bool :=
  match s with
  | String "-" ds => nonempty_digits ds
  | _ => nonempty_digits s
  end.

End QualityCases.

(** ** A batch used to exercise the standardization pass *)

Module StandardizationCases.

Import Schema Polars.

(** A rule whose function the interpreter does not know. *)
Definition capitalize : ctlDataStandardisationDtl :=
  {| std_column_name := "region";
     function_name := Some "capitalize";
     function_params := None |}.

Definition landed : logRawProcessDtl :=
  {| raw_batch_id := Some 2025010109300012;
     raw_source_file := Some "s3a://dev-bronze/inbound/sales_20250101.csv" |}.

Definition landing : option Z -> Py.outcome Frame :=
  fun _ => Py.Return QualityCases.one_region.

Definition fresh : DataStandardization.state :=
  {| DataStandardization.log_standardization := [];
     DataStandardization.writes := [] |}.

Definition unknown_function : Py.exn :=
  Py.Exception [Py.Lit "Unknown Data Standardization Function: ";
                Py.Str (Some "capitalize")].

End StandardizationCases.

(** ** Stand-ins for the CSV reader *)

Module ReaderCases.

(** A reader that finds one record under every path. *)
Definition one_file : string -> option string -> bool -> Py.outcome Polars.Frame :=
  fun _ _ _ => Py.Return WriterCases.one_frame.

(** A reader that finds nothing. *)
Definition no_file : string -> option string -> bool -> Py.outcome Polars.Frame :=
  fun _ _ _ => Py.Raise (Py.Exception [Py.Lit "FileNotFoundError"]).

End ReaderCases.

(** ** Common/JsonDataMapper.py, continued *)

Module JsonPathMapper.

Import JsonDataMapper.

Section WithJsonPath.

(** The JSON document type and [parse(path).find(document)], reduced to
    the values of the matches; [parse] raises on a path it cannot read. *)
Variable document : Type.
Variable find : string -> document -> Py.outcome (list value).
Variable int_of_str : string -> option Z.

(** The loop of [get_mapped_data] that fills [parsing_results]. *)
Fixpoint parsing_results (mapping : list (string * string))
  (json_data : document) : Py.outcome (list (string * list value)) :=
  match mapping with
  | [] => Py.Return []
  | (j_key, j_value) :: rest =>
      temp_list <- find j_value json_data ;;
      others <- parsing_results rest json_data ;;
      Py.Return ((j_key, temp_list) :: others)
  end.

(** [JsonDataMapper(mapping, json_data).get_mapped_data()] *)
Definition get_mapped_data (mapping : list (string * string))
  (json_data : document) : Py.outcome (list row) :=
  data <- parsing_results mapping json_data ;;
  convert_to_dict int_of_str data.

End WithJsonPath.

End JsonPathMapper.

(** ** A document and a path evaluator used to exercise the mapper *)

Module PathCases.

Import JsonDataMapper.

(** A stand-in for the JSONPath library on one fixed document: the path
    [$.people[*].name] has two matches, every other path has none. *)
Definition found (path : string) : list value :=
  if String.eqb path "$.people[*].name" then [VStr "Alice"; VStr "Bob"]
  else [].

Definition find (path : string) (_ : unit) : Py.outcome (list value) :=
  Py.Return (found path).

End PathCases.

(** ** The batch id that the bronze engine and the extractors mint *)

Module BatchId.

(** What [datetime.now()] returns, to the microsecond. *)
Record datetime : Type := {
  year : nat; month : nat; day : nat;
  hour : nat; minute : nat; second : nat; microsecond : nat
}.

(** [now.strftime("%Y%m%d%H%M%S%f")] *)
Definition strftime (now : datetime) : string :=
  FileNameGenerator.decimal 4 (year now) ++
  FileNameGenerator.decimal 2 (month now) ++
  FileNameGenerator.decimal 2 (day now) ++
  FileNameGenerator.decimal 2 (hour now) ++
  FileNameGenerator.decimal 2 (minute now) ++
  FileNameGenerator.decimal 2 (second now) ++
  FileNameGenerator.decimal 6 (microsecond now).

(** [s[:-1]] *)
Fixpoint but_last (s : string) : string :=
  match s with
  | EmptyString => EmptyString
  | String a EmptyString => EmptyString
  | String a s' => String a (but_last s')
  end.

(** [int(s)] on text that the caller built from digits. *)
Definition int_of_digits (s : string) : Py.outcome Z :=
  match s with
  | EmptyString => Py.Raise Py.ValueError
  | _ =>
      match JsonDataMapper.read_digits s 0 with
      | Some z => Py.Return z
      | None => Py.Raise Py.ValueError
      end
  end.

(** [int(datetime.now().strftime("%Y%m%d%H%M%S%f")[:-1])] *)
Definition batch_id (now : datetime) : Py.outcome Z :=
  int_of_digits (but_last (strftime now)).

(** A calendar instant: every field within the range [datetime] allows. *)
Definition valid (now : datetime) : Prop :=
  Z.of_nat (year now) < 10000 /\ Z.of_nat (month now) < 100 /\
  Z.of_nat (day now) < 100 /\ Z.of_nat (hour now) < 100 /\
  Z.of_nat (minute now) < 100 /\ Z.of_nat (second now) < 100 /\
  Z.of_nat (microsecond now) < 1000000.

End BatchId.

(** ** Models/schema.py and Common/OrchestrationProcess.py, continued: the
    bronze logs and the remaining work selectors *)

Module Catalog.

Import Schema.

(** [logRawProcessDtl], without its key and timestamps. *)
Record logRawProcessDtl : Type := {
  batch_id : option Z;
  process_id : option Z;
  dataset_id : option Z;
  source_file : option string;
  landing_location : option string;
  file_status : option string;
  exception_details : option string
}.

(** [logDataAcquisitionDetail], without its key, dates and timestamps. *)
Record logDataAcquisitionDetail : Type := {
  acq_batch_id : option Z;
  acq_process_id : option Z;
  pre_ingestion_dataset_id : option Z;
  outbound_source_location : option string;
  inbound_file_location : option string;
  acq_status : option string;
  acq_exception_details : option string
}.

(** SQL's AND on three-valued conditions. *)
Definition and_ (a b : Sql.tri) : Sql.tri :=
  match a, b with
  | Some false, _ | _, Some false => Some false
  | Some true, Some true => Some true
  | _, _ => None
  end.

(** [ORDER BY key ASC], as the default backend (SQLite) evaluates it:
    NULLs first, ties in table order. *)
Definition key_le (a b : option Z) : bool :=
  match a, b with
  | None, _ => true
  | Some _, None => false
  | Some x, Some y => x <=? y
  end.

Fixpoint insert_by {A : Type} (key : A -> option Z) (x : A) (l : list A)
  : list A :=
  match l with
  | [] => [x]
  | y :: rest =>
      if key_le (key x) (key y) then x :: l else y :: insert_by key x rest
  end.

Definition order_by {A : Type} (key : A -> option Z) (l : list A) : list A :=
  fold_right (insert_by key) [] l.

(** [get_log_data_acquisition_detail(process_id, dataset_id, status)] *)
Definition get_log_data_acquisition_detail
  (log : list logDataAcquisitionDetail) (pid did : Z) (status : string)
  : list logDataAcquisitionDetail :=
  filter (fun r =>
            Sql.holds
              (and_ (and_ (Sql.eq_int (acq_process_id r) pid)
                       (Sql.eq_int (pre_ingestion_dataset_id r) did))
                 (Sql.eq_str (acq_status r) status)))
    log.

(** [get_log_raw_process_dtl(process_id, dataset_id, status)] *)
Definition get_log_raw_process_dtl (log : list logRawProcessDtl)
  (pid did : Z) (status : string) : list logRawProcessDtl :=
  order_by batch_id
    (filter (fun r =>
               Sql.holds
                 (and_ (and_ (Sql.eq_int (process_id r) pid)
                          (Sql.eq_int (dataset_id r) did))
                    (Sql.eq_str (file_status r) status)))
       log).

(** [insert_log_raw_process_detail], [insert_log_data_acquisition_detail] *)
Definition insert_log_raw_process_detail (log : list logRawProcessDtl)
  (r : logRawProcessDtl) : list logRawProcessDtl := (log ++ [r])%list.
Definition insert_log_data_acquisition_detail
  (log : list logDataAcquisitionDetail) (r : logDataAcquisitionDetail)
  : list logDataAcquisitionDetail := (log ++ [r])%list.

(** [get_data_standardisation_unprocessed_files(process_id, dataset_id)] *)
Definition get_data_standardisation_unprocessed_files
  (log_raw : list logRawProcessDtl)
  (log_standardization : list logDataStandardisationDtl) (pid did : Z)
  : list logRawProcessDtl :=
  let subquery :=
    map std_source_file
      (filter (fun s => Sql.holds (Sql.eq_str (std_status s) "SUCCEEDED"))
         log_standardization) in
  order_by batch_id
    (filter (fun r =>
               Sql.holds (Sql.not_ (Sql.in_ (source_file r) subquery))
               && Sql.holds (Sql.eq_int (process_id r) pid)
               && Sql.holds (Sql.eq_int (dataset_id r) did)
               && Sql.holds (Sql.eq_str (file_status r) "SUCCEEDED"))
       log_raw).

(** [get_dqm_unprocessed_files(process_id, dataset_id)] *)
Definition get_dqm_unprocessed_files
  (log_standardization : list logDataStandardisationDtl)
  (log_dqm : list logDqmDtl) (pid did : Z)
  : list logDataStandardisationDtl :=
  let subquery :=
    map dqm_source_file
      (filter (fun d => Sql.holds (Sql.eq_str (dqm_status d) "SUCCEEDED"))
         log_dqm) in
  order_by std_batch_id
    (filter (fun s =>
               Sql.holds (Sql.not_ (Sql.in_ (std_source_file s) subquery))
               && Sql.holds (Sql.eq_int (std_process_id s) pid)
               && Sql.holds (Sql.eq_int (std_dataset_id s) did)
               && Sql.holds (Sql.eq_str (std_status s) "SUCCEEDED"))
       log_standardization).

(** [get_transformation_dqm_unprocessed_files(process_id, dataset_id)] *)
Definition get_transformation_dqm_unprocessed_files
  (log_transformation : list logTransformationDtl)
  (log_dqm : list logDqmDtl) (pid did : Z) : list logTransformationDtl :=
  let subquery :=
    map dqm_source_file
      (filter (fun d =>
                 Sql.holds (and_ (Sql.eq_str (dqm_status d) "SUCCEEDED")
                              (Sql.eq_int (dqm_dataset_id d) did)))
         log_dqm) in
  order_by tr_batch_id
    (filter (fun t =>
               Sql.holds (Sql.not_ (Sql.in_ (tr_source_file t) subquery))
               && Sql.holds (Sql.eq_int (tr_process_id t) pid)
               && Sql.holds (Sql.eq_int (tr_dataset_id t) did)
               && Sql.holds (Sql.eq_str (tr_status t) "SUCCEEDED"))
       log_transformation).

(** The row that the silver engine takes from the selector. *)
Definition unprocessed_file (r : logRawProcessDtl) : Schema.logRawProcessDtl :=
  {| raw_batch_id := batch_id r; raw_source_file := source_file r |}.

(** The list is in ascending key order, NULLs first. *)
Fixpoint ascending {A : Type} (key : A -> option Z) (l : list A) : Prop :=
  match l with
  | [] => True
  | x :: rest =>
      Forall (fun y => key_le (key x) (key y) = true) rest /\
      ascending key rest
  end.

End Catalog.

(** ** Log rows used to exercise the selectors *)

Module CatalogCases.

Import Schema.

Definition landed_row : Catalog.logRawProcessDtl :=
  {| Catalog.batch_id := Some 2025010109300012;
     Catalog.process_id := Some 7;
     Catalog.dataset_id := Some 1;
     Catalog.source_file := Some "s3a://dev-bronze/inbound/sales_20250101.csv";
     Catalog.landing_location := Some "bronze/landing/sales";
     Catalog.file_status := Some "SUCCEEDED";
     Catalog.exception_details := None |}.

Definition standardized_row : logDataStandardisationDtl :=
  {| std_batch_id := Some 2025010109300012;
     std_process_id := Some 7;
     std_dataset_id := Some 1;
     std_source_file := Some "s3a://dev-bronze/inbound/sales_20250101.csv";
     std_data_standardisation_location := Some "silver/standardized/sales";
     std_status := Some "SUCCEEDED";
     std_exception_details := None |}.

(** A SUCCEEDED standardization row that names no source file. *)
Definition nameless_row : logDataStandardisationDtl :=
  {| std_batch_id := Some 2025010109300099;
     std_process_id := Some 9;
     std_dataset_id := Some 4;
     std_source_file := None;
     std_data_standardisation_location := None;
     std_status := Some "SUCCEEDED";
     std_exception_details := None |}.

End CatalogCases.

(** ** MedallionProcess/BronzeLayer.py: [_handle_raw_table_creation] *)

Module BronzeLayer.

Import Polars.

(** [ctlDatasetMaster], the columns the bronze layer reads. *)
Record ctlDatasetMaster : Type := {
  process_id : Z;
  dataset_id : Z;
  inbound_location : option string;
  inbound_file_pattern : option string;
  inbound_file_delimiter : option string;
  landing_location : option string;
  landing_partition_columns : option string
}.

(** The raw-process log and the landing writes of one run. *)
Record state : Type := {
  log_raw : list Catalog.logRawProcessDtl;
  writes : list DataProcessor.write_delta_call
}.

(** [x.split("/")[-1]] *)
Definition base_name (x : string) : string :=
  last (PyStr.split_list "/" x) EmptyString.

(** [x in raw_completed_files], on the values a log row can hold. *)
Definition completed (raw_completed_files : list (option string)) (x : string)
  : bool :=
  existsb (fun c => match c with
                    | Some y => String.eqb x y
                    | None => false
                    end) raw_completed_files.

Section WithStore.

Variable env : string.

(** [s3_client.list_objects_v2(Bucket, Prefix).get("Contents")], reduced
    to the keys: [None] where the response has no [Contents]. *)
Variable list_objects_v2 : string -> string -> option (list string).

(** [re.match], as in [PatternValidator]. *)
Variable regex_pattern_matches : string -> string -> Py.outcome bool.

(** [polars.read_csv], as in [DataProcessor]. *)
Variable read_csv : string -> option string -> bool -> Py.outcome Frame.

(** [traceback.format_exc()] *)
Variable format_exc : Py.exn -> string.

(** The order in which a [set] of these strings is iterated; Python leaves
    it open. *)
Variable set_iter : list string -> list string.

(** [datetime.now()] as read at the top of the loop body for the n-th
    file. *)
Variable clock : nat -> BatchId.datetime.

(** [S3Process.s3_list_files]: the keys, or [False] (here [None]) when
    there are none. *)
Definition s3_list_files (bucket file_name : string) : option (list string) :=
  match list_objects_v2 bucket file_name with
  | Some (x :: files) => Some (x :: files)
  | _ => None
  end.

(** [path_to_s3(location=..., env=env)] on an [Optional] column. *)
Definition path_of (location : option string) : Py.outcome S3Process.s3_path :=
  match location with
  | Some l => Py.Return (S3Process.path_to_s3 l env)
  | None => Py.Raise Py.AttributeError
  end.

(** [validate_pattern(file_pattern=file_pattern, file_name=...)] on an
    [Optional] pattern: [in] on [None] raises. *)
Definition validate (file_pattern : option string) (file_name : string)
  : Py.outcome (option bool) :=
  match file_pattern with
  | Some p =>
      PatternValidator.validate_pattern regex_pattern_matches p file_name false
  | None => Py.Raise Py.TypeError
  end.

(** The comprehension that keeps the files on which [validate_pattern]
    returns a true value. *)
Fixpoint matching (file_pattern : option string) (files : list string)
  : Py.outcome (list string) :=
  match files with
  | [] => Py.Return []
  | x :: rest =>
      keep <- validate file_pattern (base_name x) ;;
      rest' <- matching file_pattern rest ;;
      Py.Return (match keep with
                 | Some true => x :: rest'
                 | _ => rest'
                 end)
  end.

(** [DeltaTableWriter(input_data=new_file, ...)] with an [Optional]
    partition column list: [partition_columns.split] is reached after the
    file has been read. *)
Definition write_landing (dataset : ctlDatasetMaster)
  (landing_path : S3Process.s3_path) (new_file : string) (batch_id : Z)
  : Py.outcome (option DataProcessor.write_delta_call) :=
  match landing_partition_columns dataset with
  | Some partition_columns =>
      DataProcessor.DeltaTableWriter read_csv (DataProcessor.InPath new_file)
        (S3Process.s3_location landing_path) (Some batch_id)
        partition_columns (inbound_file_delimiter dataset) false
  | None =>
      if PyStr.contains "csv" new_file || PyStr.contains "txt" new_file then
        _ <- read_csv new_file (inbound_file_delimiter dataset) false ;;
        Py.Raise Py.AttributeError
      else Py.Return None
  end.

Definition log_row (self_process_id : Z) (dataset : ctlDatasetMaster)
  (batch_id : option Z) (new_file status : string)
  (exception_details : option string) : Catalog.logRawProcessDtl :=
  {| Catalog.batch_id := batch_id;
     Catalog.process_id := Some self_process_id;
     Catalog.dataset_id := Some (dataset_id dataset);
     Catalog.source_file := Some new_file;
     Catalog.landing_location := landing_location dataset;
     Catalog.file_status := Some status;
     Catalog.exception_details := exception_details |}.

(** The loop over the new files; [n] counts the files already done. *)
Fixpoint create_tables (self_process_id : Z) (dataset : ctlDatasetMaster)
  (landing_path : S3Process.s3_path) (new_files : list string) (n : nat)
  (st : state) : state * Py.outcome unit :=
  match new_files with
  | [] => (st, Py.Return tt)
  | new_file :: rest =>
      match BatchId.batch_id (clock n) with
      | Py.Raise e => (st, Py.Raise e)
      | Py.Return batch_id =>
          match write_landing dataset landing_path new_file batch_id with
          | Py.Return call =>
              create_tables self_process_id dataset landing_path rest (S n)
                {| log_raw :=
                     Catalog.insert_log_raw_process_detail (log_raw st)
                       (log_row self_process_id dataset (Some batch_id)
                          new_file "SUCCEEDED" None);
                   writes := (writes st ++ match call with
                                           | Some c => [c]
                                           | None => []
                                           end)%list |}
          | Py.Raise e =>
              ({| log_raw :=
                    Catalog.insert_log_raw_process_detail (log_raw st)
                      (log_row self_process_id dataset None new_file "FAILED"
                         (Some (format_exc e)));
                  writes := writes st |},
               Py.Raise e)
          end
      end
  end.

(** The files the loop will go through: listed, not yet logged as
    SUCCEEDED, and accepted by the pattern. *)
Definition new_files (dataset : ctlDatasetMaster) (st : state)
  : Py.outcome (list string) :=
  let ingestion_logs :=
    Catalog.get_log_raw_process_dtl (log_raw st) (process_id dataset)
      (dataset_id dataset) "SUCCEEDED" in
  inbound_path <- path_of (inbound_location dataset) ;;
  _ <- path_of (landing_location dataset) ;;
  match s3_list_files (S3Process.bucket inbound_path)
          (S3Process.key inbound_path) with
  | None => Py.Raise Py.TypeError
  | Some files_in_inbound =>
      let files_in_inbound :=
        map (fun x => "s3a://" ++ S3Process.bucket inbound_path ++ "/" ++ x)
          files_in_inbound in
      let raw_completed_files := map Catalog.source_file ingestion_logs in
      let new_files :=
        set_iter (filter (fun x => negb (completed raw_completed_files x))
                    files_in_inbound) in
      matching (inbound_file_pattern dataset) new_files
  end.

(** [BronzeLayer._handle_raw_table_creation(dataset)] *)
Definition _handle_raw_table_creation (self_process_id : Z)
  (dataset : ctlDatasetMaster) (st : state) : state * Py.outcome unit :=
  match new_files dataset st with
  | Py.Raise e => (st, Py.Raise e)
  | Py.Return [] =>
      (st, Py.Raise (Py.Exception
                       [Py.Lit "No new files found to create raw delta table."]))
  | Py.Return files =>
      match path_of (landing_location dataset) with
      | Py.Raise e => (st, Py.Raise e)
      | Py.Return landing_path =>
          create_tables self_process_id dataset landing_path files 0 st
      end
  end.

End WithStore.

End BronzeLayer.

(** ** Stand-ins for the bronze layer *)

Module BronzeCases.

Import BronzeLayer.

(** A row of a file that was landed: SUCCEEDED, with a batch id. *)
Definition landed (r : Catalog.logRawProcessDtl) : Prop :=
  Catalog.file_status r = Some "SUCCEEDED" /\ Catalog.batch_id r <> None.

Definition sales (pattern : string) : ctlDatasetMaster :=
  {| process_id := 7; dataset_id := 1;
     inbound_location := Some "bronze/inbound/sales";
     inbound_file_pattern := Some pattern;
     inbound_file_delimiter := Some ",";
     landing_location := Some "bronze/landing/sales";
     landing_partition_columns := Some "region" |}.

(** An inbound folder with one object, and an empty one. *)
Definition one_object (name : string)
  : string -> string -> option (list string) :=
  fun _ _ => Some ["inbound/sales/" ++ name].
Definition no_object : string -> string -> option (list string) :=
  fun _ _ => None.

(** A regular-expression engine that accepts every name. *)
Definition accept : string -> string -> Py.outcome bool :=
  fun _ _ => Py.Return true.

Definition fresh : state := {| log_raw := []; writes := [] |}.

Definition in_order : list string -> list string := fun l => l.

Definition clock (n : nat) : BatchId.datetime :=
  {| BatchId.year := 2025; BatchId.month := 1; BatchId.day := 1;
     BatchId.hour := 9; BatchId.minute := 30; BatchId.second := n;
     BatchId.microsecond := 120 |}.

Definition format_exc : Py.exn -> string := fun _ => "Traceback".

End BronzeCases.

(** ** Common/DataProcessor.py: [DeltaTableRead] *)

Module DeltaTableRead.

Import Polars.

(** [polars.col("batch_id") == batch_id] on one cell; text cannot be
    compared with a number. *)
Definition batch_is (batch_id : Z) (c : cell) : option bool :=
  match c with
  | Num z => Some (Z.eqb z batch_id)
  | Null => Some false
  | Text _ => None
  end.

Section WithTable.

(** The whole table at a path ([polars.scan_delta(...).collect()],
    [polars.read_delta]) and its rows of the greatest batch id, as the
    engine evaluates them. *)
Variable table : string -> Py.outcome Frame.
Variable latest_batch : string -> Py.outcome Frame.

(** [DeltaTableRead(delta_path, batch_id, latest).read()]; the test
    [if self.batch_id:] is false on [None] and on 0. *)
Definition read (delta_path : string) (batch_id : option Z) (latest : bool)
  : Py.outcome Frame :=
  let unfiltered :=
    if latest then latest_batch delta_path else table delta_path in
  match batch_id with
  | Some b =>
      if Z.eqb b 0 then unfiltered
      else
        df <- table delta_path ;;
        filter_col "batch_id" (batch_is b) df
  | None => unfiltered
  end.

End WithTable.

End DeltaTableRead.

(** ** SilverLayerScripts/DataQualityCheck.py: [DataQualityCheck.__init__] *)

Module QualityRun.

Import Schema Polars.

(** [str.lower()] on the letters A to Z; no other character lowers to a
    letter of the eight rule names. *)
Definition lower_char (a : ascii) : ascii :=
  let n := nat_of_ascii a in
  if (65 <=? n)%nat && (n <=? 90)%nat then ascii_of_nat (n + 32) else a.

Fixpoint lower (s : string) : string :=
  match s with
  | EmptyString => EmptyString
  | String a rest => String (lower_char a) (lower rest)
  end.

(** The eight [if dqm_detail.qc_type.lower() == ...] tests of the loop
    body: at most one of them holds. *)
Definition dispatch (qc_type : string) : option DataQualityCheck.qc_kind :=
  let t := lower qc_type in
  if String.eqb t "null" then Some DataQualityCheck.QcNull
  else if String.eqb t "unique" then Some DataQualityCheck.QcUnique
  else if String.eqb t "decimal" then Some DataQualityCheck.QcDecimal
  else if String.eqb t "integer" then Some DataQualityCheck.QcInteger
  else if String.eqb t "length" then Some DataQualityCheck.QcLength
  else if String.eqb t "date" then Some DataQualityCheck.QcDate
  else if String.eqb t "domain" then Some DataQualityCheck.QcDomain
  else if String.eqb t "custom" then Some DataQualityCheck.QcCustom
  else None.

(** The DQM log and the staging writes of one run. *)
Record state : Type := {
  log_dqm : list logDqmDtl;
  writes : list DataProcessor.write_delta_call
}.

Section WithEngine.

Variable sql : string -> Frame -> Py.outcome Frame.
Variable filter_by_column : string -> Frame -> Py.outcome Frame.
Variable unique : list string -> Frame -> Py.outcome Frame.
Variable filter_contains : string -> option string -> Frame -> Py.outcome Frame.
Variable filter_sql_expr : string -> option string -> Frame -> Py.outcome Frame.
Variable json_field : option string -> string -> Py.outcome string.
Variable read_csv : string -> option string -> bool -> Py.outcome Frame.
Variable table : string -> Py.outcome Frame.
Variable latest_batch : string -> Py.outcome Frame.

(** The loop over the rules.  [dqm_check_df] is [None] once a rule
    function has ended without a [return]; the next rule function then
    fails on [len(df)]. *)
Fixpoint run_rules (dqm_details : list ctlDqmMasterDtl)
  (dqm_check_df : option Frame) (batch_id : option Z)
  (source_file : option string) (dataset_master : ctlDatasetMaster)
  (log : list logDqmDtl) : list logDqmDtl * Py.outcome (option Frame) :=
  match dqm_details with
  | [] => (log, Py.Return dqm_check_df)
  | dqm_detail :: rest =>
      match dispatch (qc_type dqm_detail) with
      | None =>
          run_rules rest dqm_check_df batch_id source_file dataset_master log
      | Some kind =>
          match dqm_check_df with
          | None => (log, Py.Raise Py.TypeError)
          | Some df =>
              match DataQualityCheck.check sql filter_by_column unique
                      filter_contains filter_sql_expr json_field kind df
                      batch_id source_file dqm_detail dataset_master log with
              | (log', Py.Return dqm_check_df') =>
                  run_rules rest dqm_check_df' batch_id source_file
                    dataset_master log'
              | (log', Py.Raise e) => (log', Py.Raise e)
              end
          end
      end
  end.

(** [DeltaTableWriter(input_data=..., save_location=..., batch_id=...,
    partition_columns=dataset_master.staging_partition_columns)]: a frame,
    or [None], which is neither a frame nor a path and so takes the
    writer's last branch, where [polars.DataFrame(None)] is the empty
    frame and the call [write_delta(file=...)] is refused; a missing
    partition column list fails on [.split] before that. *)
Definition write_staging (input_data : option Frame) (save_location : string)
  (batch_id : option Z) (staging_partition_columns : option string)
  : Py.outcome (option DataProcessor.write_delta_call) :=
  match staging_partition_columns with
  | Some partition_columns =>
      DataProcessor.DeltaTableWriter read_csv
        match input_data with
        | Some df => DataProcessor.InFrame df
        | None => DataProcessor.InDicts []
        end
        save_location batch_id partition_columns None false
  | None => Py.Raise Py.AttributeError
  end.

(** The row of the branch without rules. *)
Definition log_row (dataset_master : ctlDatasetMaster)
  (unprocessed_file : logDataStandardisationDtl) : logDqmDtl :=
  {| dqm_process_id := Some (process_id dataset_master);
     dqm_dataset_id := Some (dataset_id dataset_master);
     dqm_batch_id := std_batch_id unprocessed_file;
     dqm_source_file := std_source_file unprocessed_file;
     dqm_column_name := None;
     dqm_qc_type := None;
     dqm_qc_param := None;
     dqm_qc_filter := None;
     dqm_criticality := None;
     dqm_criticality_threshold_pct := None;
     dqm_error_count := Some 0;
     dqm_error_pct := Some (PyFloat.of_int 0);
     dqm_status := Some "SUCCEEDED" |}.

(** The body of the loop over the unprocessed files.  [staging_location]
    and [staging_partition_columns] are the two columns of
    [dataset_master] that [Schema.ctlDatasetMaster] does not carry. *)
Definition check_file (dqm_details : list ctlDqmMasterDtl)
  (dataset_master : ctlDatasetMaster)
  (staging_location staging_partition_columns : option string) (env : string)
  (unprocessed_file : logDataStandardisationDtl) (st : state)
  : state * Py.outcome unit :=
  match data_standardisation_location dataset_master, staging_location with
  | Some location, Some staging_location =>
      let data_standard_path := S3Process.path_to_s3 location env in
      let compute_dqm_path := S3Process.path_to_s3 staging_location env in
      match DeltaTableRead.read table latest_batch
              (S3Process.s3_location data_standard_path)
              (std_batch_id unprocessed_file) false with
      | Py.Raise e => (st, Py.Raise e)
      | Py.Return original_df =>
          match dqm_details with
          | _ :: _ =>
              match run_rules dqm_details (Some original_df)
                      (std_batch_id unprocessed_file)
                      (std_source_file unprocessed_file) dataset_master
                      (log_dqm st) with
              | (log, Py.Raise e) =>
                  ({| log_dqm := log; writes := writes st |}, Py.Raise e)
              | (log, Py.Return dqm_check_df) =>
                  match write_staging dqm_check_df
                          (S3Process.s3_location compute_dqm_path)
                          (std_batch_id unprocessed_file)
                          staging_partition_columns with
                  | Py.Raise e =>
                      ({| log_dqm := log; writes := writes st |}, Py.Raise e)
                  | Py.Return call =>
                      ({| log_dqm := log;
                          writes := (writes st ++ match call with
                                                  | Some c => [c]
                                                  | None => []
                                                  end)%list |},
                       Py.Return tt)
                  end
              end
          | [] =>
              match write_staging (Some original_df)
                      (S3Process.s3_location compute_dqm_path)
                      (std_batch_id unprocessed_file)
                      staging_partition_columns with
              | Py.Raise e => (st, Py.Raise e)
              | Py.Return call =>
                  ({| log_dqm :=
                        OrchestrationProcess.insert_log_dqm (log_dqm st)
                          (log_row dataset_master unprocessed_file);
                      writes := (writes st ++ match call with
                                              | Some c => [c]
                                              | None => []
                                              end)%list |},
                   Py.Return tt)
              end
          end
      end
  | _, _ => (st, Py.Raise Py.AttributeError)
  end.

Fixpoint check_files (dqm_details : list ctlDqmMasterDtl)
  (dataset_master : ctlDatasetMaster)
  (staging_location staging_partition_columns : option string) (env : string)
  (unprocessed_files : list logDataStandardisationDtl) (st : state)
  : state * Py.outcome unit :=
  match unprocessed_files with
  | [] => (st, Py.Return tt)
  | unprocessed_file :: rest =>
      match check_file dqm_details dataset_master staging_location
              staging_partition_columns env unprocessed_file st with
      | (st', Py.Return _) =>
          check_files dqm_details dataset_master staging_location
            staging_partition_columns env rest st'
      | (st', Py.Raise e) => (st', Py.Raise e)
      end
  end.

(** [DataQualityCheck.__init__(dqm_details, dataset_master)], on the
    standardization log as the selector finds it. *)
Definition DataQualityCheck (dqm_details : list ctlDqmMasterDtl)
  (dataset_master : ctlDatasetMaster)
  (staging_location staging_partition_columns : option string) (env : string)
  (log_standardization : list logDataStandardisationDtl) (st : state)
  : state * Py.outcome unit :=
  match Catalog.get_dqm_unprocessed_files log_standardization (log_dqm st)
          (process_id dataset_master) (dataset_id dataset_master) with
  | [] =>
      (st, Py.Raise (Py.Exception
         [Py.Lit "No unprocess files found for Data Quality Checks for dataset id: ";
          Py.Int (dataset_id dataset_master)]))
  | unprocessed_files =>
      check_files dqm_details dataset_master staging_location
        staging_partition_columns env unprocessed_files st
  end.

End WithEngine.

End QualityRun.

(** ** Stand-ins for the DQM run *)

Module QualityRunCases.

Import Schema Polars.

(** The standardized table: one batch of four rows, one without a
    region. *)
Definition standardized : Frame :=
  {| columns := ["region"; "batch_id"];
     rows := [[Null; Num 2025010109300012];
              [Text "EU"; Num 2025010109300012];
              [Text "EU"; Num 2025010109300012];
              [Text "US"; Num 2025010109300012]] |}.

Definition table : string -> Py.outcome Frame :=
  fun _ => Py.Return standardized.

(** A domain rule: the region is one of the listed values. *)
Definition domain_rule (allowed crit : string) (threshold : Z)
  : ctlDqmMasterDtl :=
  {| column_name := "region";
     qc_type := "domain";
     qc_param := Some allowed;
     qc_filter := None;
     criticality := Some crit;
     criticality_threshold_pct := Some threshold |}.

Definition fresh : QualityRun.state :=
  {| QualityRun.log_dqm := []; QualityRun.writes := [] |}.

(** The rule is not one of the eight that the loop knows. *)
Definition unknown (d : ctlDqmMasterDtl) : Prop :=
  QualityRun.dispatch (qc_type d) = None.

Definition known (d : ctlDqmMasterDtl) : bool :=
  match QualityRun.dispatch (qc_type d) with
  | Some _ => true
  | None => false
  end.

End QualityRunCases.

(** ** GoldLayerScripts/Transformation.py: [direct_transformation] *)

Module Transformation.

Import Schema Polars.

(** [ctlTransformationDependencyMaster], the columns the direct
    transformation reads. *)
Record ctlTransformationDependencyMaster : Type := {
  depedent_dataset_id : Z;
  primary_keys : option string
}.

(** [ctlDatasetMaster], the columns read of the target and of the
    dependent dataset. *)
Record table_details : Type := {
  staging_location : option string;
  transformation_location : option string;
  transformation_partition_columns : option string
}.

(** The transformation log and the gold table; [None] while nothing is
    stored under the target location. *)
Record state : Type := {
  log_transformation : list logTransformationDtl;
  gold : option (list DataProcessor.gold_row)
}.

(** [" AND ".join([f"target.{key} = staging.{key}" for key in primary_keys])] *)
Definition primary_key_conditions (primary_keys : list string) : string :=
  PyStr.join " AND "
    (map (fun key => "target." ++ key ++ " = staging." ++ key) primary_keys).

Section WithEngine.

Variable env : string.
Variable table : string -> Py.outcome Frame.
Variable latest_batch : string -> Py.outcome Frame.

(** The frame after [drop], [select(columns)] and [with_columns] with the
    system columns and the checksum, as the engine builds it, read as gold
    rows keyed by the primary-key columns. *)
Variable stage :
  list string -> list string -> option Z -> Frame ->
  Py.outcome (list DataProcessor.gold_row).

Variable format_exc : Py.exn -> string.

Definition log_row (dataset_master : ctlDatasetMaster)
  (unprocessed_file : logDqmDtl) (status : string)
  (exception_details : option string) : logTransformationDtl :=
  {| tr_batch_id := dqm_batch_id unprocessed_file;
     tr_process_id := Some (process_id dataset_master);
     tr_dataset_id := Some (dataset_id dataset_master);
     tr_source_file := dqm_source_file unprocessed_file;
     tr_status := Some status;
     tr_exception_details := exception_details |}.

(** The [try] block of the loop body: the new contents of the target
    location.  The listing of the target location is true exactly when a
    table has been written there. *)
Definition transform (columns key_columns : list string)
  (staging_path : S3Process.s3_path) (target : table_details)
  (unprocessed_file : logDqmDtl) (gold : option (list DataProcessor.gold_row))
  : Py.outcome (list DataProcessor.gold_row) :=
  let batch_id := dqm_batch_id unprocessed_file in
  staging_df <- DeltaTableRead.read table latest_batch
                  (S3Process.s3_location staging_path) batch_id false ;;
  staging_df <- stage columns key_columns batch_id staging_df ;;
  match gold with
  | Some rows =>
      Py.Return (DataProcessor.DeltaTableWriterScdType2 staging_df rows)
  | None =>
      match transformation_partition_columns target with
      | Some _ => Py.Return staging_df
      | None => Py.Raise Py.AttributeError
      end
  end.

Fixpoint transform_files (dataset_master : ctlDatasetMaster)
  (columns key_columns : list string) (staging_path : S3Process.s3_path)
  (target : table_details) (unprocessed_files : list logDqmDtl) (st : state)
  : state * Py.outcome unit :=
  match unprocessed_files with
  | [] => (st, Py.Return tt)
  | unprocessed_file :: rest =>
      match transform columns key_columns staging_path target
              unprocessed_file (gold st) with
      | Py.Return rows =>
          transform_files dataset_master columns key_columns staging_path
            target rest
            {| log_transformation :=
                 OrchestrationProcess.insert_log_transformation
                   (log_transformation st)
                   (log_row dataset_master unprocessed_file "SUCCEEDED" None);
               gold := Some rows |}
      | Py.Raise e =>
          ({| log_transformation :=
                OrchestrationProcess.insert_log_transformation
                  (log_transformation st)
                  (log_row dataset_master unprocessed_file "FAILED"
                     (Some (format_exc e)));
              gold := gold st |},
           Py.Raise e)
      end
  end.

(** [Transformation.direct_transformation()], on what the catalog returns
    for the dependency rows, the column names and the two datasets. *)
Definition direct_transformation (dataset_master : ctlDatasetMaster)
  (transformation_dependencies : list ctlTransformationDependencyMaster)
  (columns : list string)
  (target_table_details dependent_table_details : option table_details)
  (log_dqm : list logDqmDtl) (st : state) : state * Py.outcome unit :=
  match transformation_dependencies with
  | [] => (st, Py.Raise Py.IndexError)
  | transformation_dependency :: _ =>
      match primary_keys transformation_dependency,
            target_table_details, dependent_table_details with
      | Some keys, Some target, Some dependent =>
          let unprocessed_transformation_files :=
            OrchestrationProcess.get_unprocessed_transformation_files log_dqm
              (log_transformation st) (process_id dataset_master)
              (depedent_dataset_id transformation_dependency) in
          match staging_location dependent, transformation_location target with
          | Some staging, Some _ =>
              match unprocessed_transformation_files with
              | [] =>
                  (st, Py.Raise (Py.Exception
                     [Py.Lit "No unprocess files found for Dataset ID ";
                      Py.Int (dataset_id dataset_master)]))
              | _ =>
                  transform_files dataset_master columns
                    (PyStr.split_list "," keys)
                    (S3Process.path_to_s3 staging env) target
                    unprocessed_transformation_files st
              end
          | _, _ => (st, Py.Raise Py.AttributeError)
          end
      | _, _, _ => (st, Py.Raise Py.AttributeError)
      end
  end.

End WithEngine.

End Transformation.

(** ** Stand-ins for the gold transformation *)

Module TransformationCases.

Import Schema.

(** The log row a rule function leaves for the batch of January 1st. *)
Definition rule_row (column : string) : logDqmDtl :=
  {| dqm_process_id := Some 1;
     dqm_dataset_id := Some 1;
     dqm_batch_id := Some 2025010109300012;
     dqm_source_file := Some "s3a://dev-bronze/inbound/sales_20250101.csv";
     dqm_column_name := Some column;
     dqm_qc_type := Some "null";
     dqm_qc_param := None;
     dqm_qc_filter := None;
     dqm_criticality := Some "NC";
     dqm_criticality_threshold_pct := Some 5;
     dqm_error_count := Some 0;
     dqm_error_pct := Some (PyFloat.of_int 0);
     dqm_status := Some "SUCCEEDED" |}.

Definition gold_dataset : ctlDatasetMaster :=
  {| process_id := 1;
     dataset_id := 2;
     landing_location := None;
     data_standardisation_location := None;
     data_standardisation_partition_columns := None |}.

Definition dependency : Transformation.ctlTransformationDependencyMaster :=
  {| Transformation.depedent_dataset_id := 1;
     Transformation.primary_keys := Some "id" |}.

Definition details : Transformation.table_details :=
  {| Transformation.staging_location := Some "silver/staging/sales";
     Transformation.transformation_location := Some "gold/sales";
     Transformation.transformation_partition_columns := Some "region" |}.

Definition stage : list string -> list string -> option Z -> Polars.Frame ->
  Py.outcome (list DataProcessor.gold_row) :=
  fun _ _ _ _ => Py.Return GoldCases.day1.

Definition fresh : Transformation.state :=
  {| Transformation.log_transformation := []; Transformation.gold := None |}.

End TransformationCases.

(** ** Extractors/S3Extractor.py *)

Module S3Extractor.

(** [s.rstrip(c)] for one character. *)
Fixpoint rstrip (c : ascii) (s : string) : string :=
  match s with
  | EmptyString => EmptyString
  | String a rest =>
      match rstrip c rest with
      | EmptyString =>
          if Ascii.eqb a c then EmptyString else String a EmptyString
      | stripped => String a stripped
      end
  end.

(** [parse_location(outbound_location)]: the pair of [Bucket] and
    [Prefix]. *)
Definition parse_location (outbound_location : string)
  : Py.outcome (string * string) :=
  let splited_path := PyStr.split_list "/" (rstrip "/" outbound_location) in
  let splited_path :=
    match splited_path with
    | EmptyString :: rest => rest
    | _ => splited_path
    end in
  match splited_path with
  | [] => Py.Raise Py.IndexError
  | bucket_name :: rest =>
      Py.Return (bucket_name, PyStr.join "/" rest ++ "/")
  end.

(** [ctlDataAcquisitionDetail], the columns the extractor reads. *)
Record ctlDataAcquisitionDetail : Type := {
  process_id : Z;
  pre_ingestion_dataset_id : Z;
  outbound_source_location : option string;
  outbound_source_file_pattern_static : option string;
  outbound_source_file_pattern : option string;
  inbound_location : option string
}.

(** The acquisition log and the objects uploaded to the inbound bucket:
    bucket, key and content. *)
Record state : Type := {
  log_acquisition : list Catalog.logDataAcquisitionDetail;
  uploaded : list (string * string * string)
}.

(** [f"s3a://prod-{inbound_location.rstrip('/')}/{file_name_s3}"] *)
Definition file_save_name (inbound_location file_name_s3 : string) : string :=
  "s3a://prod-" ++ rstrip "/" inbound_location ++ "/" ++ file_name_s3.

(** [bucket_name] and [aws_file_key] of the upload. *)
Definition upload_target (inbound_location file_name_s3 : string)
  : string * string :=
  let (first, splited_) := PyStr.split "/" inbound_location in
  ("prod-" ++ first,
   PyStr.join "/" splited_ ++ BronzeLayer.base_name file_name_s3).

Section WithClient.

(** [json_loads] on a connection configuration: a JSON object of
    strings. *)
Variable json_loads : option string -> Py.outcome (list (string * string)).

(** [boto3.client("s3", **config_)] and, on the client it returns,
    [list_objects_v2(Bucket, Prefix).get("Contents")] reduced to the keys
    and [download_fileobj(Bucket, Key, Fileobj)] reduced to the content. *)
Variable client : list (string * string) -> Py.outcome unit.
Variable list_objects_v2 :
  list (string * string) -> string -> string -> Py.outcome (option (list string)).
Variable download_fileobj :
  list (string * string) -> string -> string -> Py.outcome string.

(** [S3Process().s3_raw_file_write(file_object, bucket, file_name)] *)
Variable s3_raw_file_write : string -> string -> string -> Py.outcome unit.

Variable regex_pattern_matches : string -> string -> Py.outcome bool.
Variable format_exc : Py.exn -> string.
Variable clock : nat -> BatchId.datetime.

Fixpoint get (k : string) (d : list (string * string)) : option string :=
  match d with
  | [] => None
  | (k', v) :: rest => if String.eqb k' k then Some v else get k rest
  end.

(** [connection_config[k]] *)
Definition getitem (k : string) (d : list (string * string))
  : Py.outcome string :=
  match get k d with
  | Some v => Py.Return v
  | None => Py.Raise Py.KeyError
  end.

(** [config_[k] = v] under [if v:], for [v = connection_config.get(k, False)] *)
Definition set_if (k target : string) (connection_config : list (string * string))
  (config_ : list (string * string)) : list (string * string) :=
  match get k connection_config with
  | Some (String a v) => (config_ ++ [(target, String a v)])%list
  | _ => config_
  end.

Definition config_of (connection_config : list (string * string))
  : Py.outcome (list (string * string)) :=
  client_id <- getitem "client_id" connection_config ;;
  client_secret <- getitem "client_secret" connection_config ;;
  Py.Return
    (set_if "signature_version" "config" connection_config
       (set_if "region" "region" connection_config
          (set_if "endpoint_url" "endpoint_url" connection_config
             [("aws_access_key_id", client_id);
              ("aws_secret_access_key", client_secret)]))).

(** [validate_pattern(file_pattern=..., file_name=..., custom=...)] on an
    [Optional] pattern: both [in] and [re.match] raise on [None]. *)
Definition validate (file_pattern : option string) (file_name : string)
  (custom : bool) : Py.outcome (option bool) :=
  match file_pattern with
  | Some p =>
      PatternValidator.validate_pattern regex_pattern_matches p file_name custom
  | None => Py.Raise Py.TypeError
  end.

Definition log_row (detail : ctlDataAcquisitionDetail) (batch_id : Z)
  (inbound_file_location : option string) (status : string)
  (exception_details : option string) : Catalog.logDataAcquisitionDetail :=
  {| Catalog.acq_batch_id := Some batch_id;
     Catalog.acq_process_id := Some (process_id detail);
     Catalog.pre_ingestion_dataset_id := Some (pre_ingestion_dataset_id detail);
     Catalog.outbound_source_location := Some "S3";
     Catalog.inbound_file_location := inbound_file_location;
     Catalog.acq_status := Some status;
     Catalog.acq_exception_details := exception_details |}.

(** The loop over the listed keys; [new_files] is the list the loop
    appends to. *)
Fixpoint extract (config_ : list (string * string)) (bucket : string)
  (pre_ingestion_processed_files : list (option string))
  (detail : ctlDataAcquisitionDetail) (files : list string)
  (new_files : list string) (st : state) : state * Py.outcome (list string) :=
  match files with
  | [] => (st, Py.Return new_files)
  | file_ :: rest =>
      let file_name_s3 := BronzeLayer.base_name file_ in
      let custom :=
        match outbound_source_file_pattern_static detail with
        | Some y => String.eqb y "Y"
        | None => false
        end in
      match validate (outbound_source_file_pattern detail) file_name_s3
              custom with
      | Py.Raise e => (st, Py.Raise e)
      | Py.Return (Some true) =>
          match inbound_location detail with
          | None => (st, Py.Raise Py.AttributeError)
          | Some inbound =>
              let file_save_name := file_save_name inbound file_name_s3 in
              if BronzeLayer.completed pre_ingestion_processed_files
                   file_save_name
              then extract config_ bucket pre_ingestion_processed_files detail
                     rest new_files st
              else
                match BatchId.batch_id (clock (List.length new_files)) with
                | Py.Raise e => (st, Py.Raise e)
                | Py.Return batch_id =>
                    let (bucket_name, aws_file_key) :=
                      upload_target inbound file_name_s3 in
                    match
                      buffer <- download_fileobj config_ bucket file_ ;;
                      _ <- s3_raw_file_write buffer bucket_name aws_file_key ;;
                      Py.Return buffer
                    with
                    | Py.Return buffer =>
                        extract config_ bucket pre_ingestion_processed_files
                          detail rest (new_files ++ [file_save_name])%list
                          {| log_acquisition :=
                               Catalog.insert_log_data_acquisition_detail
                                 (log_acquisition st)
                                 (log_row detail batch_id (Some file_save_name)
                                    "SUCCEEDED" None);
                             uploaded :=
                               (uploaded st ++
                                [(bucket_name, aws_file_key, buffer)])%list |}
                    | Py.Raise e =>
                        ({| log_acquisition :=
                              Catalog.insert_log_data_acquisition_detail
                                (log_acquisition st)
                                (log_row detail batch_id None "FAILED"
                                   (Some (format_exc e)));
                            uploaded := uploaded st |},
                         Py.Raise e)
                    end
                end
          end
      | Py.Return _ =>
          extract config_ bucket pre_ingestion_processed_files detail rest
            new_files st
      end
  end.

(** What comes before the loop: the client and the listing. *)
Definition listing (connection_config : option string)
  (detail : ctlDataAcquisitionDetail)
  : Py.outcome (list (string * string) * string * option (list string)) :=
  connection_config <- json_loads connection_config ;;
  config_ <- config_of connection_config ;;
  _ <- client config_ ;;
  s3_object_config <-
    match outbound_source_location detail with
    | Some l => parse_location l
    | None => Py.Raise Py.AttributeError
    end ;;
  files <- list_objects_v2 config_ (fst s3_object_config)
             (snd s3_object_config) ;;
  Py.Return (config_, fst s3_object_config, files).

(** [S3Extractor.__init__] *)
Definition S3Extractor (connection_config : option string)
  (pre_ingestion_logs : list Catalog.logDataAcquisitionDetail)
  (detail : ctlDataAcquisitionDetail) (st : state) : state * Py.outcome unit :=
  match listing connection_config detail with
  | Py.Raise e => (st, Py.Raise e)
  | Py.Return (config_, bucket, Some (file_ :: files)) =>
      match extract config_ bucket
              (map Catalog.inbound_file_location pre_ingestion_logs) detail
              (file_ :: files) [] st with
      | (st', Py.Return []) =>
          (st', Py.Raise (Py.Exception
                            [Py.Lit "No unprocessed files are found."]))
      | (st', Py.Return _) => (st', Py.Return tt)
      | (st', Py.Raise e) => (st', Py.Raise e)
      end
  | Py.Return _ => (st, Py.Return tt)
  end.

End WithClient.

End S3Extractor.

(** ** Stand-ins for the S3 extractor *)

Module ExtractorCases.

Definition json_loads : option string -> Py.outcome (list (string * string)) :=
  fun _ => Py.Return [("client_id", "id"); ("client_secret", "secret")].

Definition client : list (string * string) -> Py.outcome unit :=
  fun _ => Py.Return tt.

(** A source bucket with one object. *)
Definition list_objects_v2
  : list (string * string) -> string -> string ->
    Py.outcome (option (list string)) :=
  fun _ _ _ => Py.Return (Some ["outbound/sales/sales_20250101.csv"]).

Definition download_fileobj
  : list (string * string) -> string -> string -> Py.outcome string :=
  fun _ _ _ => Py.Return "id,region".

Definition s3_raw_file_write : string -> string -> string -> Py.outcome unit :=
  fun _ _ _ => Py.Return tt.

Definition sales (inbound : string) : S3Extractor.ctlDataAcquisitionDetail :=
  {| S3Extractor.process_id := 7;
     S3Extractor.pre_ingestion_dataset_id := 1;
     S3Extractor.outbound_source_location := Some "vendor/outbound/sales/";
     S3Extractor.outbound_source_file_pattern_static := None;
     S3Extractor.outbound_source_file_pattern := Some "sales_YYYYMMDD.csv";
     S3Extractor.inbound_location := Some inbound |}.

Definition fresh : S3Extractor.state :=
  {| S3Extractor.log_acquisition := []; S3Extractor.uploaded := [] |}.

End ExtractorCases.

(** ** MedallionProcess/BronzeLayer.py: [_handle_extraction], the S3 arm *)

Module Extraction.

Section WithClient.

Variable json_loads : option string -> Py.outcome (list (string * string)).
Variable client : list (string * string) -> Py.outcome unit.
Variable list_objects_v2 :
  list (string * string) -> string -> string -> Py.outcome (option (list string)).
Variable download_fileobj :
  list (string * string) -> string -> string -> Py.outcome string.
Variable s3_raw_file_write : string -> string -> string -> Py.outcome unit.
Variable regex_pattern_matches : string -> string -> Py.outcome bool.
Variable format_exc : Py.exn -> string.
Variable clock : nat -> BatchId.datetime.

(** [_handle_extraction(dataAcquisitionDetail)] where
    [outbound_source_platform] is "S3"; [connection_config] is the column
    of the connection row that the catalog returns. *)
Definition _handle_extraction (connection_config : option string)
  (dataAcquisitionDetail : S3Extractor.ctlDataAcquisitionDetail)
  (st : S3Extractor.state) : S3Extractor.state * Py.outcome unit :=
  let pre_ingestion_logs :=
    Catalog.get_log_data_acquisition_detail (S3Extractor.log_acquisition st)
      (S3Extractor.process_id dataAcquisitionDetail)
      (S3Extractor.pre_ingestion_dataset_id dataAcquisitionDetail)
      "SUCCEEDED" in
  S3Extractor.S3Extractor json_loads client list_objects_v2 download_fileobj
    s3_raw_file_write regex_pattern_matches format_exc clock connection_config
    pre_ingestion_logs dataAcquisitionDetail st.

End WithClient.

End Extraction.

(* ================================================================== *)
(** * Part II: properties *)
(* ================================================================== *)

(** ** Strings *)

Lemma split_lacks (sep : ascii) (s : string) :
  PyStr.lacks sep s = true -> PyStr.split sep s = (s, []).
Proof.
  induction s as [|a s IH]; simpl; intros H; [reflexivity|].
  apply andb_true_iff in H. destruct H as [Ha Hs].
  rewrite (IH Hs). apply negb_true_iff in Ha. rewrite Ha. reflexivity.
Qed.

Lemma split_app (sep : ascii) (seg rest : string) :
  PyStr.lacks sep seg = true ->
  PyStr.split sep (seg ++ String sep rest) =
  (seg, fst (PyStr.split sep rest) :: snd (PyStr.split sep rest)).
Proof.
  induction seg as [|a seg IH]; simpl; intros H.
  - rewrite Ascii.eqb_refl. destruct (PyStr.split sep rest); reflexivity.
  - apply andb_true_iff in H. destruct H as [Ha Hs].
    rewrite (IH Hs). apply negb_true_iff in Ha. rewrite Ha. reflexivity.
Qed.

(** Splitting the join of separator-free segments gives the segments back. *)
Lemma split_join (sep : ascii) (seg : string) (segs : list string) :
  Forall (fun x => PyStr.lacks sep x = true) (seg :: segs) ->
  PyStr.split sep (PyStr.join (String sep "") (seg :: segs)) = (seg, segs).
Proof.
  revert seg. induction segs as [|x segs IH]; intros seg H.
  - simpl. apply split_lacks. inversion H; assumption.
  - inversion H as [|? ? Hseg Hrest]; subst.
    change (PyStr.join (String sep "") (seg :: x :: segs))
      with (seg ++ String sep (PyStr.join (String sep "") (x :: segs))).
    rewrite (split_app _ _ _ Hseg), (IH x Hrest). reflexivity.
Qed.

(** Joining the result of a split gives the string back. *)
Lemma join_split (sep : ascii) (s : string) :
  PyStr.join (String sep "") (PyStr.split_list sep s) = s.
Proof.
  unfold PyStr.split_list.
  induction s as [|a s IH]; simpl; [reflexivity|].
  destruct (PyStr.split sep s) as [h t].
  destruct (Ascii.eqb a sep) eqn:E.
  - apply Ascii.eqb_eq in E. subst a. simpl in *. now rewrite IH.
  - destruct t; simpl in *; now rewrite IH.
Qed.

(** ** Path resolver *)

(** The segments of a split are free of the separator. *)
Lemma split_segments (sep : ascii) (s : string) :
  Forall (fun x => PyStr.lacks sep x = true) (PyStr.split_list sep s).
Proof.
  unfold PyStr.split_list. induction s as [|a s IH]; simpl.
  - repeat constructor.
  - destruct (PyStr.split sep s) as [h t]. destruct (Ascii.eqb a sep) eqn:E.
    + constructor; [reflexivity | exact IH].
    + inversion IH; subst. constructor; [|assumption].
      simpl. now rewrite E.
Qed.

Lemma split_rest_nonempty (sep : ascii) (s : string) :
  PyStr.lacks sep s = false -> snd (PyStr.split sep s) <> [].
Proof.
  induction s as [|a s IH]; simpl; [discriminate|].
  destruct (PyStr.split sep s) as [h t]. destruct (Ascii.eqb a sep); simpl.
  - intros _. discriminate.
  - exact IH.
Qed.

(** The resolver on a location given by its segments. *)
Lemma path_to_s3_segments (seg : string) (segs : list string) (env : string) :
  Forall (fun x => PyStr.lacks "/" x = true) (seg :: segs) ->
  S3Process.path_to_s3 (PyStr.join "/" (seg :: segs)) env =
  {| S3Process.bucket := env ++ "-" ++ seg;
     S3Process.key := PyStr.join "/" segs;
     S3Process.s3_location :=
       "s3a://" ++ (env ++ "-" ++ seg) ++ "/" ++ PyStr.join "/" segs |}.
Proof.
  intros H. unfold S3Process.path_to_s3.
  rewrite (split_join "/" seg segs H). reflexivity.
Qed.

(** C9: a location that contains a '/' is the '/'-join of a first segment
    and at least one more, all free of '/'; the resolver returns the bucket
    [env-<first segment>], the key that joins the remaining segments with
    '/', and the uri [s3a://<bucket>/<key>]. *)
Theorem path_to_s3_spec (location env : string) :
  PyStr.lacks "/" location = false ->
  exists seg segs,
    location = PyStr.join "/" (seg :: segs) /\
    Forall (fun x => PyStr.lacks "/" x = true) (seg :: segs) /\
    segs <> [] /\
    S3Process.path_to_s3 location env =
    {| S3Process.bucket := env ++ "-" ++ seg;
       S3Process.key := PyStr.join "/" segs;
       S3Process.s3_location :=
         "s3a://" ++ (env ++ "-" ++ seg) ++ "/" ++ PyStr.join "/" segs |}.
Proof.
  intros Hslash.
  pose proof (join_split "/" location) as Hjoin.
  pose proof (split_segments "/" location) as Hsegs.
  pose proof (split_rest_nonempty "/" location Hslash) as Hrest.
  unfold PyStr.split_list in Hjoin, Hsegs.
  destruct (PyStr.split "/" location) as [seg segs] eqn:E.
  exists seg, segs. simpl in Hrest.
  repeat split; [now symmetry | assumption | assumption |].
  rewrite <- Hjoin at 1. now apply path_to_s3_segments.
Qed.

Lemma path_to_s3_spec_witness :
  exists seg segs,
    "data/input/file.csv" = PyStr.join "/" (seg :: segs) /\
    Forall (fun x => PyStr.lacks "/" x = true) (seg :: segs) /\
    segs <> [] /\
    S3Process.path_to_s3 "data/input/file.csv" "dev" =
    {| S3Process.bucket := "dev" ++ "-" ++ seg;
       S3Process.key := PyStr.join "/" segs;
       S3Process.s3_location :=
         "s3a://" ++ ("dev" ++ "-" ++ seg) ++ "/" ++ PyStr.join "/" segs |}.
Proof.
  apply (path_to_s3_spec "data/input/file.csv" "dev"). reflexivity.
Defined.

Example path_to_s3_docstring :
  S3Process.path_to_s3 "data/input/file.csv" "dev" =
  {| S3Process.bucket := "dev-data";
     S3Process.key := "input/file.csv";
     S3Process.s3_location := "s3a://dev-data/input/file.csv" |}.
Proof. reflexivity. Qed.

(** ** Gold work selection *)

(** The selector never reads the status column of the DQM log: rewriting
    every status leaves the selection as it was. *)
Lemma unprocessed_transformation_files_ignore_dqm_status
  (st : option string) (log_dqm : list Schema.logDqmDtl)
  (log_transformation : list Schema.logTransformationDtl) (pid did : Z) :
  OrchestrationProcess.get_unprocessed_transformation_files
    (map (GoldSelection.with_status st) log_dqm) log_transformation pid did =
  map (GoldSelection.with_status st)
    (OrchestrationProcess.get_unprocessed_transformation_files
       log_dqm log_transformation pid did).
Proof.
  unfold OrchestrationProcess.get_unprocessed_transformation_files.
  induction log_dqm as [|d rest IH]; [reflexivity|].
  cbn [map filter]. rewrite IH.
  change (Schema.dqm_source_file (GoldSelection.with_status st d))
    with (Schema.dqm_source_file d).
  change (Schema.dqm_process_id (GoldSelection.with_status st d))
    with (Schema.dqm_process_id d).
  change (Schema.dqm_dataset_id (GoldSelection.with_status st d))
    with (Schema.dqm_dataset_id d).
  match goal with |- context [if ?c then _ else _] => destruct c end;
    reflexivity.
Qed.

(** C1: with a DQM log whose only row for the batch has status FAILED and
    an empty transformation log, the selector returns that row, while the
    selection the specification describes does not contain its source
    file. *)
Theorem unprocessed_transformation_files_select_failed_dqm :
  OrchestrationProcess.get_unprocessed_transformation_files
    [GoldSelection.failed_dqm_row] [] 1 1 = [GoldSelection.failed_dqm_row]
  /\ ~ OrchestrationProcess.spec_unprocessed_at_gold
         [GoldSelection.failed_dqm_row] [] 1 1
         "s3a://dev-bronze/inbound/sales_20250101.csv".
Proof.
  split; [reflexivity|].
  intros [[d [Hin [_ [_ [_ Hst]]]]] _].
  destruct Hin as [<-|[]]. discriminate Hst.
Qed.

(** ** Pattern matcher and name renderer *)

Lemma prefix_app_l (a b s : string) :
  String.prefix (a ++ b) s = true -> String.prefix a s = true.
Proof.
  revert s. induction a as [|c a IH]; intros s H; [now destruct s|].
  destruct s as [|c' s]; simpl in *; [discriminate|].
  destruct (Ascii.ascii_dec c c'); [eauto | discriminate].
Qed.

Lemma contains_app_l (a b s : string) :
  PyStr.contains (a ++ b) s = true -> PyStr.contains a s = true.
Proof.
  induction s as [|c s IH]; cbn [PyStr.contains]; intros H;
    apply orb_true_iff in H; apply orb_true_iff; destruct H as [H|H].
  - left. exact (prefix_app_l _ _ _ H).
  - discriminate.
  - left. exact (prefix_app_l _ _ _ H).
  - right. exact (IH H).
Qed.

(** A pattern without the token YYYY takes none of the three branches:
    the function ends without a [return], whatever the file name. *)
Lemma validate_pattern_without_date_token
  (re : string -> string -> Py.outcome bool) (file_pattern file_name : string) :
  PyStr.contains "YYYY" file_pattern = false ->
  PatternValidator.validate_pattern re file_pattern file_name false =
  Py.Return None.
Proof.
  intros H. unfold PatternValidator.validate_pattern. simpl negb. cbv iota.
  destruct (PyStr.contains "YYYYMMDD" file_pattern) eqn:E8.
  - apply (contains_app_l "YYYY" "MMDD") in E8. congruence.
  - destruct (PyStr.contains "YYYYMM" file_pattern) eqn:E6.
    + apply (contains_app_l "YYYY" "MM") in E6. congruence.
    + rewrite H. reflexivity.
Qed.

(** C7: for the pattern [report_*.csv], made of literal characters and one
    wildcard, [validate_pattern] applied to the rendered name does not
    return true: it ends without a [return], for every regular-expression
    engine and every date. *)
Theorem validate_pattern_rendered_wildcard_pattern
  (re : string -> string -> Py.outcome bool) (today : FileNameGenerator.date) :
  PatternValidator.validate_pattern re "report_*.csv"
    (FileNameGenerator.file_name_generator today "report_*.csv") false =
  Py.Return None.
Proof.
  apply validate_pattern_without_date_token. reflexivity.
Qed.

(** A pattern with two wildcards does not unpack into two parts. *)
Lemma validate_pattern_two_wildcards
  (re : string -> string -> Py.outcome bool) (today : FileNameGenerator.date) :
  PatternValidator.validate_pattern re "sales_*_YYYYMMDD_*.csv"
    (FileNameGenerator.file_name_generator today "sales_*_YYYYMMDD_*.csv")
    false = Py.Raise Py.ValueError.
Proof. reflexivity. Qed.

(** The part of a pattern before the wildcard goes into the regular
    expression as it is: a date token there is not rewritten. *)
Lemma validate_pattern_token_before_wildcard
  (re : string -> string -> Py.outcome bool) (file_name : string) :
  PatternValidator.validate_pattern re "YYYY_*.csv" file_name false =
  (b <- re "YYYY_.*.csv" file_name ;; Py.Return (Some b)).
Proof. reflexivity. Qed.

(** ** JSON path mapper *)

Lemma last_cons {A : Type} (rest : list A) (v d : A) :
  List.last (v :: rest) d = List.last rest v.
Proof.
  revert v d. induction rest as [|a rest IH]; intros v d; [reflexivity|].
  change (List.last (v :: a :: rest) d) with (List.last (a :: rest) d).
  now rewrite (IH a d), (IH a v).
Qed.

Lemma convert_plain (int_of_str : string -> option Z)
  (v : JsonDataMapper.value) :
  MapperCases.plain v ->
  JsonDataMapper.convert int_of_str v = Py.Return (MapperCases.converted int_of_str v).
Proof.
  destruct v; simpl; try contradiction; intros _; [reflexivity|].
  unfold JsonDataMapper.convert. simpl.
  destruct (int_of_str s); reflexivity.
Qed.

Lemma pick_aligned (values : list JsonDataMapper.value) (i : nat) :
  values <> [] ->
  JsonDataMapper.pick values i = Py.Return (MapperCases.aligned values i).
Proof.
  intros Hne. unfold JsonDataMapper.pick, MapperCases.aligned.
  destruct (Nat.ltb i (List.length values)) eqn:E.
  - apply Nat.ltb_lt in E.
    destruct (nth_error values i) eqn:En.
    + now rewrite (nth_error_nth _ _ _ En).
    + apply nth_error_None in En. lia.
  - apply Nat.ltb_ge in E. rewrite (nth_overflow _ _ E).
    destruct values as [|v rest]; [contradiction|].
    now rewrite last_cons.
Qed.

Lemma pick_plain (values : list JsonDataMapper.value) (i : nat) :
  values <> [] -> Forall MapperCases.plain values -> MapperCases.plain (MapperCases.aligned values i).
Proof.
  intros Hne Hall. unfold MapperCases.aligned.
  assert (Hl : MapperCases.plain (List.last values JsonDataMapper.VNone)).
  { destruct values as [|v rest]; [contradiction|].
    clear Hne. rewrite last_cons. revert v Hall.
    induction rest as [|w rest IH]; intros v Hall.
    - now inversion Hall.
    - inversion Hall; subst. rewrite last_cons. now apply IH. }
  destruct (Nat.lt_ge_cases i (List.length values)) as [Hlt|Hge].
  - rewrite Forall_forall in Hall. apply Hall. now apply nth_In.
  - now rewrite (nth_overflow _ _ Hge).
Qed.

(** One output row over columns of text and integers. *)
Lemma build_item_plain (int_of_str : string -> option Z)
  (data : list (string * list JsonDataMapper.value)) (i : nat) :
  Forall (fun kv => snd kv <> [] /\ Forall MapperCases.plain (snd kv)) data ->
  JsonDataMapper.build_item int_of_str data i =
  Py.Return
    (map (fun kv => (fst kv, MapperCases.converted int_of_str (MapperCases.aligned (snd kv) i))) data).
Proof.
  induction data as [|[k vs] rest IH]; intros H; [reflexivity|].
  inversion H as [|? ? [Hne Hpl] Hrest]; subst. simpl in Hne, Hpl.
  cbn [JsonDataMapper.build_item]. rewrite (pick_aligned vs i Hne).
  cbn [Py.bind]. rewrite (convert_plain _ _ (pick_plain vs i Hne Hpl)).
  cbn [Py.bind]. rewrite (IH Hrest). reflexivity.
Qed.

(** X11: over columns that are non-empty lists of text or integers the
    assembler returns one row per index below the longest length; row [i]
    takes each column's i-th value, or its last one, and a text that reads
    as an integer becomes that integer. *)
Theorem convert_to_dict_plain (int_of_str : string -> option Z)
  (data : list (string * list JsonDataMapper.value)) :
  data <> [] ->
  Forall (fun kv => snd kv <> [] /\ Forall MapperCases.plain (snd kv)) data ->
  JsonDataMapper.convert_to_dict int_of_str data =
  Py.Return
    (map (fun i =>
            map (fun kv => (fst kv, MapperCases.converted int_of_str (MapperCases.aligned (snd kv) i)))
              data)
       (seq 0 (JsonDataMapper.max_length data))).
Proof.
  intros Hne H. unfold JsonDataMapper.convert_to_dict.
  destruct data as [|kv rest] eqn:E; [contradiction|]. rewrite <- E in *.
  clear E Hne. generalize (seq 0 (JsonDataMapper.max_length data)).
  intros idx. induction idx as [|i idx IH]; [reflexivity|].
  cbn [JsonDataMapper.build_rows map]. rewrite (build_item_plain _ _ i H).
  cbn [Py.bind]. rewrite IH. reflexivity.
Qed.

Example convert_to_dict_people :
  JsonDataMapper.convert_to_dict JsonDataMapper.plain_int_of_str
    MapperCases.people =
  Py.Return
    [[("name", JsonDataMapper.VStr "Alice"); ("age", JsonDataMapper.VInt 30)];
     [("name", JsonDataMapper.VStr "Bob"); ("age", JsonDataMapper.VInt 25)];
     [("name", JsonDataMapper.VStr "Carol"); ("age", JsonDataMapper.VInt 25)]].
Proof. reflexivity. Qed.

(** The literals [int] reads and the ones it refuses. *)
Example plain_int_of_str_literals :
  map JsonDataMapper.plain_int_of_str
    ["30"; " 42 "; "1_000"; "-7"; "+007"; ""; " "; "1__0"; "_1"; "1_"; "- 1";
     "4 2"; "3.5"; "Alice"] =
  [Some 30; Some 42; Some 1000; Some (-7); Some 7; None; None; None; None;
   None; None; None; None; None].
Proof. reflexivity. Qed.

Lemma max_length_cons (key : string) (v : JsonDataMapper.value)
  (values : list JsonDataMapper.value)
  (rest : list (string * list JsonDataMapper.value)) :
  exists n, JsonDataMapper.max_length ((key, v :: values) :: rest) = S n.
Proof.
  unfold JsonDataMapper.max_length. cbn [fold_right snd List.length].
  match goal with |- exists n, Nat.max (S ?a) ?b = S n =>
    exists (Nat.max a (Nat.pred b)); destruct b; simpl; lia end.
Qed.

(** C10: when the first value of the first column is a JSON null, the
    assembler emits no rows: [int(None)] raises [TypeError], which the
    handler for [ValueError] lets through. *)
Theorem convert_to_dict_null_value (int_of_str : string -> option Z)
  (key : string) (values : list JsonDataMapper.value)
  (rest : list (string * list JsonDataMapper.value)) :
  JsonDataMapper.convert_to_dict int_of_str
    ((key, JsonDataMapper.VNone :: values) :: rest) =
  Py.Raise Py.TypeError.
Proof.
  unfold JsonDataMapper.convert_to_dict.
  destruct (max_length_cons key JsonDataMapper.VNone values rest) as [n ->].
  reflexivity.
Qed.

Example convert_to_dict_null_column (int_of_str : string -> option Z) :
  JsonDataMapper.convert_to_dict int_of_str MapperCases.null_column =
  Py.Raise Py.TypeError.
Proof. reflexivity. Qed.

(** Values that are neither text nor null are changed as well: a float is
    truncated and a boolean becomes 0 or 1. *)
Example convert_float_and_bool (int_of_str : string -> option Z) :
  JsonDataMapper.convert int_of_str (JsonDataMapper.VFloat 3.5%float) =
    Py.Return (JsonDataMapper.VInt 3) /\
  JsonDataMapper.convert int_of_str (JsonDataMapper.VBool true) =
    Py.Return (JsonDataMapper.VInt 1).
Proof. split; reflexivity. Qed.

(** ** Table writer *)

Lemma col_index_lt (name : string) (cols : list string) (i : nat) :
  Polars.col_index name cols = Some i -> (i < List.length cols)%nat.
Proof.
  revert i. induction cols as [|c cols IH]; intros i; simpl; [discriminate|].
  destruct (String.eqb c name).
  - intros [= <-]. lia.
  - destruct (Polars.col_index name cols); simpl; [|discriminate].
    intros [= <-]. specialize (IH _ eq_refl). lia.
Qed.

Lemma col_index_app_new (name : string) (cols : list string) :
  Polars.col_index name cols = None ->
  Polars.col_index name (cols ++ [name]) = Some (List.length cols).
Proof.
  induction cols as [|c cols IH]; simpl.
  - now rewrite String.eqb_refl.
  - destruct (String.eqb c name); [discriminate|].
    destruct (Polars.col_index name cols); simpl; [discriminate|].
    intros _. now rewrite (IH eq_refl).
Qed.

Lemma get_set_nth (i : nat) (v : Polars.cell) (r : list Polars.cell) :
  Polars.get i (Polars.set_nth i v r) = v.
Proof.
  unfold Polars.get. revert r. induction i as [|i IH]; intros [|c r]; simpl;
    auto.
Qed.

(** The frame that [with_columns] returns carries the literal in every
    row. *)
Lemma with_columns_lit_tagged (batch_id : Z) (df : Polars.Frame) :
  DataProcessor.tagged_with batch_id
    (Polars.with_columns_lit "batch_id" (Polars.Num batch_id) df).
Proof.
  unfold DataProcessor.tagged_with, Polars.with_columns_lit.
  destruct (Polars.col_index "batch_id" (Polars.columns df)) as [i|] eqn:E;
    cbn [Polars.columns Polars.rows].
  - exists i. split; [assumption|].
    apply Forall_forall. intros r Hr. apply in_map_iff in Hr.
    destruct Hr as [r0 [<- _]]. apply get_set_nth.
  - exists (List.length (Polars.columns df)). split.
    + now apply col_index_app_new.
    + apply Forall_forall. intros r Hr. apply in_map_iff in Hr.
      destruct Hr as [r0 [<- _]]. apply get_set_nth.
Qed.

(** X10: on a data frame and on a CSV/TXT path, whatever [write_delta] is
    called on carries the batch id in every row. *)
Theorem DeltaTableWriter_frame_and_path_tagged
  (read_csv : string -> option string -> bool -> Py.outcome Polars.Frame)
  (input_data : DataProcessor.input) (save_location : string) (batch_id : Z)
  (partition_columns : string) (delimiter : option string)
  (infer_schema : bool) (call : DataProcessor.write_delta_call) :
  (forall ds, input_data <> DataProcessor.InDicts ds) ->
  DataProcessor.DeltaTableWriter read_csv input_data save_location
    (Some batch_id) partition_columns delimiter infer_schema =
  Py.Return (Some call) ->
  DataProcessor.tagged_with batch_id (DataProcessor.written call).
Proof.
  intros Hnot. destruct input_data as [df|path|ds]; cbn.
  - intros [= <-]. apply with_columns_lit_tagged.
  - destruct (PyStr.contains "csv" path || PyStr.contains "txt" path);
      [|discriminate].
    destruct (read_csv path delimiter infer_schema); cbn; [|discriminate].
    intros [= <-]. apply with_columns_lit_tagged.
  - now contradiction (Hnot ds).
Qed.


(** The record of the landing example, handed over as a list of one
    dictionary. *)
Example DeltaTableWriter_dicts_example
  (read_csv : string -> option string -> bool -> Py.outcome Polars.Frame) :
  DataProcessor.DeltaTableWriter read_csv
    (DataProcessor.InDicts WriterCases.one_record)
    "s3a://dev-bronze/landing/sales" (Some 2025010109300012) "region"
    None false =
  Py.Raise Py.TypeError.
Proof. reflexivity. Qed.

(** The same record handed over as a data frame is written with the
    batch id. *)
Example DeltaTableWriter_frame_example
  (read_csv : string -> option string -> bool -> Py.outcome Polars.Frame) :
  option_map DataProcessor.written
    match DataProcessor.DeltaTableWriter read_csv
            (DataProcessor.InFrame WriterCases.one_frame)
            "s3a://dev-bronze/landing/sales" (Some 2025010109300012) "region"
            None false with
    | Py.Return c => c
    | Py.Raise _ => None
    end =
  Some {| Polars.columns := ["id"; "region"; "batch_id"];
          Polars.rows := [[Polars.Num 1; Polars.Text "EU";
                           Polars.Num 2025010109300012]] |}.
Proof. reflexivity. Qed.

(** ** SCD-2 merge *)

Lemma key_eqb_true (k1 k2 : list (option string)) :
  DataProcessor.key_eqb k1 k2 = true -> k1 = k2.
Proof.
  revert k2. induction k1 as [|[a|] k1 IH]; intros [|[b|] k2]; simpl;
    try discriminate; [reflexivity|].
  rewrite andb_true_iff, String.eqb_eq. intros [-> H].
  now rewrite (IH k2 H).
Qed.

Lemma key_eqb_refl (k : list (option string)) :
  Forall (fun v => v <> None) k -> DataProcessor.key_eqb k k = true.
Proof.
  induction 1 as [|[a|] k Ha Hk IH]; simpl; [reflexivity| |congruence].
  now rewrite String.eqb_refl.
Qed.

Lemma key_same_eq (k1 k2 : list (option string)) :
  DataProcessor.key_same k1 k2 = true <-> k1 = k2.
Proof.
  revert k2. induction k1 as [|[a|] k1 IH]; intros [|[b|] k2]; simpl;
    try (split; [discriminate | discriminate]); [tauto| |].
  - rewrite andb_true_iff, String.eqb_eq, IH.
    split; [intros [-> ->]; reflexivity | intros [= -> ->]; auto].
  - rewrite IH. split; [intros ->; reflexivity | intros [= ->]; auto].
Qed.

Lemma is_active_key (k : list (option string)) (r : DataProcessor.gold_row) :
  DataProcessor.is_active k r = true ->
  DataProcessor.eff_end_dt r = DataProcessor.active_sentinel /\
  DataProcessor.primary_key r = k.
Proof.
  unfold DataProcessor.is_active. rewrite andb_true_iff, String.eqb_eq.
  now rewrite key_same_eq.
Qed.

Lemma is_active_intro (r : DataProcessor.gold_row) :
  DataProcessor.eff_end_dt r = DataProcessor.active_sentinel ->
  DataProcessor.is_active (DataProcessor.primary_key r) r = true.
Proof.
  intros H. unfold DataProcessor.is_active. rewrite H, String.eqb_refl.
  now apply key_same_eq.
Qed.

(** A row that the merge predicate joins to a staged row is an active row
    of the staged row's key. *)
Lemma merge_predicate_active (t s : DataProcessor.gold_row) :
  DataProcessor.merge_predicate t s = true ->
  DataProcessor.is_active (DataProcessor.primary_key s) t = true.
Proof.
  unfold DataProcessor.merge_predicate, DataProcessor.is_active.
  rewrite !andb_true_iff. intros [He Hk]. split; [assumption|].
  apply key_same_eq. now apply key_eqb_true.
Qed.

Lemma active_count_app (k : list (option string))
  (l1 l2 : list DataProcessor.gold_row) :
  DataProcessor.active_count k (l1 ++ l2) =
  (DataProcessor.active_count k l1 + DataProcessor.active_count k l2)%nat.
Proof.
  unfold DataProcessor.active_count. now rewrite filter_app, length_app.
Qed.

Lemma active_count_pos (k : list (option string)) (r : DataProcessor.gold_row)
  (l : list DataProcessor.gold_row) :
  In r l -> DataProcessor.is_active k r = true ->
  (1 <= DataProcessor.active_count k l)%nat.
Proof.
  intros Hin Hact. unfold DataProcessor.active_count.
  assert (H : In r (filter (DataProcessor.is_active k) l))
    by now apply filter_In.
  destruct (filter (DataProcessor.is_active k) l); [contradiction|simpl; lia].
Qed.

Lemma active_count_zero (k : list (option string))
  (l : list DataProcessor.gold_row) :
  (forall r, In r l -> DataProcessor.is_active k r = false) ->
  DataProcessor.active_count k l = O.
Proof.
  intros H. unfold DataProcessor.active_count.
  induction l as [|a l IH]; [reflexivity|]. simpl.
  rewrite (H a (or_introl eq_refl)). apply IH. intros r Hr. apply H. now right.
Qed.

Lemma active_count_exists (k : list (option string))
  (l : list DataProcessor.gold_row) :
  (1 <= DataProcessor.active_count k l)%nat ->
  exists r, In r l /\ DataProcessor.is_active k r = true.
Proof.
  unfold DataProcessor.active_count. intros H.
  destruct (filter (DataProcessor.is_active k) l) as [|r rest] eqn:E;
    [simpl in H; lia|].
  exists r. apply filter_In. rewrite E. now left.
Qed.

(** Rewriting rows in a way that activates none does not raise the count. *)
Lemma active_count_map_le (k : list (option string))
  (f : DataProcessor.gold_row -> DataProcessor.gold_row)
  (l : list DataProcessor.gold_row) :
  (forall t, In t l -> DataProcessor.is_active k (f t) = true ->
             DataProcessor.is_active k t = true) ->
  (DataProcessor.active_count k (map f l) <= DataProcessor.active_count k l)%nat.
Proof.
  unfold DataProcessor.active_count. induction l as [|a l IH]; intros H;
    [simpl; lia|].
  assert (IH' := IH (fun t Ht => H t (or_intror Ht))).
  simpl. destruct (DataProcessor.is_active k (f a)) eqn:E.
  - rewrite (H a (or_introl eq_refl) E). simpl. lia.
  - destruct (DataProcessor.is_active k a); simpl; lia.
Qed.

Lemma active_count_filter_le (k : list (option string))
  (p : DataProcessor.gold_row -> bool) (l : list DataProcessor.gold_row) :
  (DataProcessor.active_count k (filter p l) <= DataProcessor.active_count k l)%nat.
Proof.
  unfold DataProcessor.active_count. induction l as [|a l IH]; [simpl; lia|].
  simpl. destruct (p a); simpl; destruct (DataProcessor.is_active k a);
    simpl; lia.
Qed.

(** A frame with one row per key holds at most one row of any key. *)
Lemma active_count_nodup (k : list (option string))
  (l : list DataProcessor.gold_row) :
  NoDup (map DataProcessor.primary_key l) ->
  (DataProcessor.active_count k l <= 1)%nat.
Proof.
  induction l as [|a l IH]; intros H; [unfold DataProcessor.active_count; simpl; lia|].
  inversion H as [|? ? Hnotin Hnd]; subst.
  change (a :: l) with ([a] ++ l)%list. rewrite active_count_app.
  destruct (DataProcessor.is_active k a) eqn:E.
  - rewrite (active_count_zero k l).
    + unfold DataProcessor.active_count. simpl. rewrite E. simpl. lia.
    + intros r Hr. destruct (DataProcessor.is_active k r) eqn:Er; [|reflexivity].
      exfalso. apply Hnotin. apply is_active_key in E, Er.
      destruct E as [_ ->], Er as [_ <-]. now apply in_map.
  - specialize (IH Hnd). unfold DataProcessor.active_count in *. simpl.
    rewrite E. simpl. lia.
Qed.

(** *** Lists searched and filtered by a predicate that one element meets *)

Lemma filter_find_unique {A : Type} (p : A -> bool) (l : list A) :
  NoDup l ->
  (forall a b, In a l -> In b l -> p a = true -> p b = true -> a = b) ->
  filter p l = match find p l with Some x => [x] | None => [] end.
Proof.
  induction l as [|x l IH]; intros Hnd Huniq; [reflexivity|].
  inversion Hnd as [|? ? Hnotin Hnd']; subst. simpl.
  destruct (p x) eqn:Px.
  - f_equal. assert (Hnone : forall y, In y l -> p y = false).
    { intros y Hy. destruct (p y) eqn:Py; [|reflexivity].
      exfalso. apply Hnotin.
      now rewrite (Huniq x y (or_introl eq_refl) (or_intror Hy) Px Py). }
    clear -Hnone. induction l as [|a l IH]; [reflexivity|]. simpl.
    rewrite (Hnone a (or_introl eq_refl)). apply IH.
    intros y Hy. apply Hnone. now right.
  - apply IH; [assumption|]. intros a b Ha Hb. apply Huniq; now right.
Qed.

Lemma find_and_some {A : Type} (p q : A -> bool) (l : list A) (x : A) :
  find p l = Some x -> q x = true ->
  find (fun a => p a && q a) l = Some x.
Proof.
  induction l as [|a l IH]; simpl; [discriminate|].
  destruct (p a) eqn:Pa; simpl.
  - intros [= ->] Hq. now rewrite Hq.
  - exact IH.
Qed.

Lemma find_and_none {A : Type} (p q : A -> bool) (l : list A) :
  find p l = None -> find (fun a => p a && q a) l = None.
Proof.
  induction l as [|a l IH]; simpl; [reflexivity|].
  destruct (p a); simpl; [discriminate|exact IH].
Qed.

Lemma existsb_map_ext {A B : Type} (p : B -> bool) (q : A -> bool)
  (f : A -> B) (l : list A) :
  (forall a, In a l -> p (f a) = q a) ->
  existsb p (map f l) = existsb q l.
Proof.
  induction l as [|a l IH]; intros H; [reflexivity|]. simpl.
  rewrite (H a (or_introl eq_refl)). f_equal. apply IH.
  intros b Hb. apply H. now right.
Qed.

Lemma negb_existsb_implb {A : Type} (p q : A -> bool) (l : list A) :
  negb (existsb (fun a => p a && negb (q a)) l) =
  forallb (fun a => implb (p a) (q a)) l.
Proof.
  induction l as [|a l IH]; [reflexivity|]. simpl.
  rewrite negb_orb, IH. f_equal. now destruct (p a), (q a).
Qed.

Section Merge.

Variable today : string.
Variable staging_df : list DataProcessor.gold_row.
Hypothesis today_not_sentinel : today <> DataProcessor.active_sentinel.
Hypothesis staging_enveloped : Forall (DataProcessor.staged today) staging_df.
Hypothesis staging_keyed : Forall DataProcessor.keyed staging_df.
Hypothesis staging_keys : NoDup (map DataProcessor.primary_key staging_df).

Lemma updates_inactive (k : list (option string))
  (t s : DataProcessor.gold_row) :
  In s staging_df ->
  DataProcessor.is_active k (DataProcessor.updates t s) = false.
Proof.
  clear staging_keyed staging_keys.
  intros Hs. rewrite Forall_forall in staging_enveloped.
  destruct (staging_enveloped s Hs) as [_ Hstrt].
  unfold DataProcessor.is_active, DataProcessor.updates. simpl.
  rewrite Hstrt. destruct (String.eqb_spec today DataProcessor.active_sentinel);
    [contradiction|reflexivity].
Qed.

Lemma updates_unmatched (t s s' : DataProcessor.gold_row) :
  In s staging_df ->
  DataProcessor.merge_predicate (DataProcessor.updates t s) s' = false.
Proof.
  clear staging_keyed staging_keys.
  intros Hs. rewrite Forall_forall in staging_enveloped.
  destruct (staging_enveloped s Hs) as [_ Hstrt].
  unfold DataProcessor.merge_predicate, DataProcessor.updates. simpl.
  rewrite Hstrt. destruct (String.eqb_spec today DataProcessor.active_sentinel);
    [contradiction|reflexivity].
Qed.

Lemma staging_key_inj (a b : DataProcessor.gold_row) :
  In a staging_df -> In b staging_df ->
  DataProcessor.primary_key a = DataProcessor.primary_key b -> a = b.
Proof.
  clear staging_enveloped staging_keyed. revert staging_keys.
  induction staging_df as [|x l IH]; intros Hnd Ha Hb Hk; [contradiction|].
  inversion Hnd as [|? ? Hnotin Hnd']; subst.
  destruct Ha as [<-|Ha], Hb as [<-|Hb]; auto.
  - exfalso. apply Hnotin. rewrite Hk. now apply in_map.
  - exfalso. apply Hnotin. rewrite <- Hk. now apply in_map.
Qed.

(** A row is joined to at most one staged row. *)
Lemma staging_match_eq (t a b : DataProcessor.gold_row) :
  In a staging_df -> In b staging_df ->
  DataProcessor.merge_predicate t a = true ->
  DataProcessor.merge_predicate t b = true -> a = b.
Proof.
  intros Ha Hb Hma Hmb. apply staging_key_inj; try assumption.
  unfold DataProcessor.merge_predicate in Hma, Hmb.
  apply andb_true_iff in Hma, Hmb. destruct Hma as [_ Hka], Hmb as [_ Hkb].
  apply key_eqb_true in Hka, Hkb. congruence.
Qed.

(** A staged row is joined to itself, and to no other staged row. *)
Lemma staging_self_match (s : DataProcessor.gold_row) :
  In s staging_df -> DataProcessor.merge_predicate s s = true.
Proof.
  intros Hs. rewrite Forall_forall in staging_enveloped, staging_keyed.
  destruct (staging_enveloped s Hs) as [He _].
  unfold DataProcessor.merge_predicate. rewrite He, String.eqb_refl.
  apply key_eqb_refl. exact (staging_keyed s Hs).
Qed.

Lemma staging_match_self (r s : DataProcessor.gold_row) :
  In r staging_df -> In s staging_df ->
  DataProcessor.merge_predicate r s = true -> r = s.
Proof.
  intros Hr Hs Hm. apply staging_key_inj; try assumption.
  unfold DataProcessor.merge_predicate in Hm. apply andb_true_iff in Hm.
  destruct Hm as [_ Hk]. now apply key_eqb_true.
Qed.

Lemma staging_nodup : NoDup staging_df.
Proof.
  clear staging_enveloped staging_keyed. revert staging_keys.
  induction staging_df as [|x l IH]; intros Hnd; [constructor|].
  inversion Hnd as [|? ? Hnotin Hnd']; subst. constructor; [|now apply IH].
  intros Hx. apply Hnotin. now apply in_map.
Qed.

(** The join leaves one row for each target row: the row itself, or the
    row closed by its successor. *)
Lemma merged_target_row_eq (when_matched_update : bool)
  (t : DataProcessor.gold_row) :
  DataProcessor.merged_target_row when_matched_update staging_df t =
  [if when_matched_update then ScdType2.close staging_df t else t].
Proof.
  unfold DataProcessor.merged_target_row, DataProcessor.matches.
  rewrite (filter_find_unique (DataProcessor.merge_predicate t) staging_df
             staging_nodup (staging_match_eq t)).
  unfold ScdType2.close, ScdType2.successor.
  destruct when_matched_update; [|now destruct (find _ staging_df)].
  destruct (find (DataProcessor.merge_predicate t) staging_df) as [s|] eqn:F.
  - simpl. rewrite orb_false_r.
    destruct (DataProcessor.update_predicate t s) eqn:U.
    + simpl. rewrite ?U.
      now rewrite (find_and_some _ (DataProcessor.update_predicate t) _ _ F U).
    + destruct (find (fun s0 => DataProcessor.merge_predicate t s0
                                && DataProcessor.update_predicate t s0)
                  staging_df) as [s'|] eqn:F'; [exfalso|reflexivity].
      apply find_some in F, F'. destruct F as [Hs Hm], F' as [Hs' Hmu].
      apply andb_true_iff in Hmu. destruct Hmu as [Hm' Hu'].
      rewrite (staging_match_eq t s' s Hs' Hs Hm' Hm) in Hu'. congruence.
  - simpl. now rewrite (find_and_none _ (DataProcessor.update_predicate t) _ F).
Qed.

(** One merge, row by row. *)
Lemma merge_rows (when_matched_update : bool)
  (target : list DataProcessor.gold_row) :
  DataProcessor.merge when_matched_update staging_df target =
  (map (fun t => if when_matched_update then ScdType2.close staging_df t else t)
       target
   ++ filter (ScdType2.is_new target) staging_df)%list.
Proof.
  unfold DataProcessor.merge. f_equal.
  induction target as [|t target IH]; [reflexivity|]. simpl.
  now rewrite merged_target_row_eq, IH.
Qed.

(** One merge keeps the SCD-2 property. *)
Lemma merge_scd2 (when_matched_update : bool)
  (target : list DataProcessor.gold_row) :
  DataProcessor.scd2 target ->
  DataProcessor.scd2 (DataProcessor.merge when_matched_update staging_df target).
Proof.
  intros Hinv k. rewrite merge_rows, active_count_app.
  match goal with |- (DataProcessor.active_count k (map ?f target) + _ <= 1)%nat =>
    assert (Hmap : (DataProcessor.active_count k (map f target)
                    <= DataProcessor.active_count k target)%nat)
  end.
  { apply active_count_map_le. intros t _.
    destruct when_matched_update; [|auto].
    unfold ScdType2.close, ScdType2.successor.
    destruct (find _ staging_df) as [s|] eqn:F; [|auto].
    apply find_some in F. destruct F as [Hs _].
    now rewrite (updates_inactive k t s Hs). }
  assert (Hins : (DataProcessor.active_count k
                    (filter (ScdType2.is_new target) staging_df) <= 1)%nat).
  { etransitivity; [apply active_count_filter_le | now apply active_count_nodup]. }
  assert (Hnone : (1 <= DataProcessor.active_count k target)%nat ->
                  DataProcessor.active_count k
                    (filter (ScdType2.is_new target) staging_df) = O).
  { intros Hpos. apply active_count_exists in Hpos.
    destruct Hpos as [t [Ht Hact]].
    apply active_count_zero. intros s Hs. apply filter_In in Hs.
    destruct Hs as [Hs Hunmatched].
    destruct (DataProcessor.is_active k s) eqn:Es; [|reflexivity].
    unfold ScdType2.is_new in Hunmatched. apply negb_true_iff in Hunmatched.
    assert (Hex : existsb (fun t0 => DataProcessor.merge_predicate t0 s) target = true).
    { apply existsb_exists. exists t. split; [assumption|].
      apply is_active_key in Hact, Es. destruct Hact as [He Hk], Es as [_ Hks].
      unfold DataProcessor.merge_predicate. rewrite He, String.eqb_refl.
      rewrite Hk, <- Hks. apply key_eqb_refl.
      rewrite Forall_forall in staging_keyed. exact (staging_keyed s Hs). }
    congruence. }
  specialize (Hinv k).
  destruct (DataProcessor.active_count k target) as [|n] eqn:Ec.
  - lia.
  - rewrite Hnone by lia. lia.
Qed.

(** After an insert-only merge every staged key has an active row. *)
Lemma insert_only_covers (target : list DataProcessor.gold_row)
  (s : DataProcessor.gold_row) :
  In s staging_df ->
  (1 <= DataProcessor.active_count (DataProcessor.primary_key s)
          (DataProcessor.merge false staging_df target))%nat.
Proof.
  intros Hs. rewrite merge_rows, active_count_app, map_id.
  destruct (ScdType2.is_new target s) eqn:E.
  - enough (1 <= DataProcessor.active_count (DataProcessor.primary_key s)
                   (filter (ScdType2.is_new target) staging_df))%nat by lia.
    apply (active_count_pos _ s).
    + apply filter_In. now split.
    + apply is_active_intro. rewrite Forall_forall in staging_enveloped.
      now destruct (staging_enveloped s Hs).
  - unfold ScdType2.is_new in E. apply negb_false_iff in E.
    apply existsb_exists in E. destruct E as [t [Ht Hp]].
    enough (1 <= DataProcessor.active_count (DataProcessor.primary_key s) target)%nat
      by lia.
    apply (active_count_pos _ t); [assumption|].
    now apply merge_predicate_active.
Qed.

(** Phase 1 leaves a target row joined to a staged row exactly when the
    row was joined to it before and agrees with it in checksum. *)
Lemma close_match (t s : DataProcessor.gold_row) :
  In s staging_df ->
  DataProcessor.merge_predicate (ScdType2.close staging_df t) s =
  DataProcessor.merge_predicate t s && negb (DataProcessor.update_predicate t s).
Proof.
  intros Hs. unfold ScdType2.close, ScdType2.successor.
  destruct (find _ staging_df) as [s0|] eqn:F.
  - apply find_some in F. destruct F as [Hs0 Hmu].
    apply andb_true_iff in Hmu. destruct Hmu as [Hm0 Hu0].
    rewrite (updates_unmatched t s0 s Hs0).
    destruct (DataProcessor.merge_predicate t s) eqn:M; [|reflexivity].
    rewrite (staging_match_eq t s s0 Hs Hs0 M Hm0), Hu0. reflexivity.
  - pose proof (find_none _ _ F s Hs) as Hn. cbv beta in Hn.
    destruct (DataProcessor.merge_predicate t s); [|reflexivity].
    simpl in Hn. now rewrite Hn.
Qed.

(** Among the rows that phase 1 inserts, a staged row is joined to
    itself alone. *)
Lemma new_rows_match (target : list DataProcessor.gold_row)
  (s : DataProcessor.gold_row) :
  In s staging_df ->
  existsb (fun r => DataProcessor.merge_predicate r s)
    (filter (ScdType2.is_new target) staging_df) =
  ScdType2.is_new target s.
Proof.
  intros Hs. destruct (ScdType2.is_new target s) eqn:N.
  - apply existsb_exists. exists s. split.
    + apply filter_In. now split.
    + now apply staging_self_match.
  - destruct (existsb _ _) eqn:E; [exfalso|reflexivity].
    apply existsb_exists in E. destruct E as [r [Hr Hm]].
    apply filter_In in Hr. destruct Hr as [Hr Hnew].
    rewrite (staging_match_self r s Hr Hs Hm) in Hnew. congruence.
Qed.

(** The two merges do what the specification says of the two phases. *)
Lemma two_phase_eq (target : list DataProcessor.gold_row) :
  DataProcessor.DeltaTableWriterScdType2 staging_df target =
  ScdType2.two_phase staging_df target.
Proof.
  unfold DataProcessor.DeltaTableWriterScdType2.
  rewrite (merge_rows false), map_id, (merge_rows true).
  unfold ScdType2.two_phase. rewrite <- app_assoc. do 2 f_equal.
  apply filter_ext_in. intros s Hs.
  unfold ScdType2.is_new at 1. rewrite existsb_app.
  rewrite (existsb_map_ext _
             (fun t => DataProcessor.merge_predicate t s
                       && negb (DataProcessor.update_predicate t s)))
    by (intros t _; now apply close_match).
  rewrite (new_rows_match target s Hs), negb_orb, negb_existsb_implb.
  unfold ScdType2.is_replacement, ScdType2.is_new.
  rewrite negb_involutive. apply andb_comm.
Qed.

End Merge.

(** The table of one row is an SCD-2 table. *)
Lemma scd2_singleton (r : DataProcessor.gold_row) : DataProcessor.scd2 [r].
Proof.
  intros k. unfold DataProcessor.active_count. simpl.
  destruct (DataProcessor.is_active k r); simpl; lia.
Qed.

(** C2, as stated, fails.  Merging a staging frame that holds a new key
    twice into an SCD-2 table leaves two active rows of that key.  So does
    merging a staging frame of one row whose key is NULL: no merge ever
    matches the row, and each of the two phases inserts it. *)
Lemma scd2_merge_two_active_rows :
  DataProcessor.scd2 GoldCases.day1 /\
  DataProcessor.active_count [Some "2"]
    (DataProcessor.DeltaTableWriterScdType2 GoldCases.twice_staging
       GoldCases.day1) = 2%nat /\
  ~ DataProcessor.scd2
      (DataProcessor.DeltaTableWriterScdType2 GoldCases.twice_staging
         GoldCases.day1) /\
  NoDup (map DataProcessor.primary_key GoldCases.null_key_staging) /\
  DataProcessor.active_count [None]
    (DataProcessor.DeltaTableWriterScdType2 GoldCases.null_key_staging
       GoldCases.day1) = 2%nat /\
  ~ DataProcessor.scd2
      (DataProcessor.DeltaTableWriterScdType2 GoldCases.null_key_staging
         GoldCases.day1).
Proof.
  split; [apply scd2_singleton|]. split; [reflexivity|]. split.
  { intros H. specialize (H [Some "2"]). change (2 <= 1)%nat in H. lia. }
  split; [repeat constructor; intros []|]. split; [reflexivity|].
  intros H. specialize (H [None]). change (2 <= 1)%nat in H. lia.
Qed.

(** C2: when the staging frame holds each primary key once, with no NULL
    in a key column, and carries the envelope the gold engine gives it
    (active, effective today), the two-phase merge of an SCD-2 table does
    what the two phases are said to do - a matched active row whose
    checksum differs is closed at the staging row's start date and
    flagged, the unmatched rows are inserted, then the replacement
    versions - and the table it leaves is an SCD-2 table in which every
    staged key has exactly one active row. *)
Theorem scd2_merge_preserved (today : string)
  (staging_df target : list DataProcessor.gold_row) :
  today <> DataProcessor.active_sentinel ->
  Forall (DataProcessor.staged today) staging_df ->
  Forall DataProcessor.keyed staging_df ->
  NoDup (map DataProcessor.primary_key staging_df) ->
  DataProcessor.scd2 target ->
  let gold := DataProcessor.DeltaTableWriterScdType2 staging_df target in
  gold = ScdType2.two_phase staging_df target /\
  DataProcessor.scd2 gold /\
  (forall s, In s staging_df ->
     DataProcessor.active_count (DataProcessor.primary_key s) gold = 1%nat).
Proof.
  intros Hday Henv Hkeyed Hkeys Hinv gold.
  assert (Hgold : DataProcessor.scd2 gold).
  { unfold gold, DataProcessor.DeltaTableWriterScdType2.
    apply (merge_scd2 today); auto. apply (merge_scd2 today); auto. }
  split; [apply (two_phase_eq today); assumption|].
  split; [exact Hgold|].
  intros s Hs.
  pose proof (Hgold (DataProcessor.primary_key s)) as Hle.
  assert (Hge : (1 <= DataProcessor.active_count (DataProcessor.primary_key s)
                       gold)%nat)
    by (apply (insert_only_covers today); assumption).
  lia.
Qed.

(** Scenario "SCD-2 update": the day-1 row is closed at day 2 and flagged,
    the day-2 row is the active one. *)
Lemma scd2_merge_preserved_witness :
  DataProcessor.DeltaTableWriterScdType2 GoldCases.day2_staging GoldCases.day1 =
  [GoldCases.version "1" "A" "2025-01-01" "2025-01-02" "Y" "559aead0";
   GoldCases.version "1" "B" "2025-01-02" "9999-12-31" "N" "df7e70e5"]
  /\ DataProcessor.scd2
       (DataProcessor.DeltaTableWriterScdType2 GoldCases.day2_staging
          GoldCases.day1)
  /\ DataProcessor.active_count [Some "1"]
       (DataProcessor.DeltaTableWriterScdType2 GoldCases.day2_staging
          GoldCases.day1) = 1%nat.
Proof.
  destruct (scd2_merge_preserved "2025-01-02" GoldCases.day2_staging
              GoldCases.day1) as [Heq [Hscd Hone]].
  - discriminate.
  - repeat constructor.
  - repeat constructor; discriminate.
  - repeat constructor. intros [].
  - apply scd2_singleton.
  - split; [rewrite Heq; reflexivity|]. split; [exact Hscd|].
    apply (Hone (GoldCases.version "1" "B" "2025-01-02" "9999-12-31" "N"
                   "df7e70e5")). now left.
Defined.

(** ** Quality gate *)

Section Gate.

Variable sql : string -> Polars.Frame -> Py.outcome Polars.Frame.
Variable filter_by_column : string -> Polars.Frame -> Py.outcome Polars.Frame.
Variable unique : list string -> Polars.Frame -> Py.outcome Polars.Frame.
Variable filter_contains :
  string -> option string -> Polars.Frame -> Py.outcome Polars.Frame.
Variable filter_sql_expr :
  string -> option string -> Polars.Frame -> Py.outcome Polars.Frame.
Variable json_field : option string -> string -> Py.outcome string.

(** With no failing row every rule function but [null_check] logs
    SUCCEEDED with an error count of zero and returns the passing frame. *)
Lemma check_zero_failures (kind : DataQualityCheck.qc_kind)
  (df passing : Polars.Frame) (batch_id : option Z)
  (source_file : option string) (dqm_detail : Schema.ctlDqmMasterDtl)
  (dataset_master : Schema.ctlDatasetMaster) (log : list Schema.logDqmDtl) :
  kind <> DataQualityCheck.QcNull ->
  DataQualityCheck.passing_rows sql filter_by_column unique
    filter_contains filter_sql_expr json_field kind dqm_detail df =
    Py.Return passing ->
  Polars.len df - Polars.len passing = 0 ->
  DataQualityCheck.check sql filter_by_column unique
    filter_contains filter_sql_expr json_field kind df
    batch_id source_file dqm_detail dataset_master log =
  ((log ++ [DataQualityCheck.log_row dataset_master batch_id source_file
              dqm_detail 0 (PyFloat.of_int 0) "SUCCEEDED"])%list,
   Py.Return (Some passing)).
Proof.
  intros Hkind Hpass Hzero. unfold DataQualityCheck.check.
  rewrite Hpass. unfold DataQualityCheck.gate.
  rewrite Hzero. simpl negb. cbv iota.
  destruct kind; try reflexivity. contradiction.
Qed.

(** C4: when zero rows fail, [null_check] inserts no log row and returns
    no frame: building the SUCCEEDED row reads [failure_percentage], a
    name that was never bound, and the call raises. *)
Theorem null_check_zero_failures (df passing : Polars.Frame)
  (batch_id : option Z) (source_file : option string)
  (dqm_detail : Schema.ctlDqmMasterDtl)
  (dataset_master : Schema.ctlDatasetMaster) (log : list Schema.logDqmDtl) :
  DataQualityCheck.passing_rows sql filter_by_column unique
    filter_contains filter_sql_expr json_field
    DataQualityCheck.QcNull dqm_detail df = Py.Return passing ->
  Polars.len df - Polars.len passing = 0 ->
  DataQualityCheck.null_check sql filter_by_column unique filter_contains
    filter_sql_expr json_field df batch_id source_file dqm_detail
    dataset_master log =
  (log, Py.Raise Py.UnboundLocalError).
Proof.
  intros Hpass Hzero.
  unfold DataQualityCheck.null_check, DataQualityCheck.check.
  rewrite Hpass. unfold DataQualityCheck.gate.
  rewrite Hzero. reflexivity.
Qed.

(** Where the binary64 value of the percentage is not below the
    threshold, a rule of criticality C applied to a non-empty frame with
    failing rows appends a FAILED row to the DQM log and raises. *)
Lemma critical_breach_fails (kind : DataQualityCheck.qc_kind)
  (df passing : Polars.Frame) (batch_id : option Z)
  (source_file : option string) (dqm_detail : Schema.ctlDqmMasterDtl)
  (dataset_master : Schema.ctlDatasetMaster) (log : list Schema.logDqmDtl)
  (threshold : Z) :
  let failure_count := Polars.len df - Polars.len passing in
  let failure_percentage :=
    PrimFloat.mul
      (PrimFloat.div (PyFloat.of_int failure_count)
         (PyFloat.of_int (Polars.len df)))
      (PyFloat.of_int 100) in
  DataQualityCheck.passing_rows sql filter_by_column unique
    filter_contains filter_sql_expr json_field kind dqm_detail df =
    Py.Return passing ->
  Schema.criticality dqm_detail = Some "C" ->
  Schema.criticality_threshold_pct dqm_detail = Some threshold ->
  Polars.len df <> 0 ->
  failure_count <> 0 ->
  PyFloat.ge_int failure_percentage threshold = true ->
  DataQualityCheck.check sql filter_by_column unique
    filter_contains filter_sql_expr json_field kind df
    batch_id source_file dqm_detail dataset_master log =
  ((log ++ [DataQualityCheck.log_row dataset_master batch_id source_file
              dqm_detail failure_count failure_percentage "FAILED"])%list,
   Py.Raise (Py.Exception
     (DataQualityCheck.failed_message dataset_master dqm_detail
        failure_percentage))).
Proof.
  intros failure_count failure_percentage Hpass Hcrit Hthr Hlen Hfail Hge.
  unfold DataQualityCheck.check. rewrite Hpass.
  unfold DataQualityCheck.gate. fold failure_count.
  apply Z.eqb_neq in Hfail. rewrite Hfail. simpl negb. cbv iota.
  unfold DataQualityCheck.failure_percentage, PyFloat.truediv.
  apply Z.eqb_neq in Hlen. rewrite Hlen. cbn [Py.bind].
  fold failure_percentage.
  unfold DataQualityCheck.is_crit. rewrite Hcrit, Hthr.
  change (String.eqb "C" "C") with true. cbv iota. rewrite Hge. reflexivity.
Qed.

(** C3: a critical rule whose failed percentage equals its threshold
    does not fail the batch.  With 29 failing rows out of 100 and a
    threshold of 29 the code computes (29 / 100) * 100 in binary64, which
    is 28.999999999999996: [>=] is false, [<=] is true, and every rule
    function appends a SUCCEEDED row and returns the passing rows. *)
Theorem critical_rule_at_threshold_succeeds (kind : DataQualityCheck.qc_kind)
  (df passing : Polars.Frame) (batch_id : option Z)
  (source_file : option string) (dqm_detail : Schema.ctlDqmMasterDtl)
  (dataset_master : Schema.ctlDatasetMaster) (log : list Schema.logDqmDtl) :
  DataQualityCheck.passing_rows sql filter_by_column unique
    filter_contains filter_sql_expr json_field kind dqm_detail df =
    Py.Return passing ->
  Schema.criticality dqm_detail = Some "C" ->
  Schema.criticality_threshold_pct dqm_detail = Some 29 ->
  Polars.len df = 100 ->
  Polars.len passing = 71 ->
  DataQualityCheck.check sql filter_by_column unique
    filter_contains filter_sql_expr json_field kind df
    batch_id source_file dqm_detail dataset_master log =
  ((log ++ [DataQualityCheck.log_row dataset_master batch_id source_file
              dqm_detail 29 0x1.cffffffffffffp+4%float "SUCCEEDED"])%list,
   Py.Return (Some passing)).
Proof.
  intros Hpass Hcrit Hthr Hlen Hkept.
  unfold DataQualityCheck.check. rewrite Hpass.
  unfold DataQualityCheck.gate. rewrite Hlen, Hkept.
  change (negb (100 - 71 =? 0)) with true. cbv iota.
  change (DataQualityCheck.failure_percentage (100 - 71) 100)
    with (Py.Return (A:=float) 0x1.cffffffffffffp+4%float).
  unfold DataQualityCheck.is_crit. rewrite Hcrit, Hthr.
  change (String.eqb "C" "C") with true. cbv iota.
  change (PyFloat.ge_int 0x1.cffffffffffffp+4%float 29) with false.
  change (PyFloat.le_int 0x1.cffffffffffffp+4%float 29) with true.
  reflexivity.
Qed.

End Gate.

(** One row without a region out of twenty is 5 percent; with the
    threshold at 5 the critical null rule fails the batch. *)
Lemma critical_breach_fails_witness :
  DataQualityCheck.null_check QualityCases.idle QualityCases.idle
    QualityCases.idle_unique QualityCases.idle_pattern
    QualityCases.idle_pattern QualityCases.idle_json
    QualityCases.regions QualityCases.batch QualityCases.file
    (QualityCases.rule "region" "null" "C" 5) QualityCases.dataset [] =
  ([DataQualityCheck.log_row QualityCases.dataset QualityCases.batch
      QualityCases.file (QualityCases.rule "region" "null" "C" 5) 1 5%float
      "FAILED"],
   Py.Raise (Py.Exception
     (DataQualityCheck.failed_message QualityCases.dataset
        (QualityCases.rule "region" "null" "C" 5) 5%float))).
Proof.
  apply (critical_breach_fails QualityCases.idle QualityCases.idle
           QualityCases.idle_unique QualityCases.idle_pattern
           QualityCases.idle_pattern QualityCases.idle_json
           DataQualityCheck.QcNull QualityCases.regions
           {| Polars.columns := ["region"];
              Polars.rows := repeat [Polars.Text "EU"] 19 |}
           QualityCases.batch QualityCases.file
           (QualityCases.rule "region" "null" "C" 5) QualityCases.dataset []
           5).
  - reflexivity.
  - reflexivity.
  - reflexivity.
  - discriminate.
  - discriminate.
  - reflexivity.
Defined.

(** The percentage is a binary64 value: 29 failures out of 100 give
    28.999999999999996, not 29. *)
Example failure_percentage_29_of_100 :
  DataQualityCheck.failure_percentage 29 100 =
    Py.Return 0x1.cffffffffffffp+4%float /\
  PyFloat.ge_int 0x1.cffffffffffffp+4%float 29 = false /\
  PyFloat.le_int 0x1.cffffffffffffp+4%float 29 = true.
Proof. repeat split; reflexivity. Qed.

(** A hundred rows, twenty-nine without a region, and the critical null
    rule with its threshold at 29. *)
Lemma critical_rule_at_threshold_succeeds_witness :
  DataQualityCheck.null_check QualityCases.idle QualityCases.idle
    QualityCases.idle_unique QualityCases.idle_pattern
    QualityCases.idle_pattern QualityCases.idle_json
    QualityCases.regions_29_of_100 QualityCases.batch QualityCases.file
    (QualityCases.rule "region" "null" "C" 29) QualityCases.dataset [] =
  ([DataQualityCheck.log_row QualityCases.dataset QualityCases.batch
      QualityCases.file (QualityCases.rule "region" "null" "C" 29) 29
      0x1.cffffffffffffp+4%float "SUCCEEDED"],
   Py.Return (Some {| Polars.columns := ["region"];
                      Polars.rows := repeat [Polars.Text "EU"] 71 |})).
Proof.
  apply (critical_rule_at_threshold_succeeds QualityCases.idle
           QualityCases.idle QualityCases.idle_unique
           QualityCases.idle_pattern QualityCases.idle_pattern
           QualityCases.idle_json DataQualityCheck.QcNull
           QualityCases.regions_29_of_100
           {| Polars.columns := ["region"];
              Polars.rows := repeat [Polars.Text "EU"] 71 |}
           QualityCases.batch QualityCases.file
           (QualityCases.rule "region" "null" "C" 29) QualityCases.dataset []);
    reflexivity.
Defined.

(** [null_check] on a one-row frame whose row has a region. *)
Lemma null_check_zero_failures_witness :
  DataQualityCheck.null_check QualityCases.idle QualityCases.idle
    QualityCases.idle_unique QualityCases.idle_pattern
    QualityCases.idle_pattern QualityCases.idle_json
    QualityCases.one_region QualityCases.batch
    QualityCases.file (QualityCases.rule "region" "null" "NC" 5)
    QualityCases.dataset [] =
  ([], Py.Raise Py.UnboundLocalError).
Proof.
  apply (null_check_zero_failures QualityCases.idle QualityCases.idle
           QualityCases.idle_unique QualityCases.idle_pattern
           QualityCases.idle_pattern QualityCases.idle_json
           QualityCases.one_region QualityCases.one_region).
  - reflexivity.
  - reflexivity.
Defined.

(** ** The pattern of the integer and decimal rules *)

Lemma match_plus_digit_to_end (s : string) :
  Polars.match_plus_digit s
    (fun s' => match s' with EmptyString => true | _ => false end) =
  QualityCases.nonempty_digits s.
Proof.
  induction s as [|a s IH]; [reflexivity|].
  cbn [Polars.match_plus_digit]. rewrite IH.
  unfold QualityCases.nonempty_digits. cbn [QualityCases.digits].
  destruct s; [now rewrite orb_true_r|]. now rewrite orb_false_r.
Qed.

Lemma integer_regex_not_at_start (s : string) :
  Polars.search_from DataQualityCheck.integer_regex false s = false.
Proof. induction s as [|a s IH]; [reflexivity|]. simpl. exact IH. Qed.

Lemma nonempty_digits_minus (s : string) :
  QualityCases.nonempty_digits (String "-" s) = false.
Proof. reflexivity. Qed.

(** What [str.contains(r"(^-?\d+$)")] accepts: an optional minus sign
    followed by digits to the end of the text. *)
Lemma integer_regex_accepts (s : string) :
  Polars.search_from DataQualityCheck.integer_regex true s =
  QualityCases.integer_text s.
Proof.
  assert (Hm : Polars.match_at DataQualityCheck.integer_regex true s
                 (fun _ _ => true) = QualityCases.integer_text s).
  { unfold DataQualityCheck.integer_regex. cbn [Polars.match_at andb].
    change (fun s' : string =>
              match s' with EmptyString => true | String _ _ => false end)
      with (fun s' : string =>
              match s' with EmptyString => true | _ => false end).
    rewrite match_plus_digit_to_end.
    destruct s as [|a s]; [reflexivity|].
    rewrite match_plus_digit_to_end.
    destruct (Ascii.eqb_spec a "-") as [->|Hne].
    - rewrite nonempty_digits_minus. cbn. now rewrite orb_false_r.
    - cbn [andb orb]. unfold QualityCases.integer_text.
      destruct a as [[] [] [] [] [] [] [] []]; try reflexivity.
      now contradiction Hne. }
  destruct s as [|a s]; cbn [Polars.search_from].
  - rewrite Hm. apply orb_false_r.
  - rewrite Hm, integer_regex_not_at_start. apply orb_false_r.
Qed.

(** No text with a decimal point passes the code's decimal rule. *)
Lemma digits_no_point (s : string) :
  QualityCases.digits s = true -> PyStr.lacks "." s = true.
Proof.
  induction s as [|a s IH]; [reflexivity|]. simpl.
  intros H. apply andb_true_iff in H. destruct H as [Ha Hs].
  rewrite (IH Hs), andb_true_r.
  destruct (Ascii.eqb_spec a "."); [subst; discriminate|reflexivity].
Qed.

Lemma decimal_rule_rejects_point (s : string) :
  PyStr.lacks "." s = false ->
  Polars.str_contains DataQualityCheck.integer_regex (Polars.Text s) =
  Some false.
Proof.
  intros H. simpl. rewrite integer_regex_accepts. f_equal.
  destruct (QualityCases.integer_text s) eqn:E; [exfalso|reflexivity].
  unfold QualityCases.integer_text in E.
  assert (Hd : forall x, QualityCases.nonempty_digits x = true ->
                         PyStr.lacks "." x = true).
  { intros [|b x] Hx; [discriminate|]. now apply digits_no_point. }
  destruct s as [|a s]; [discriminate|].
  destruct (Ascii.eqb_spec a "-") as [->|Hne].
  - apply Hd in E. simpl in H. congruence.
  - assert (E' : QualityCases.nonempty_digits (String a s) = true).
    { destruct a as [[] [] [] [] [] [] [] []]; try exact E.
      now contradiction Hne. }
    apply Hd in E'. congruence.
Qed.

(** C8: the value "1.5" matches the decimal pattern of the specification
    and does not match the pattern [decimal_dqm_check] uses; the rule
    function counts its row as failed and returns an empty frame. *)
Theorem decimal_rule_on_fraction
  (sql filter_by_column : string -> Polars.Frame -> Py.outcome Polars.Frame)
  (unique : list string -> Polars.Frame -> Py.outcome Polars.Frame)
  (filter_contains filter_sql_expr :
     string -> option string -> Polars.Frame -> Py.outcome Polars.Frame)
  (json_field : option string -> string -> Py.outcome string) :
  DataQualityCheck.spec_decimal_passes (Polars.Text "1.5") = true /\
  Polars.str_contains DataQualityCheck.integer_regex (Polars.Text "1.5") =
    Some false /\
  DataQualityCheck.decimal_dqm_check sql filter_by_column unique
    filter_contains filter_sql_expr json_field QualityCases.one_amount
    QualityCases.batch QualityCases.file
    (QualityCases.rule "amount" "decimal" "NC" 0) QualityCases.dataset [] =
  ([DataQualityCheck.log_row QualityCases.dataset QualityCases.batch
      QualityCases.file (QualityCases.rule "amount" "decimal" "NC" 0) 1
      100%float "SUCCEEDED"],
   Py.Return (Some {| Polars.columns := ["amount"]; Polars.rows := [] |})).
Proof. repeat split; reflexivity. Qed.

(** The two patterns agree on integers. *)
Example decimal_patterns_on_integer :
  DataQualityCheck.spec_decimal_passes (Polars.Text "-42") = true /\
  Polars.str_contains DataQualityCheck.integer_regex (Polars.Text "-42") =
    Some true.
Proof. split; reflexivity. Qed.

(** ** Standardization *)

Section Standardization.

Variable with_columns_str :
  string -> DataStandardization.str_expr -> Polars.Frame ->
  Py.outcome Polars.Frame.
Variable json_field : option string -> string -> Py.outcome string.
Variable json_int_field : option string -> string -> Py.outcome Z.
Variable format_exc : Py.exn -> string.
Variable read_csv :
  string -> option string -> bool -> Py.outcome Polars.Frame.

(** A function name outside the six recognized ones makes the rule
    raise. *)
Lemma apply_rule_unknown (data_standard : Schema.ctlDataStandardisationDtl)
  (df : Polars.Frame) :
  DataStandardization.recognized (Schema.function_name data_standard) = false ->
  DataStandardization.apply_rule with_columns_str json_field json_int_field
    data_standard df =
  Py.Raise (Py.Exception [Py.Lit "Unknown Data Standardization Function: ";
                          Py.Str (Schema.function_name data_standard)]).
Proof.
  unfold DataStandardization.recognized, DataStandardization.apply_rule,
    DataStandardization.is_name.
  destruct (Schema.function_name data_standard) as [f|]; [|reflexivity].
  cbn [existsb]. intros H.
  repeat (apply orb_false_iff in H; destruct H as [? H]).
  repeat match goal with Hx : String.eqb _ _ = false |- _ =>
    rewrite Hx; clear Hx end.
  reflexivity.
Qed.

(** The rule loop only ever adds rows to the log. *)
Lemma apply_rules_extends (rules : list Schema.ctlDataStandardisationDtl)
  (dataset_master : Schema.ctlDatasetMaster)
  (unprocessed_file : Schema.logRawProcessDtl) (df : Polars.Frame)
  (log : list Schema.logDataStandardisationDtl) :
  exists added,
    snd (DataStandardization.apply_rules with_columns_str json_field
           json_int_field format_exc rules dataset_master unprocessed_file
           df log) = (log ++ added)%list.
Proof.
  revert df log. induction rules as [|r rules IH]; intros df log.
  - exists []. simpl. now rewrite app_nil_r.
  - cbn [DataStandardization.apply_rules].
    destruct (DataStandardization.apply_rule _ _ _ r df) as [df'|e].
    + apply IH.
    + destruct (IH df (OrchestrationProcess.insert_data_standardisation_log log
                         (DataStandardization.log_row dataset_master
                            unprocessed_file "FAILED" (Some (format_exc e)))))
        as [added Hadded].
      eexists. rewrite Hadded.
      unfold OrchestrationProcess.insert_data_standardisation_log.
      rewrite <- app_assoc. reflexivity.
Qed.

(** The shape of the state after one batch of a dataset whose locations
    and partition columns are set. *)
Lemma standardize_file_result
  (read_landing : option Z -> Py.outcome Polars.Frame)
  (rules : list Schema.ctlDataStandardisationDtl)
  (dataset_master : Schema.ctlDatasetMaster) (env : string)
  (unprocessed_file : Schema.logRawProcessDtl)
  (st : DataStandardization.state) (df : Polars.Frame)
  (location landing partition_columns : string) :
  Schema.data_standardisation_location dataset_master = Some location ->
  Schema.landing_location dataset_master = Some landing ->
  Schema.data_standardisation_partition_columns dataset_master =
  Some partition_columns ->
  read_landing (Schema.raw_batch_id unprocessed_file) = Py.Return df ->
  exists added,
    snd (DataStandardization.apply_rules with_columns_str json_field
           json_int_field format_exc rules dataset_master unprocessed_file df
           (DataStandardization.log_standardization st)) =
    (DataStandardization.log_standardization st ++ added)%list /\
    DataStandardization.standardize_file with_columns_str json_field
      json_int_field format_exc read_landing read_csv rules dataset_master env
      unprocessed_file st =
    ({| DataStandardization.log_standardization :=
          (DataStandardization.log_standardization st ++ added ++
           [DataStandardization.log_row dataset_master unprocessed_file
              "SUCCEEDED" None])%list;
        DataStandardization.writes :=
          (DataStandardization.writes st ++
           [{| DataProcessor.written :=
                 Polars.with_columns_lit "batch_id"
                   (Polars.lit (Schema.raw_batch_id unprocessed_file))
                   (fst (DataStandardization.apply_rules with_columns_str
                           json_field json_int_field format_exc rules
                           dataset_master unprocessed_file df
                           (DataStandardization.log_standardization st)));
               DataProcessor.target :=
                 S3Process.s3_location (S3Process.path_to_s3 location env);
               DataProcessor.target_keyword := None;
               DataProcessor.mode := "append";
               DataProcessor.partition_by :=
                 PyStr.split_list "," partition_columns |}])%list |},
     Py.Return tt).
Proof.
  intros Hloc Hland Hpart Hread.
  unfold DataStandardization.standardize_file, DataStandardization.locations.
  rewrite Hloc, Hland, Hread, Hpart.
  destruct (apply_rules_extends rules dataset_master unprocessed_file df
              (DataStandardization.log_standardization st)) as [added Hadded].
  destruct (DataStandardization.apply_rules _ _ _ _ rules dataset_master
              unprocessed_file df (DataStandardization.log_standardization st))
    as [df' log'].
  cbn [fst snd] in *. subst log'.
  cbn [DataStandardization.write_standardized DataProcessor.DeltaTableWriter].
  exists added. split; [reflexivity|].
  unfold OrchestrationProcess.insert_data_standardisation_log.
  rewrite <- app_assoc. reflexivity.
Qed.

(** Without partition columns the write fails on [None.split], outside
    every [try]: the rows of the rules are logged, nothing is written and
    no SUCCEEDED row follows. *)
Lemma standardize_file_without_partition_columns
  (read_landing : option Z -> Py.outcome Polars.Frame)
  (rules : list Schema.ctlDataStandardisationDtl)
  (dataset_master : Schema.ctlDatasetMaster) (env : string)
  (unprocessed_file : Schema.logRawProcessDtl)
  (st : DataStandardization.state) (df : Polars.Frame)
  (location landing : string) :
  Schema.data_standardisation_location dataset_master = Some location ->
  Schema.landing_location dataset_master = Some landing ->
  Schema.data_standardisation_partition_columns dataset_master = None ->
  read_landing (Schema.raw_batch_id unprocessed_file) = Py.Return df ->
  DataStandardization.standardize_file with_columns_str json_field
    json_int_field format_exc read_landing read_csv rules dataset_master env
    unprocessed_file st =
  ({| DataStandardization.log_standardization :=
        snd (DataStandardization.apply_rules with_columns_str json_field
               json_int_field format_exc rules dataset_master
               unprocessed_file df
               (DataStandardization.log_standardization st));
      DataStandardization.writes := DataStandardization.writes st |},
   Py.Raise Py.AttributeError).
Proof.
  intros Hloc Hland Hpart Hread.
  unfold DataStandardization.standardize_file, DataStandardization.locations.
  rewrite Hloc, Hland, Hread, Hpart.
  destruct (DataStandardization.apply_rules _ _ _ _ rules dataset_master
              unprocessed_file df (DataStandardization.log_standardization st))
    as [df' log'].
  reflexivity.
Qed.

(** X9: for a dataset whose locations and partition columns are set,
    whatever the rules are and whatever they raise, a batch whose landing
    snapshot can be read ends with exactly one write - the frame the rules
    left, tagged with the batch id, appended at the standardisation
    location - and a SUCCEEDED row; the log rows that were there before
    are kept, and what the rules add comes before the SUCCEEDED row. *)
Theorem standardize_file_succeeds
  (read_landing : option Z -> Py.outcome Polars.Frame)
  (rules : list Schema.ctlDataStandardisationDtl)
  (dataset_master : Schema.ctlDatasetMaster) (env : string)
  (unprocessed_file : Schema.logRawProcessDtl)
  (st : DataStandardization.state) (df : Polars.Frame)
  (location landing partition_columns : string) :
  Schema.data_standardisation_location dataset_master = Some location ->
  Schema.landing_location dataset_master = Some landing ->
  Schema.data_standardisation_partition_columns dataset_master =
  Some partition_columns ->
  read_landing (Schema.raw_batch_id unprocessed_file) = Py.Return df ->
  exists added,
    snd (DataStandardization.apply_rules with_columns_str json_field
           json_int_field format_exc rules dataset_master unprocessed_file df
           (DataStandardization.log_standardization st)) =
    (DataStandardization.log_standardization st ++ added)%list /\
    DataStandardization.standardize_file with_columns_str json_field
      json_int_field format_exc read_landing read_csv rules dataset_master env
      unprocessed_file st =
    ({| DataStandardization.log_standardization :=
          (DataStandardization.log_standardization st ++ added ++
           [DataStandardization.log_row dataset_master unprocessed_file
              "SUCCEEDED" None])%list;
        DataStandardization.writes :=
          (DataStandardization.writes st ++
           [{| DataProcessor.written :=
                 Polars.with_columns_lit "batch_id"
                   (Polars.lit (Schema.raw_batch_id unprocessed_file))
                   (fst (DataStandardization.apply_rules with_columns_str
                           json_field json_int_field format_exc rules
                           dataset_master unprocessed_file df
                           (DataStandardization.log_standardization st)));
               DataProcessor.target :=
                 S3Process.s3_location (S3Process.path_to_s3 location env);
               DataProcessor.target_keyword := None;
               DataProcessor.mode := "append";
               DataProcessor.partition_by :=
                 PyStr.split_list "," partition_columns |}])%list |},
     Py.Return tt).
Proof.
  exact (standardize_file_result read_landing rules dataset_master env
           unprocessed_file st df location landing partition_columns).
Qed.

(** C5: a rule list that holds the unknown function [capitalize] gets a
    FAILED row, and the batch goes on: the standardized snapshot is written
    and a SUCCEEDED row follows. *)
Theorem unknown_function_batch_goes_on :
  DataStandardization.recognized
    (Schema.function_name StandardizationCases.capitalize) = false /\
  DataStandardization.standardize_file with_columns_str json_field
    json_int_field format_exc StandardizationCases.landing read_csv
    [StandardizationCases.capitalize] QualityCases.dataset "dev"
    StandardizationCases.landed StandardizationCases.fresh =
  ({| DataStandardization.log_standardization :=
        [DataStandardization.log_row QualityCases.dataset
           StandardizationCases.landed "FAILED"
           (Some (format_exc StandardizationCases.unknown_function));
         DataStandardization.log_row QualityCases.dataset
           StandardizationCases.landed "SUCCEEDED" None];
      DataStandardization.writes :=
        [{| DataProcessor.written :=
              {| Polars.columns := ["region"; "batch_id"];
                 Polars.rows := [[Polars.Text "EU";
                                  Polars.Num 2025010109300012]] |};
            DataProcessor.target := "s3a://dev-silver/standardized/sales";
            DataProcessor.target_keyword := None;
            DataProcessor.mode := "append";
            DataProcessor.partition_by := ["region"] |}] |},
   Py.Return tt).
Proof. split; reflexivity. Qed.

End Standardization.

(* ================================================================== *)
(** * Part III: further properties of the code *)
(* ================================================================== *)

(** ** Strings, continued *)

Lemma append_assoc (a b c : string) : (a ++ b) ++ c = a ++ (b ++ c).
Proof. induction a as [|x a IH]; simpl; [reflexivity|now rewrite IH]. Qed.

Lemma append_empty_r (a : string) : a ++ "" = a.
Proof. induction a as [|x a IH]; simpl; [reflexivity|now rewrite IH]. Qed.

Lemma length_append (a b : string) :
  String.length (a ++ b) = (String.length a + String.length b)%nat.
Proof. induction a as [|x a IH]; simpl; [reflexivity|now rewrite IH]. Qed.

(** The number of occurrences of a character. *)
Lemma split_rest_length (sep : ascii) (s : string) :
  List.length (snd (PyStr.split sep s)) =
  List.length (filter (Ascii.eqb sep) (list_ascii_of_string s)).
Proof.
  induction s as [|a s IH]; [reflexivity|]. simpl.
  destruct (PyStr.split sep s) as [h t]. rewrite (Ascii.eqb_sym sep a).
  destruct (Ascii.eqb a sep); simpl in *; now rewrite IH.
Qed.

(** ** Path resolver, continued *)

(** X1: the uri the resolver returns is the location behind
    [s3a://<env>-]; a location without any '/' names a bucket only, and its
    uri ends in the '/' that precedes the empty key. *)
Theorem path_to_s3_location (location env : string) :
  S3Process.s3_location (S3Process.path_to_s3 location env) =
  "s3a://" ++ env ++ "-" ++ location ++
  (if PyStr.lacks "/" location then "/" else "") /\
  S3Process.key (S3Process.path_to_s3 location env) =
  (if PyStr.lacks "/" location then ""
   else PyStr.drop
          (S (String.length (fst (PyStr.split "/" location)))) location).
Proof.
  pose proof (join_split "/" location) as Hjoin.
  unfold PyStr.split_list in Hjoin. unfold S3Process.path_to_s3.
  destruct (PyStr.split "/" location) as [seg segs] eqn:E.
  cbn [S3Process.s3_location S3Process.key fst].
  destruct (PyStr.lacks "/" location) eqn:L.
  - rewrite (split_lacks _ _ L) in E. injection E as <- <-.
    split; [|reflexivity]. simpl PyStr.join.
    now rewrite !append_assoc.
  - pose proof (split_rest_nonempty "/" location L) as Hne.
    rewrite E in Hne. simpl in Hne.
    destruct segs as [|x segs]; [contradiction|].
    change (PyStr.join "/" (seg :: x :: segs))
      with (seg ++ "/" ++ PyStr.join "/" (x :: segs)) in Hjoin.
    split.
    + rewrite <- Hjoin. rewrite append_empty_r.
      now rewrite !append_assoc.
    + rewrite <- Hjoin. clear. induction seg as [|c seg IH]; simpl; auto.
Qed.

(** ** SCD-2 merge, continued *)

Lemma filter_none {A : Type} (p : A -> bool) (l : list A) :
  (forall x, In x l -> p x = false) -> filter p l = [].
Proof.
  induction l as [|a l IH]; intros H; [reflexivity|]. simpl.
  rewrite (H a (or_introl eq_refl)). apply IH. intros x Hx. apply H. now right.
Qed.

Section MergeTwice.

Variable today : string.
Variable staging_df : list DataProcessor.gold_row.
Hypothesis today_not_sentinel : today <> DataProcessor.active_sentinel.
Hypothesis staging_enveloped : Forall (DataProcessor.staged today) staging_df.
Hypothesis staging_keyed : Forall DataProcessor.keyed staging_df.
Hypothesis staging_keys : NoDup (map DataProcessor.primary_key staging_df).

(** A table on which no staged row finds a predecessor to close or a key
    to insert is left as it is by a merge. *)
Lemma merge_fixpoint (when_matched_update : bool)
  (table : list DataProcessor.gold_row) :
  (forall r s, In r table -> In s staging_df ->
     DataProcessor.merge_predicate r s = true ->
     DataProcessor.update_predicate r s = false) ->
  (forall s, In s staging_df ->
     existsb (fun r => DataProcessor.merge_predicate r s) table = true) ->
  DataProcessor.merge when_matched_update staging_df table = table.
Proof.
  intros Hsame Hcov. rewrite (merge_rows staging_df staging_keys).
  rewrite (filter_none _ staging_df).
  - rewrite app_nil_r. rewrite <- (map_id table) at 2.
    apply map_ext_in. intros t Ht.
    destruct when_matched_update; [|reflexivity].
    unfold ScdType2.close, ScdType2.successor.
    destruct (find _ staging_df) as [s|] eqn:F; [|reflexivity].
    apply find_some in F. destruct F as [Hs Hp].
    apply andb_true_iff in Hp. destruct Hp as [Hm Hu].
    rewrite (Hsame t s Ht Hs Hm) in Hu. discriminate.
  - intros s Hs. unfold ScdType2.is_new. now rewrite (Hcov s Hs).
Qed.

Lemma merged_rows (target : list DataProcessor.gold_row)
  (r : DataProcessor.gold_row) :
  In r (DataProcessor.DeltaTableWriterScdType2 staging_df target) ->
  In r staging_df \/
  (exists t, In t target /\
     ((r = t /\ forall s, In s staging_df ->
                 DataProcessor.merge_predicate t s = true ->
                 DataProcessor.update_predicate t s = false) \/
      (exists s, In s staging_df /\ r = DataProcessor.updates t s))).
Proof.
  rewrite (two_phase_eq today staging_df today_not_sentinel staging_enveloped
             staging_keyed staging_keys).
  unfold ScdType2.two_phase. intros Hr.
  apply in_app_or in Hr. destruct Hr as [Hr|Hr].
  2:{ left. apply in_app_or in Hr. destruct Hr as [Hr|Hr];
        apply filter_In in Hr; tauto. }
  right. apply in_map_iff in Hr. destruct Hr as [t [<- Ht]]. exists t.
  split; [assumption|]. unfold ScdType2.close, ScdType2.successor.
  destruct (find _ staging_df) as [s|] eqn:F.
  - right. apply find_some in F. exists s. tauto.
  - left. split; [reflexivity|]. intros s Hs Hm.
    pose proof (find_none _ _ F s Hs) as Hn. cbv beta in Hn.
    rewrite Hm in Hn. exact Hn.
Qed.

(** X2: merging the same staging frame a second time changes nothing,
    when the frame holds each primary key once and no NULL in a key
    column: after the two-phase merge no staged row finds a row to close
    or a key to insert. *)
Theorem scd2_merge_idempotent (target : list DataProcessor.gold_row) :
  DataProcessor.DeltaTableWriterScdType2 staging_df
    (DataProcessor.DeltaTableWriterScdType2 staging_df target) =
  DataProcessor.DeltaTableWriterScdType2 staging_df target.
Proof.
  set (gold := DataProcessor.DeltaTableWriterScdType2 staging_df target).
  assert (Hsame : forall r s, In r gold -> In s staging_df ->
            DataProcessor.merge_predicate r s = true ->
            DataProcessor.update_predicate r s = false).
  { intros r s Hr Hs Hm. apply merged_rows in Hr.
    destruct Hr as [Hr|[t [Ht [[-> Hkeep]|[s' [Hs' ->]]]]]].
    - rewrite (staging_match_self staging_df staging_keys r s Hr Hs Hm).
      unfold DataProcessor.update_predicate.
      destruct (DataProcessor.sys_checksum s); [|reflexivity].
      now rewrite String.eqb_refl.
    - now apply Hkeep.
    - exfalso.
      rewrite (updates_unmatched today staging_df today_not_sentinel
                 staging_enveloped t s' s Hs') in Hm.
      discriminate. }
  assert (Hcov : forall s, In s staging_df ->
            existsb (fun r => DataProcessor.merge_predicate r s) gold = true).
  { intros s Hs. unfold gold, DataProcessor.DeltaTableWriterScdType2.
    set (phase1 := DataProcessor.merge true staging_df target).
    rewrite (merge_rows staging_df staging_keys), map_id, existsb_app.
    destruct (existsb (fun r => DataProcessor.merge_predicate r s) phase1)
      eqn:E; [reflexivity|].
    simpl. apply existsb_exists. exists s. split.
    - apply filter_In. split; [assumption|].
      unfold ScdType2.is_new. now rewrite E.
    - exact (staging_self_match today staging_df staging_enveloped
               staging_keyed s Hs). }
  unfold DataProcessor.DeltaTableWriterScdType2 at 1. fold gold.
  now rewrite (merge_fixpoint true gold Hsame Hcov),
              (merge_fixpoint false gold Hsame Hcov).
Qed.

End MergeTwice.

(** Scenario "SCD-2 update", merged twice. *)
Lemma scd2_merge_idempotent_witness :
  DataProcessor.DeltaTableWriterScdType2 GoldCases.day2_staging
    (DataProcessor.DeltaTableWriterScdType2 GoldCases.day2_staging
       GoldCases.day1) =
  DataProcessor.DeltaTableWriterScdType2 GoldCases.day2_staging GoldCases.day1.
Proof.
  apply (scd2_merge_idempotent "2025-01-02" GoldCases.day2_staging).
  - discriminate.
  - repeat constructor.
  - repeat constructor; discriminate.
  - repeat constructor. intros [].
Defined.

(** ** Quality gate, continued *)

Section GateLog.

Variable sql : string -> Polars.Frame -> Py.outcome Polars.Frame.
Variable filter_by_column : string -> Polars.Frame -> Py.outcome Polars.Frame.
Variable unique : list string -> Polars.Frame -> Py.outcome Polars.Frame.
Variable filter_contains :
  string -> option string -> Polars.Frame -> Py.outcome Polars.Frame.
Variable filter_sql_expr :
  string -> option string -> Polars.Frame -> Py.outcome Polars.Frame.
Variable json_field : option string -> string -> Py.outcome string.

(** What a rule function does to the DQM log: nothing, or one more row,
    built by [log_row] from the function's own arguments. *)
Lemma gate_log (kind : DataQualityCheck.qc_kind) (df passing : Polars.Frame)
  (batch_id : option Z) (source_file : option string)
  (dqm_detail : Schema.ctlDqmMasterDtl)
  (dataset_master : Schema.ctlDatasetMaster) (log : list Schema.logDqmDtl) :
  fst (DataQualityCheck.gate kind df passing batch_id source_file dqm_detail
         dataset_master log) = log \/
  exists error_count error_pct status,
    fst (DataQualityCheck.gate kind df passing batch_id source_file dqm_detail
           dataset_master log) =
    (log ++ [DataQualityCheck.log_row dataset_master batch_id source_file
               dqm_detail error_count error_pct status])%list.
Proof.
  unfold DataQualityCheck.gate, OrchestrationProcess.insert_log_dqm.
  destruct (negb _).
  - destruct (DataQualityCheck.failure_percentage _ _) as [pct|e]; [|now left].
    destruct (DataQualityCheck.is_crit dqm_detail "C").
    + destruct (Schema.criticality_threshold_pct dqm_detail) as [t|];
        [|now left].
      destruct (PyFloat.ge_int pct t); [right; do 3 eexists; reflexivity|].
      destruct (PyFloat.le_int pct t);
        [right; do 3 eexists; reflexivity | now left].
    + destruct (DataQualityCheck.is_crit dqm_detail "NC");
        [right; do 3 eexists; reflexivity | now left].
  - destruct kind; first [now left | right; do 3 eexists; reflexivity].
Qed.

Lemma check_log (kind : DataQualityCheck.qc_kind) (df : Polars.Frame)
  (batch_id : option Z) (source_file : option string)
  (dqm_detail : Schema.ctlDqmMasterDtl)
  (dataset_master : Schema.ctlDatasetMaster) (log : list Schema.logDqmDtl) :
  let log' :=
    fst (DataQualityCheck.check sql filter_by_column unique filter_contains
           filter_sql_expr json_field kind df batch_id source_file dqm_detail
           dataset_master log) in
  log' = log \/
  exists error_count error_pct status,
    log' = (log ++ [DataQualityCheck.log_row dataset_master batch_id
                      source_file dqm_detail error_count error_pct status])%list.
Proof.
  cbv zeta. unfold DataQualityCheck.check.
  destruct (DataQualityCheck.passing_rows _ _ _ _ _ _ kind dqm_detail df)
    as [passing|e]; [apply gate_log | now left].
Qed.

(** X3: a rule function never rewrites or removes a row of the DQM log;
    it appends at most one row, and that row carries the batch id and
    source file the function was called with. *)
Theorem rule_function_appends_at_most_one_row
  (kind : DataQualityCheck.qc_kind) (df : Polars.Frame)
  (batch_id : option Z) (source_file : option string)
  (dqm_detail : Schema.ctlDqmMasterDtl)
  (dataset_master : Schema.ctlDatasetMaster) (log : list Schema.logDqmDtl) :
  exists added,
    fst (DataQualityCheck.check sql filter_by_column unique filter_contains
           filter_sql_expr json_field kind df batch_id source_file dqm_detail
           dataset_master log) = (log ++ added)%list /\
    (List.length added <= 1)%nat /\
    Forall (fun r => Schema.dqm_batch_id r = batch_id /\
                     Schema.dqm_source_file r = source_file) added.
Proof.
  destruct (check_log kind df batch_id source_file dqm_detail dataset_master log)
    as [H|[ec [pct [st H]]]]; cbv zeta in H; rewrite H.
  - exists []. rewrite app_nil_r. repeat split; [simpl; lia | constructor].
  - eexists. repeat split; [simpl; lia|]. repeat constructor.
Qed.

(** X4: the rows a rule function logs carry the dataset id in the
    [process_id] column, so for a dataset whose process id differs from
    its dataset id the gold selector, asked for that process, returns none
    of them. *)
Theorem rule_function_rows_hidden_from_gold
  (kind : DataQualityCheck.qc_kind) (df : Polars.Frame)
  (batch_id : option Z) (source_file : option string)
  (dqm_detail : Schema.ctlDqmMasterDtl)
  (dataset_master : Schema.ctlDatasetMaster) (log : list Schema.logDqmDtl)
  (log_transformation : list Schema.logTransformationDtl) (dataset_id : Z) :
  Schema.process_id dataset_master <> Schema.dataset_id dataset_master ->
  Forall (fun r => Schema.dqm_process_id r =
                   Some (Schema.dataset_id dataset_master)) log ->
  OrchestrationProcess.get_unprocessed_transformation_files
    (fst (DataQualityCheck.check sql filter_by_column unique filter_contains
            filter_sql_expr json_field kind df batch_id source_file dqm_detail
            dataset_master log))
    log_transformation (Schema.process_id dataset_master) dataset_id = [].
Proof.
  intros Hne Hlog.
  assert (Hall : Forall (fun r => Schema.dqm_process_id r =
                           Some (Schema.dataset_id dataset_master))
                   (fst (DataQualityCheck.check sql filter_by_column unique
                           filter_contains filter_sql_expr json_field kind df
                           batch_id source_file dqm_detail dataset_master log))).
  { destruct (check_log kind df batch_id source_file dqm_detail dataset_master
                log) as [H|[ec [pct [st H]]]]; cbv zeta in H; rewrite H;
      [assumption|].
    apply Forall_app. split; [assumption|]. repeat constructor. }
  unfold OrchestrationProcess.get_unprocessed_transformation_files.
  apply filter_none. intros d Hd. rewrite Forall_forall in Hall.
  rewrite (Hall d Hd). unfold Sql.eq_int. simpl option_map.
  apply Z.eqb_neq in Hne. rewrite Hne. cbn [Sql.holds].
  now rewrite andb_false_r.
Qed.

(** X5: a non-critical rule never raises on failed rows: with at least one
    failing row on a non-empty frame it logs SUCCEEDED with the number and
    percentage of failures and returns the passing rows only. *)
Theorem non_critical_rule_keeps_passing_rows
  (kind : DataQualityCheck.qc_kind) (df passing : Polars.Frame)
  (batch_id : option Z) (source_file : option string)
  (dqm_detail : Schema.ctlDqmMasterDtl)
  (dataset_master : Schema.ctlDatasetMaster) (log : list Schema.logDqmDtl) :
  let failure_count := Polars.len df - Polars.len passing in
  let failure_percentage :=
    PrimFloat.mul
      (PrimFloat.div (PyFloat.of_int failure_count)
         (PyFloat.of_int (Polars.len df)))
      (PyFloat.of_int 100) in
  DataQualityCheck.passing_rows sql filter_by_column unique filter_contains
    filter_sql_expr json_field kind dqm_detail df = Py.Return passing ->
  Schema.criticality dqm_detail = Some "NC" ->
  Polars.len df <> 0 ->
  failure_count <> 0 ->
  DataQualityCheck.check sql filter_by_column unique filter_contains
    filter_sql_expr json_field kind df batch_id source_file dqm_detail
    dataset_master log =
  ((log ++ [DataQualityCheck.log_row dataset_master batch_id source_file
              dqm_detail failure_count failure_percentage "SUCCEEDED"])%list,
   Py.Return (Some passing)).
Proof.
  intros failure_count failure_percentage Hpass Hcrit Hlen Hfail.
  unfold DataQualityCheck.check. rewrite Hpass.
  unfold DataQualityCheck.gate. fold failure_count.
  apply Z.eqb_neq in Hfail. rewrite Hfail. simpl negb. cbv iota.
  unfold DataQualityCheck.failure_percentage, PyFloat.truediv.
  apply Z.eqb_neq in Hlen. rewrite Hlen. cbn [Py.bind].
  unfold DataQualityCheck.is_crit. rewrite Hcrit. reflexivity.
Qed.

(** X6: a rule whose criticality is neither 'C' nor 'NC' - a lower-case
    'c', or none at all - and on which some row fails leaves the log as it
    is and returns no frame: the function body ends without a [return]. *)
Theorem unknown_criticality_returns_nothing
  (kind : DataQualityCheck.qc_kind) (df passing : Polars.Frame)
  (batch_id : option Z) (source_file : option string)
  (dqm_detail : Schema.ctlDqmMasterDtl)
  (dataset_master : Schema.ctlDatasetMaster) (log : list Schema.logDqmDtl) :
  DataQualityCheck.passing_rows sql filter_by_column unique filter_contains
    filter_sql_expr json_field kind dqm_detail df = Py.Return passing ->
  Schema.criticality dqm_detail <> Some "C" ->
  Schema.criticality dqm_detail <> Some "NC" ->
  Polars.len df <> 0 ->
  Polars.len df - Polars.len passing <> 0 ->
  DataQualityCheck.check sql filter_by_column unique filter_contains
    filter_sql_expr json_field kind df batch_id source_file dqm_detail
    dataset_master log = (log, Py.Return None).
Proof.
  intros Hpass HC HNC Hlen Hfail.
  unfold DataQualityCheck.check. rewrite Hpass.
  unfold DataQualityCheck.gate.
  apply Z.eqb_neq in Hfail. rewrite Hfail. simpl negb. cbv iota.
  unfold DataQualityCheck.failure_percentage, PyFloat.truediv.
  apply Z.eqb_neq in Hlen. rewrite Hlen. cbn [Py.bind].
  unfold DataQualityCheck.is_crit.
  destruct (Schema.criticality dqm_detail) as [c|]; [|reflexivity].
  destruct (String.eqb_spec c "C") as [->|_]; [contradiction|].
  destruct (String.eqb_spec c "NC") as [->|_]; [contradiction|].
  reflexivity.
Qed.

End GateLog.

Lemma rule_function_rows_hidden_from_gold_witness :
  OrchestrationProcess.get_unprocessed_transformation_files
    (fst (DataQualityCheck.null_check QualityCases.idle QualityCases.idle
            QualityCases.idle_unique QualityCases.idle_pattern
            QualityCases.idle_pattern QualityCases.idle_json
            QualityCases.regions QualityCases.batch QualityCases.file
            (QualityCases.rule "region" "null" "NC" 5) QualityCases.dataset []))
    [] 7 1 = [].
Proof.
  apply (rule_function_rows_hidden_from_gold QualityCases.idle
           QualityCases.idle QualityCases.idle_unique
           QualityCases.idle_pattern QualityCases.idle_pattern
           QualityCases.idle_json DataQualityCheck.QcNull QualityCases.regions
           QualityCases.batch QualityCases.file
           (QualityCases.rule "region" "null" "NC" 5) QualityCases.dataset []
           [] 1).
  - discriminate.
  - constructor.
Defined.

Lemma non_critical_rule_keeps_passing_rows_witness :
  DataQualityCheck.null_check QualityCases.idle QualityCases.idle
    QualityCases.idle_unique QualityCases.idle_pattern
    QualityCases.idle_pattern QualityCases.idle_json
    QualityCases.regions QualityCases.batch QualityCases.file
    (QualityCases.rule "region" "null" "NC" 5) QualityCases.dataset [] =
  ([DataQualityCheck.log_row QualityCases.dataset QualityCases.batch
      QualityCases.file (QualityCases.rule "region" "null" "NC" 5) 1 5%float
      "SUCCEEDED"],
   Py.Return (Some {| Polars.columns := ["region"];
                      Polars.rows := repeat [Polars.Text "EU"] 19 |})).
Proof.
  apply (non_critical_rule_keeps_passing_rows QualityCases.idle
           QualityCases.idle QualityCases.idle_unique
           QualityCases.idle_pattern QualityCases.idle_pattern
           QualityCases.idle_json DataQualityCheck.QcNull QualityCases.regions
           {| Polars.columns := ["region"];
              Polars.rows := repeat [Polars.Text "EU"] 19 |}
           QualityCases.batch QualityCases.file
           (QualityCases.rule "region" "null" "NC" 5) QualityCases.dataset []).
  - reflexivity.
  - reflexivity.
  - discriminate.
  - discriminate.
Defined.

Lemma unknown_criticality_returns_nothing_witness :
  DataQualityCheck.null_check QualityCases.idle QualityCases.idle
    QualityCases.idle_unique QualityCases.idle_pattern
    QualityCases.idle_pattern QualityCases.idle_json
    QualityCases.regions QualityCases.batch QualityCases.file
    (QualityCases.rule "region" "null" "c" 5) QualityCases.dataset [] =
  ([], Py.Return None).
Proof.
  apply (unknown_criticality_returns_nothing QualityCases.idle
           QualityCases.idle QualityCases.idle_unique
           QualityCases.idle_pattern QualityCases.idle_pattern
           QualityCases.idle_json DataQualityCheck.QcNull QualityCases.regions
           {| Polars.columns := ["region"];
              Polars.rows := repeat [Polars.Text "EU"] 19 |}).
  - reflexivity.
  - discriminate.
  - discriminate.
  - discriminate.
  - discriminate.
Defined.

(** X7: with no failing row every rule function but [null_check] appends
    one SUCCEEDED row with an error count and percentage of zero and
    returns the passing frame. *)
Theorem rule_without_failures_succeeds
  (sql filter_by_column : string -> Polars.Frame -> Py.outcome Polars.Frame)
  (unique : list string -> Polars.Frame -> Py.outcome Polars.Frame)
  (filter_contains filter_sql_expr :
     string -> option string -> Polars.Frame -> Py.outcome Polars.Frame)
  (json_field : option string -> string -> Py.outcome string)
  (kind : DataQualityCheck.qc_kind)
  (df passing : Polars.Frame) (batch_id : option Z)
  (source_file : option string) (dqm_detail : Schema.ctlDqmMasterDtl)
  (dataset_master : Schema.ctlDatasetMaster) (log : list Schema.logDqmDtl) :
  kind <> DataQualityCheck.QcNull ->
  DataQualityCheck.passing_rows sql filter_by_column unique filter_contains
    filter_sql_expr json_field kind dqm_detail df = Py.Return passing ->
  Polars.len passing = Polars.len df ->
  DataQualityCheck.check sql filter_by_column unique filter_contains
    filter_sql_expr json_field kind df batch_id source_file dqm_detail
    dataset_master log =
  ((log ++ [DataQualityCheck.log_row dataset_master batch_id source_file
              dqm_detail 0 0%float "SUCCEEDED"])%list,
   Py.Return (Some passing)).
Proof.
  intros Hkind Hpass Hsame.
  apply (check_zero_failures sql filter_by_column unique filter_contains
           filter_sql_expr json_field kind df passing); auto. lia.
Qed.

Lemma rule_without_failures_succeeds_witness :
  DataQualityCheck.integer_dqm_check QualityCases.idle QualityCases.idle
    QualityCases.idle_unique QualityCases.idle_pattern
    QualityCases.idle_pattern QualityCases.idle_json
    QualityCases.one_id QualityCases.batch QualityCases.file
    (QualityCases.rule "id" "integer" "NC" 5) QualityCases.dataset [] =
  ([DataQualityCheck.log_row QualityCases.dataset QualityCases.batch
      QualityCases.file (QualityCases.rule "id" "integer" "NC" 5) 0 0%float
      "SUCCEEDED"],
   Py.Return (Some QualityCases.one_id)).
Proof.
  apply (rule_without_failures_succeeds QualityCases.idle QualityCases.idle
           QualityCases.idle_unique QualityCases.idle_pattern
           QualityCases.idle_pattern QualityCases.idle_json
           DataQualityCheck.QcInteger QualityCases.one_id QualityCases.one_id).
  - discriminate.
  - reflexivity.
  - reflexivity.
Defined.

Lemma filter_rows_total (i : nat) (p : Polars.cell -> option bool)
  (q : list Polars.cell -> bool) (rs : list (list Polars.cell)) :
  Forall (fun r => p (Polars.get i r) = Some (q r)) rs ->
  Polars.filter_rows i p rs = Py.Return (filter q rs).
Proof.
  induction rs as [|r rs IH]; intros H; [reflexivity|].
  inversion H as [|? ? Hr Hrs]; subst. simpl. rewrite Hr, (IH Hrs).
  reflexivity.
Qed.

(** X8: on a column of ASCII text and without a [qc_filter], the integer
    rule keeps exactly the rows whose value is an optional minus sign
    followed by one or more of the digits 0 to 9; a null fails the rule. *)
Theorem integer_rule_passing_rows
  (sql filter_by_column : string -> Polars.Frame -> Py.outcome Polars.Frame)
  (unique : list string -> Polars.Frame -> Py.outcome Polars.Frame)
  (filter_contains filter_sql_expr :
     string -> option string -> Polars.Frame -> Py.outcome Polars.Frame)
  (json_field : option string -> string -> Py.outcome string)
  (dqm_detail : Schema.ctlDqmMasterDtl) (df : Polars.Frame) (i : nat) :
  DataQualityCheck.truthy (Schema.qc_filter dqm_detail) = false ->
  Polars.col_index (Schema.column_name dqm_detail) (Polars.columns df) =
    Some i ->
  Forall (fun r => QualityCases.ascii_cell (Polars.get i r)) (Polars.rows df) ->
  DataQualityCheck.passing_rows sql filter_by_column unique filter_contains
    filter_sql_expr json_field DataQualityCheck.QcInteger dqm_detail df =
  Py.Return
    {| Polars.columns := Polars.columns df;
       Polars.rows :=
         filter (fun r => match Polars.get i r with
                          | Polars.Text s => QualityCases.integer_text s
                          | _ => false
                          end) (Polars.rows df) |}.
Proof.
  intros Hfilter Hcol Htext.
  unfold DataQualityCheck.passing_rows, Polars.filter_col. rewrite Hcol.
  rewrite (filter_rows_total i _
             (fun r => match Polars.get i r with
                       | Polars.Text s => QualityCases.integer_text s
                       | _ => false
                       end)).
  - cbn [Py.bind]. unfold DataQualityCheck.apply_qc_filter.
    now rewrite Hfilter.
  - apply Forall_forall. intros r Hr. rewrite Forall_forall in Htext.
    specialize (Htext r Hr). unfold Polars.str_contains.
    destruct (Polars.get i r) as [|s|z]; [reflexivity| |contradiction].
    now rewrite integer_regex_accepts.
Qed.

Lemma integer_rule_passing_rows_witness :
  DataQualityCheck.passing_rows QualityCases.idle QualityCases.idle
    QualityCases.idle_unique QualityCases.idle_pattern
    QualityCases.idle_pattern QualityCases.idle_json
    DataQualityCheck.QcInteger (QualityCases.rule "amount" "integer" "NC" 5)
    QualityCases.amounts =
  Py.Return {| Polars.columns := ["amount"];
               Polars.rows := [[Polars.Text "12"]; [Polars.Text "-7"]] |}.
Proof.
  apply (integer_rule_passing_rows QualityCases.idle QualityCases.idle
           QualityCases.idle_unique QualityCases.idle_pattern
           QualityCases.idle_pattern QualityCases.idle_json
           (QualityCases.rule "amount" "integer" "NC" 5) QualityCases.amounts
           O).
  - reflexivity.
  - reflexivity.
  - repeat constructor.
Defined.

(** ** Witnesses for the standardization pass, the writer and the mapper *)

Lemma standardize_file_succeeds_witness :
  DataStandardization.standardize_file
    (fun _ _ df => Py.Return df) QualityCases.idle_json
    (fun _ _ => Py.Raise Py.KeyError) (fun _ => "Traceback")
    StandardizationCases.landing ReaderCases.one_file
    [StandardizationCases.capitalize] QualityCases.dataset "dev"
    StandardizationCases.landed StandardizationCases.fresh =
  ({| DataStandardization.log_standardization :=
        [DataStandardization.log_row QualityCases.dataset
           StandardizationCases.landed "FAILED" (Some "Traceback");
         DataStandardization.log_row QualityCases.dataset
           StandardizationCases.landed "SUCCEEDED" None];
      DataStandardization.writes :=
        [{| DataProcessor.written :=
              {| Polars.columns := ["region"; "batch_id"];
                 Polars.rows := [[Polars.Text "EU";
                                  Polars.Num 2025010109300012]] |};
            DataProcessor.target := "s3a://dev-silver/standardized/sales";
            DataProcessor.target_keyword := None;
            DataProcessor.mode := "append";
            DataProcessor.partition_by := ["region"] |}] |},
   Py.Return tt).
Proof.
  destruct (standardize_file_succeeds (fun _ _ df => Py.Return df)
              QualityCases.idle_json (fun _ _ => Py.Raise Py.KeyError)
              (fun _ => "Traceback") ReaderCases.one_file
              StandardizationCases.landing [StandardizationCases.capitalize]
              QualityCases.dataset "dev" StandardizationCases.landed
              StandardizationCases.fresh QualityCases.one_region
              "silver/standardized/sales" "bronze/landing/sales" "region"
              eq_refl eq_refl eq_refl eq_refl) as [added [Hadded Hst]].
  vm_compute in Hadded. subst added. exact Hst.
Defined.

Lemma DeltaTableWriter_frame_and_path_tagged_witness :
  DataProcessor.tagged_with 2025010109300012
    (Polars.with_columns_lit "batch_id" (Polars.Num 2025010109300012)
       WriterCases.one_frame).
Proof.
  apply (DeltaTableWriter_frame_and_path_tagged ReaderCases.one_file
           (DataProcessor.InFrame WriterCases.one_frame)
           "s3a://dev-bronze/landing/sales" 2025010109300012 "region" None
           false
           {| DataProcessor.written :=
                Polars.with_columns_lit "batch_id"
                  (Polars.Num 2025010109300012) WriterCases.one_frame;
              DataProcessor.target := "s3a://dev-bronze/landing/sales";
              DataProcessor.target_keyword := None;
              DataProcessor.mode := "append";
              DataProcessor.partition_by := ["region"] |}).
  - discriminate.
  - reflexivity.
Defined.

Lemma convert_to_dict_plain_witness :
  JsonDataMapper.convert_to_dict JsonDataMapper.plain_int_of_str
    MapperCases.people =
  Py.Return
    (map (fun i =>
            map (fun kv =>
                   (fst kv,
                    MapperCases.converted JsonDataMapper.plain_int_of_str
                      (MapperCases.aligned (snd kv) i)))
              MapperCases.people)
       (seq 0 (JsonDataMapper.max_length MapperCases.people))).
Proof.
  apply (convert_to_dict_plain JsonDataMapper.plain_int_of_str
           MapperCases.people).
  - discriminate.
  - repeat constructor; discriminate.
Defined.

(** ** JSON path mapper, continued *)

Lemma max_length_zero (data : list (string * list JsonDataMapper.value)) :
  Forall (fun kv => snd kv = []) data -> JsonDataMapper.max_length data = O.
Proof.
  induction data as [|[k vs] data IH]; intros H; [reflexivity|].
  inversion H as [|? ? Hk Hrest]; subst. simpl in Hk. subst vs.
  unfold JsonDataMapper.max_length in *. simpl. now rewrite (IH Hrest).
Qed.

Lemma max_length_app (a b : list (string * list JsonDataMapper.value)) :
  JsonDataMapper.max_length (a ++ b) =
  Nat.max (JsonDataMapper.max_length a) (JsonDataMapper.max_length b).
Proof.
  unfold JsonDataMapper.max_length.
  induction a as [|kv a IH]; [reflexivity|]. simpl. rewrite IH. lia.
Qed.

Lemma build_item_missing (int_of_str : string -> option Z)
  (before after : list (string * list JsonDataMapper.value)) (key : string)
  (i : nat) :
  Forall (fun kv => snd kv <> [] /\ Forall MapperCases.plain (snd kv)) before ->
  JsonDataMapper.build_item int_of_str (before ++ (key, []) :: after) i =
  Py.Raise Py.IndexError.
Proof.
  induction before as [|[k vs] before IH]; intros H.
  - simpl. destruct i; reflexivity.
  - inversion H as [|? ? [Hne Hpl] Hrest]; subst. simpl in Hne, Hpl.
    cbn [app JsonDataMapper.build_item]. rewrite (pick_aligned vs i Hne).
    cbn [Py.bind]. rewrite (convert_plain _ _ (pick_plain vs i Hne Hpl)).
    cbn [Py.bind]. now rewrite (IH Hrest).
Qed.

Lemma convert_to_dict_nonempty (int_of_str : string -> option Z)
  (data : list (string * list JsonDataMapper.value)) :
  data <> [] ->
  JsonDataMapper.convert_to_dict int_of_str data =
  JsonDataMapper.build_rows int_of_str data
    (seq 0 (JsonDataMapper.max_length data)).
Proof. destruct data; [contradiction|reflexivity]. Qed.

Section Mapper.

Variable document : Type.
Variable find : string -> document -> Py.outcome (list JsonDataMapper.value).
Variable int_of_str : string -> option Z.

Lemma parsing_results_return (mapping : list (string * string))
  (json_data : document) (found : string -> list JsonDataMapper.value) :
  (forall kv, In kv mapping -> find (snd kv) json_data = Py.Return (found (snd kv))) ->
  JsonPathMapper.parsing_results document find mapping json_data =
  Py.Return (map (fun kv => (fst kv, found (snd kv))) mapping).
Proof.
  induction mapping as [|[k p] mapping IH]; intros H; [reflexivity|].
  cbn [JsonPathMapper.parsing_results map fst snd].
  pose proof (H (k, p) (or_introl eq_refl)) as Hk. cbn [snd] in Hk.
  rewrite Hk. cbn [Py.bind].
  rewrite IH; [reflexivity|]. intros kv Hkv. apply H. now right.
Qed.

(** X12: when none of the mapped paths matches anything in the document,
    the mapper returns no rows; with an empty mapping it raises
    [ValueError] instead, [max] having nothing to work on. *)
Theorem get_mapped_data_no_match (mapping : list (string * string))
  (json_data : document) :
  (forall kv, In kv mapping -> find (snd kv) json_data = Py.Return []) ->
  JsonPathMapper.get_mapped_data document find int_of_str mapping json_data =
  match mapping with
  | [] => Py.Raise Py.ValueError
  | _ => Py.Return []
  end.
Proof.
  intros H. unfold JsonPathMapper.get_mapped_data.
  rewrite (parsing_results_return mapping json_data (fun _ => []) H).
  cbn [Py.bind]. destruct mapping as [|kv mapping]; [reflexivity|].
  unfold JsonDataMapper.convert_to_dict. cbn [map].
  change ((fst kv, []) :: map (fun kv0 => (fst kv0, [])) mapping)
    with (map (fun kv0 : string * string =>
                 (fst kv0, @nil JsonDataMapper.value)) (kv :: mapping)).
  rewrite max_length_zero; [reflexivity|].
  apply Forall_forall. intros x Hx. apply in_map_iff in Hx.
  now destruct Hx as [y [<- _]].
Qed.

(** X13: a column whose path matches nothing makes the mapper raise
    [IndexError] as soon as another column has a match: there is no last
    value to repeat.  (The columns before it hold text or integers.) *)
Theorem get_mapped_data_missing_column
  (before after : list (string * string)) (key path : string)
  (json_data : document) (found : string -> list JsonDataMapper.value) :
  (forall kv, In kv (before ++ (key, path) :: after) ->
     find (snd kv) json_data = Py.Return (found (snd kv))) ->
  found path = [] ->
  Forall (fun kv => found (snd kv) <> [] /\
                    Forall MapperCases.plain (found (snd kv))) before ->
  (exists kv, In kv (before ++ after) /\ found (snd kv) <> []) ->
  JsonPathMapper.get_mapped_data document find int_of_str
    (before ++ (key, path) :: after) json_data = Py.Raise Py.IndexError.
Proof.
  intros Hfind Hnone Hbefore [kv [Hkv Hsome]].
  unfold JsonPathMapper.get_mapped_data.
  rewrite (parsing_results_return _ json_data found Hfind). cbn [Py.bind].
  rewrite map_app. cbn [map fst snd]. rewrite Hnone.
  set (b := map (fun kv0 : string * string => (fst kv0, found (snd kv0))) before).
  set (a := map (fun kv0 : string * string => (fst kv0, found (snd kv0))) after).
  assert (Hlen : exists n,
            JsonDataMapper.max_length (b ++ (key, []) :: a) = S n).
  { assert (Hpos : (1 <= JsonDataMapper.max_length (b ++ (key, []) :: a))%nat).
    { rewrite max_length_app.
      change ((key, []) :: a) with ([(key, @nil JsonDataMapper.value)] ++ a)%list.
      rewrite max_length_app.
      assert (Hone : forall l,
                In kv l ->
                (1 <= JsonDataMapper.max_length
                        (map (fun kv0 : string * string =>
                                (fst kv0, found (snd kv0))) l))%nat).
      { induction l as [|x l IH]; [contradiction|]. intros [->|Hin].
        - unfold JsonDataMapper.max_length. cbn [map fold_right snd].
          destruct (found (snd kv)) as [|v vs] eqn:Ef;
            [now contradiction Hsome|].
          cbn [List.length]. apply Nat.le_trans with (S (List.length vs));
            [lia | apply Nat.le_max_l].
        - specialize (IH Hin). unfold JsonDataMapper.max_length in *.
          cbn [map fold_right]. etransitivity; [exact IH | apply Nat.le_max_r]. }
      apply in_app_or in Hkv. destruct Hkv as [Hin|Hin].
      - pose proof (Hone before Hin). fold b in H. lia.
      - pose proof (Hone after Hin). fold a in H. lia. }
    destruct (JsonDataMapper.max_length (b ++ (key, []) :: a));
      [lia | eauto]. }
  destruct Hlen as [n Hn].
  rewrite convert_to_dict_nonempty
    by (intros E; symmetry in E; now apply app_cons_not_nil in E).
  rewrite Hn. cbn [seq JsonDataMapper.build_rows].
  rewrite build_item_missing; [reflexivity|].
  unfold b. apply Forall_forall. intros x Hx. apply in_map_iff in Hx.
  destruct Hx as [y [<- Hy]]. rewrite Forall_forall in Hbefore.
  exact (Hbefore y Hy).
Qed.

End Mapper.

Lemma get_mapped_data_no_match_witness :
  JsonPathMapper.get_mapped_data unit PathCases.find
    JsonDataMapper.plain_int_of_str
    [("age", "$.people[*].age"); ("city", "$.people[*].city")] tt =
  Py.Return [].
Proof.
  apply (get_mapped_data_no_match unit PathCases.find
           JsonDataMapper.plain_int_of_str
           [("age", "$.people[*].age"); ("city", "$.people[*].city")] tt).
  intros kv [<-|[<-|[]]]; reflexivity.
Defined.

Lemma get_mapped_data_missing_column_witness :
  JsonPathMapper.get_mapped_data unit PathCases.find
    JsonDataMapper.plain_int_of_str
    [("name", "$.people[*].name"); ("age", "$.people[*].age")] tt =
  Py.Raise Py.IndexError.
Proof.
  apply (get_mapped_data_missing_column unit PathCases.find
           JsonDataMapper.plain_int_of_str
           [("name", "$.people[*].name")] [] "age" "$.people[*].age" tt
           PathCases.found).
  - intros kv _. reflexivity.
  - reflexivity.
  - repeat constructor; discriminate.
  - exists ("name", "$.people[*].name"). split; [now left|discriminate].
Defined.

(** ** Batch ids *)

Lemma digit_is_digit (n : nat) :
  JsonDataMapper.is_digit (FileNameGenerator.digit n) = true /\
  (nat_of_ascii (FileNameGenerator.digit n) - 48 = Nat.modulo n 10)%nat.
Proof.
  unfold FileNameGenerator.digit.
  pose proof (Nat.mod_upper_bound n 10 ltac:(lia)) as Hlt.
  destruct (Nat.modulo n 10) as [|[|[|[|[|[|[|[|[|[|k]]]]]]]]]];
    try (split; reflexivity). lia.
Qed.

Lemma read_digits_decimal (width n : nat) (rest : string) (acc : Z) :
  JsonDataMapper.read_digits (FileNameGenerator.decimal width n ++ rest) acc =
  JsonDataMapper.read_digits rest
    (acc * 10 ^ Z.of_nat width + Z.of_nat n mod 10 ^ Z.of_nat width).
Proof.
  revert n rest acc. induction width as [|w IH]; intros n rest acc.
  - simpl. f_equal. rewrite Z.mod_1_r. lia.
  - cbn [FileNameGenerator.decimal]. rewrite append_assoc. rewrite IH.
    cbn [append JsonDataMapper.read_digits].
    destruct (digit_is_digit n) as [Hd Hv]. rewrite Hd, Hv. f_equal.
    rewrite Nat2Z.inj_succ, Z.pow_succ_r by lia.
    rewrite Nat2Z.inj_div, Nat2Z.inj_mod. change (Z.of_nat 10) with 10.
    rewrite (Z.rem_mul_r (Z.of_nat n) 10 (10 ^ Z.of_nat w)) by lia. lia.
Qed.

Lemma but_last_app (a : string) (c : ascii) :
  BatchId.but_last (a ++ String c "") = a.
Proof.
  induction a as [|x a IH]; [reflexivity|]. simpl.
  destruct (a ++ String c "") eqn:E.
  - destruct a; discriminate.
  - now rewrite <- IH.
Qed.

(** The text cut from the clock is never rejected by [int]. *)
Lemma batch_id_returns (now : BatchId.datetime) :
  exists b, BatchId.batch_id now = Py.Return b.
Proof.
  unfold BatchId.batch_id, BatchId.strftime.
  change (FileNameGenerator.decimal 6 (BatchId.microsecond now))
    with (FileNameGenerator.decimal 5 (Nat.div (BatchId.microsecond now) 10)
          ++ String (FileNameGenerator.digit (BatchId.microsecond now)) "").
  rewrite <- !append_assoc. rewrite but_last_app. rewrite !append_assoc.
  unfold BatchId.int_of_digits.
  destruct (FileNameGenerator.decimal 4 (BatchId.year now) ++ _) eqn:E.
  { exfalso. cbn [FileNameGenerator.decimal append] in E. discriminate E. }
  rewrite <- E. clear E.
  rewrite <- (append_empty_r
                (FileNameGenerator.decimal 5 (Nat.div (BatchId.microsecond now) 10))).
  rewrite !read_digits_decimal. cbn [JsonDataMapper.read_digits].
  eexists. reflexivity.
Qed.

(** X14: the batch id is the timestamp read as one number, cut to ten
    microseconds: YYYYMMDDhhmmss followed by the first five of the six
    microsecond digits. *)
Theorem batch_id_value (now : BatchId.datetime) :
  BatchId.valid now ->
  BatchId.batch_id now =
  Py.Return
    ((((((Z.of_nat (BatchId.year now) * 100 + Z.of_nat (BatchId.month now))
         * 100 + Z.of_nat (BatchId.day now)) * 100
        + Z.of_nat (BatchId.hour now)) * 100
       + Z.of_nat (BatchId.minute now)) * 100
      + Z.of_nat (BatchId.second now)) * 100000
     + Z.of_nat (BatchId.microsecond now) / 10).
Proof.
  intros (Hy & Hmo & Hd & Hh & Hmi & Hs & Hus).
  unfold BatchId.batch_id, BatchId.strftime.
  change (FileNameGenerator.decimal 6 (BatchId.microsecond now))
    with (FileNameGenerator.decimal 5 (Nat.div (BatchId.microsecond now) 10)
          ++ String (FileNameGenerator.digit (BatchId.microsecond now)) "").
  rewrite <- !append_assoc. rewrite but_last_app. rewrite !append_assoc.
  unfold BatchId.int_of_digits.
  destruct (FileNameGenerator.decimal 4 (BatchId.year now) ++ _) eqn:E.
  { exfalso. cbn [FileNameGenerator.decimal append] in E. discriminate E. }
  rewrite <- E. clear E.
  rewrite <- (append_empty_r
                (FileNameGenerator.decimal 5 (Nat.div (BatchId.microsecond now) 10))).
  rewrite !read_digits_decimal. cbn [JsonDataMapper.read_digits].
  f_equal. rewrite Nat2Z.inj_div. change (Z.of_nat 10) with 10.
  change (Z.of_nat 4) with 4. change (Z.of_nat 2) with 2.
  change (Z.of_nat 5) with 5.
  assert (Hus' : Z.of_nat (BatchId.microsecond now) / 10 < 100000)
    by (apply Z.div_lt_upper_bound; lia).
  assert (Hus0 : 0 <= Z.of_nat (BatchId.microsecond now) / 10)
    by (apply Z.div_pos; lia).
  rewrite !Z.mod_small by lia. lia.
Qed.

Lemma batch_id_value_witness :
  BatchId.batch_id
    {| BatchId.year := 2025; BatchId.month := 1; BatchId.day := 1;
       BatchId.hour := 9; BatchId.minute := 30; BatchId.second := 0;
       BatchId.microsecond := 120 |} =
  Py.Return 2025010109300000012.
Proof.
  apply (batch_id_value
           {| BatchId.year := 2025; BatchId.month := 1; BatchId.day := 1;
              BatchId.hour := 9; BatchId.minute := 30; BatchId.second := 0;
              BatchId.microsecond := 120 |}).
  unfold BatchId.valid. simpl. lia.
Defined.

(** ** Work selectors *)

Lemma key_le_total (a b : option Z) :
  Catalog.key_le a b = false -> Catalog.key_le b a = true.
Proof.
  destruct a as [x|], b as [y|]; simpl; try reflexivity; try discriminate.
  intros H. apply Z.leb_gt in H. apply Z.leb_le. lia.
Qed.

Lemma key_le_trans (a b c : option Z) :
  Catalog.key_le a b = true -> Catalog.key_le b c = true ->
  Catalog.key_le a c = true.
Proof.
  destruct a as [x|], b as [y|], c as [z|]; simpl; try reflexivity;
    try discriminate.
  intros H1 H2. apply Z.leb_le in H1, H2. apply Z.leb_le. lia.
Qed.

Lemma in_insert_by {A : Type} (key : A -> option Z) (x y : A) (l : list A) :
  In y (Catalog.insert_by key x l) <-> y = x \/ In y l.
Proof.
  induction l as [|z l IH]; simpl.
  - intuition.
  - destruct (Catalog.key_le (key x) (key z)); simpl; rewrite ?IH; intuition.
Qed.

Lemma in_order_by {A : Type} (key : A -> option Z) (y : A) (l : list A) :
  In y (Catalog.order_by key l) <-> In y l.
Proof.
  unfold Catalog.order_by. induction l as [|x l IH]; simpl; [tauto|].
  rewrite in_insert_by, IH. intuition.
Qed.

Lemma order_by_nil {A : Type} (key : A -> option Z) (l : list A) :
  l = [] -> Catalog.order_by key l = [].
Proof. now intros ->. Qed.

Lemma insert_by_ascending {A : Type} (key : A -> option Z) (x : A)
  (l : list A) :
  Catalog.ascending key l -> Catalog.ascending key (Catalog.insert_by key x l).
Proof.
  induction l as [|y l IH]; simpl; intros H.
  - split; [constructor|exact I].
  - destruct H as [Hy Hl].
    destruct (Catalog.key_le (key x) (key y)) eqn:E; simpl.
    + split; [|split; assumption].
      constructor; [assumption|].
      apply Forall_forall. intros z Hz. rewrite Forall_forall in Hy.
      exact (key_le_trans _ _ _ E (Hy z Hz)).
    + split; [|now apply IH].
      apply Forall_forall. intros z Hz. apply in_insert_by in Hz.
      destruct Hz as [->|Hz]; [now apply key_le_total|].
      rewrite Forall_forall in Hy. now apply Hy.
Qed.

Lemma order_by_ascending {A : Type} (key : A -> option Z) (l : list A) :
  Catalog.ascending key (Catalog.order_by key l).
Proof.
  unfold Catalog.order_by. induction l as [|x l IH]; simpl; [exact I|].
  now apply insert_by_ascending.
Qed.

(** [x NOT IN (subquery)] is TRUE exactly when the subquery holds neither
    the value nor a NULL. *)
Lemma not_in_holds (f : string) (subquery : list (option string)) :
  Sql.holds (Sql.not_ (Sql.in_ (Some f) subquery)) = true <->
  ~ In (Some f) subquery /\ ~ In None subquery.
Proof.
  unfold Sql.in_. destruct subquery as [|q subquery]; [simpl; tauto|].
  set (l := q :: subquery).
  destruct (existsb _ l) eqn:E1.
  - simpl. split; [discriminate|]. intros [Hn _]. exfalso. apply Hn.
    apply existsb_exists in E1. destruct E1 as [[w|] [Hin Hw]];
      [|discriminate].
    apply String.eqb_eq in Hw. now subst.
  - destruct (existsb Sql.is_null l) eqn:E2; simpl.
    + split; [discriminate|]. intros [_ Hn]. exfalso. apply Hn.
      apply existsb_exists in E2. destruct E2 as [[w|] [Hin Hw]];
        [discriminate|assumption].
    + split; [intros _|reflexivity]. split; intros Hin.
      * assert (H : existsb (fun x => match x with
                                      | Some w => String.eqb f w
                                      | None => false
                                      end) l = true).
        { apply existsb_exists. exists (Some f). split; [assumption|].
          apply String.eqb_refl. }
        congruence.
      * assert (H : existsb Sql.is_null l = true).
        { apply existsb_exists. exists None. now split. }
        congruence.
Qed.

Lemma not_in_null_blocks (c : option string) (subquery : list (option string)) :
  In None subquery -> Sql.holds (Sql.not_ (Sql.in_ c subquery)) = false.
Proof.
  intros Hin. destruct c as [f|].
  - destruct (Sql.holds (Sql.not_ (Sql.in_ (Some f) subquery))) eqn:E;
      [|reflexivity].
    apply not_in_holds in E. tauto.
  - destruct subquery; [contradiction|reflexivity].
Qed.

Lemma eq_int_holds (c : option Z) (v : Z) :
  Sql.holds (Sql.eq_int c v) = true <-> c = Some v.
Proof.
  destruct c as [x|]; simpl; [|split; discriminate].
  destruct (Z.eqb_spec v x); simpl; split; try discriminate; try congruence.
Qed.

Lemma eq_str_holds (c : option string) (v : string) :
  Sql.holds (Sql.eq_str c v) = true <-> c = Some v.
Proof.
  destruct c as [x|]; simpl; [|split; discriminate].
  destruct (String.eqb_spec v x); simpl; split; try discriminate;
    try congruence.
Qed.

(** X15: a SUCCEEDED standardization row of the process and dataset is
    returned by the DQM selector exactly when no SUCCEEDED DQM row names
    its source file - provided no SUCCEEDED DQM row has a NULL source
    file. *)
Theorem get_dqm_unprocessed_files_spec
  (log_standardization : list Schema.logDataStandardisationDtl)
  (log_dqm : list Schema.logDqmDtl) (pid did : Z)
  (s : Schema.logDataStandardisationDtl) (f : string) :
  (forall d, In d log_dqm -> Schema.dqm_status d = Some "SUCCEEDED" ->
             Schema.dqm_source_file d <> None) ->
  Schema.std_source_file s = Some f ->
  (In s (Catalog.get_dqm_unprocessed_files log_standardization log_dqm pid did)
   <->
   In s log_standardization /\
   Schema.std_status s = Some "SUCCEEDED" /\
   Schema.std_process_id s = Some pid /\
   Schema.std_dataset_id s = Some did /\
   ~ exists d, In d log_dqm /\ Schema.dqm_status d = Some "SUCCEEDED" /\
               Schema.dqm_source_file d = Some f).
Proof.
  intros Hnonull Hf. unfold Catalog.get_dqm_unprocessed_files.
  rewrite in_order_by, filter_In, !andb_true_iff, Hf.
  rewrite not_in_holds, !eq_int_holds, eq_str_holds.
  assert (Hsub : forall x,
            In x (map Schema.dqm_source_file
                    (filter (fun d => Sql.holds
                               (Sql.eq_str (Schema.dqm_status d) "SUCCEEDED"))
                       log_dqm)) <->
            exists d, In d log_dqm /\ Schema.dqm_status d = Some "SUCCEEDED" /\
                      Schema.dqm_source_file d = x).
  { intros x. rewrite in_map_iff. split.
    - intros [d [Hx Hd]]. apply filter_In in Hd. destruct Hd as [Hd Hst].
      apply eq_str_holds in Hst. eauto.
    - intros [d [Hd [Hst Hx]]]. exists d. split; [assumption|].
      apply filter_In. split; [assumption|]. now apply eq_str_holds. }
  rewrite !Hsub. split.
  - intros [Hin [[[[Hnot _] Hp] Hd] Hst]]. tauto.
  - intros [Hin [Hst [Hp [Hd Hnot]]]]. repeat split; try assumption.
    intros [d [Hd' [Hst' Hnull]]]. exact (Hnonull d Hd' Hst' Hnull).
Qed.

(** X16: one SUCCEEDED standardization row without a source file hides
    every landed batch from the silver selector: against a NULL, NOT IN is
    never true. *)
Theorem null_source_file_blocks_selection
  (log_raw : list Catalog.logRawProcessDtl)
  (log_standardization : list Schema.logDataStandardisationDtl) (pid did : Z) :
  (exists s, In s log_standardization /\
             Schema.std_status s = Some "SUCCEEDED" /\
             Schema.std_source_file s = None) ->
  Catalog.get_data_standardisation_unprocessed_files log_raw
    log_standardization pid did = [].
Proof.
  intros [s [Hs [Hst Hnull]]].
  unfold Catalog.get_data_standardisation_unprocessed_files.
  apply order_by_nil. apply filter_none. intros r _.
  rewrite not_in_null_blocks; [reflexivity|].
  apply in_map_iff. exists s. split; [assumption|].
  apply filter_In. split; [assumption|]. now apply eq_str_holds.
Qed.

(** What the silver selector returns is in ascending order of batch id,
    rows without a batch id first. *)
Lemma unprocessed_files_ascending
  (log_raw : list Catalog.logRawProcessDtl)
  (log_standardization : list Schema.logDataStandardisationDtl) (pid did : Z) :
  Catalog.ascending Catalog.batch_id
    (Catalog.get_data_standardisation_unprocessed_files log_raw
       log_standardization pid did).
Proof. apply order_by_ascending. Qed.

(** X17: for a dataset whose locations and partition columns are set, a
    batch that the standardization pass has gone through is not selected
    again: whatever the rules did, the silver selector, asked after the
    pass, returns no row with that batch's source file. *)
Theorem standardized_batch_not_selected_again
  (with_columns_str :
     string -> DataStandardization.str_expr -> Polars.Frame ->
     Py.outcome Polars.Frame)
  (json_field : option string -> string -> Py.outcome string)
  (json_int_field : option string -> string -> Py.outcome Z)
  (format_exc : Py.exn -> string)
  (read_csv : string -> option string -> bool -> Py.outcome Polars.Frame)
  (read_landing : option Z -> Py.outcome Polars.Frame)
  (rules : list Schema.ctlDataStandardisationDtl)
  (dataset_master : Schema.ctlDatasetMaster) (env : string)
  (r : Catalog.logRawProcessDtl) (st : DataStandardization.state)
  (df : Polars.Frame) (f location landing partition_columns : string)
  (log_raw : list Catalog.logRawProcessDtl) (pid did : Z) :
  Schema.data_standardisation_location dataset_master = Some location ->
  Schema.landing_location dataset_master = Some landing ->
  Schema.data_standardisation_partition_columns dataset_master =
  Some partition_columns ->
  read_landing (Catalog.batch_id r) = Py.Return df ->
  Catalog.source_file r = Some f ->
  Forall (fun r' => Catalog.source_file r' <> Some f)
    (Catalog.get_data_standardisation_unprocessed_files log_raw
       (DataStandardization.log_standardization
          (fst (DataStandardization.standardize_file with_columns_str
                  json_field json_int_field format_exc read_landing
                  read_csv rules dataset_master env
                  (Catalog.unprocessed_file r) st)))
       pid did).
Proof.
  intros Hloc Hland Hpart Hread Hf. apply Forall_forall. intros r' Hin Hsame.
  destruct (standardize_file_result with_columns_str json_field json_int_field
              format_exc read_csv read_landing rules dataset_master env
              (Catalog.unprocessed_file r) st df location landing
              partition_columns Hloc Hland Hpart Hread)
    as [added [_ Hst]].
  rewrite Hst in Hin. cbn [fst DataStandardization.log_standardization] in Hin.
  unfold Catalog.get_data_standardisation_unprocessed_files in Hin.
  apply in_order_by in Hin. apply filter_In in Hin.
  destruct Hin as [_ Hcond]. rewrite !andb_true_iff in Hcond.
  destruct Hcond as [[[Hnot _] _] _]. rewrite Hsame in Hnot.
  apply not_in_holds in Hnot. destruct Hnot as [Hnot _]. apply Hnot.
  apply in_map_iff.
  exists (DataStandardization.log_row dataset_master
            (Catalog.unprocessed_file r) "SUCCEEDED" None).
  split; [exact Hf|]. apply filter_In. split; [|reflexivity].
  apply in_or_app. right. apply in_or_app. right. now left.
Qed.

Lemma standardized_batch_not_selected_again_witness :
  Forall (fun r' => Catalog.source_file r' <>
                    Some "s3a://dev-bronze/inbound/sales_20250101.csv")
    (Catalog.get_data_standardisation_unprocessed_files
       [CatalogCases.landed_row]
       (DataStandardization.log_standardization
          (fst (DataStandardization.standardize_file
                  (fun _ _ df => Py.Return df) QualityCases.idle_json
                  (fun _ _ => Py.Raise Py.KeyError)
                  (fun _ => "Traceback") StandardizationCases.landing
                  ReaderCases.one_file [StandardizationCases.capitalize]
                  QualityCases.dataset "dev"
                  (Catalog.unprocessed_file CatalogCases.landed_row)
                  StandardizationCases.fresh)))
       7 1).
Proof.
  apply (standardized_batch_not_selected_again (fun _ _ df => Py.Return df)
           QualityCases.idle_json (fun _ _ => Py.Raise Py.KeyError)
           (fun _ => "Traceback") ReaderCases.one_file
           StandardizationCases.landing [StandardizationCases.capitalize]
           QualityCases.dataset "dev" CatalogCases.landed_row
           StandardizationCases.fresh QualityCases.one_region
           "s3a://dev-bronze/inbound/sales_20250101.csv"
           "silver/standardized/sales" "bronze/landing/sales" "region"
           [CatalogCases.landed_row] 7 1); reflexivity.
Defined.

Lemma get_dqm_unprocessed_files_spec_witness :
  In CatalogCases.standardized_row
    (Catalog.get_dqm_unprocessed_files [CatalogCases.standardized_row] [] 7 1)
  <->
  In CatalogCases.standardized_row [CatalogCases.standardized_row] /\
  Schema.std_status CatalogCases.standardized_row = Some "SUCCEEDED" /\
  Schema.std_process_id CatalogCases.standardized_row = Some 7 /\
  Schema.std_dataset_id CatalogCases.standardized_row = Some 1 /\
  ~ exists d, In d [] /\ Schema.dqm_status d = Some "SUCCEEDED" /\
              Schema.dqm_source_file d =
              Some "s3a://dev-bronze/inbound/sales_20250101.csv".
Proof.
  apply (get_dqm_unprocessed_files_spec [CatalogCases.standardized_row] [] 7 1
           CatalogCases.standardized_row
           "s3a://dev-bronze/inbound/sales_20250101.csv").
  - intros d [].
  - reflexivity.
Defined.

Lemma null_source_file_blocks_selection_witness :
  Catalog.get_data_standardisation_unprocessed_files
    [CatalogCases.landed_row] [CatalogCases.nameless_row] 7 1 = [].
Proof.
  apply (null_source_file_blocks_selection [CatalogCases.landed_row]
           [CatalogCases.nameless_row] 7 1).
  exists CatalogCases.nameless_row. repeat split. now left.
Defined.


(** ** The bronze layer: landing the inbound files *)

Lemma holds_and (a b : Sql.tri) :
  Sql.holds (Catalog.and_ a b) = Sql.holds a && Sql.holds b.
Proof. destruct a as [[|]|], b as [[|]|]; reflexivity. Qed.

Lemma in_get_log_raw_process_dtl (log : list Catalog.logRawProcessDtl)
  (pid did : Z) (status : string) (r : Catalog.logRawProcessDtl) :
  In r (Catalog.get_log_raw_process_dtl log pid did status) <->
  In r log /\ Catalog.process_id r = Some pid /\
  Catalog.dataset_id r = Some did /\ Catalog.file_status r = Some status.
Proof.
  unfold Catalog.get_log_raw_process_dtl.
  rewrite in_order_by, filter_In, !holds_and, !andb_true_iff.
  rewrite !eq_int_holds, eq_str_holds. tauto.
Qed.

Lemma completed_spec (cs : list (option string)) (x : string) :
  BronzeLayer.completed cs x = true <-> In (Some x) cs.
Proof.
  unfold BronzeLayer.completed. rewrite existsb_exists. split.
  - intros [[y|] [Hin H]]; [|discriminate].
    apply String.eqb_eq in H. now subst.
  - intros H. exists (Some x). split; [assumption|]. apply String.eqb_refl.
Qed.

Section Bronze.

Variable env : string.
Variable list_objects_v2 : string -> string -> option (list string).
Variable regex_pattern_matches : string -> string -> Py.outcome bool.
Variable read_csv :
  string -> option string -> bool -> Py.outcome Polars.Frame.
Variable format_exc : Py.exn -> string.
Variable set_iter : list string -> list string.
Variable clock : nat -> BatchId.datetime.

(** Without a date token the comprehension keeps no file. *)
Lemma matching_without_date_token (p : string) (files : list string) :
  PyStr.contains "YYYY" p = false ->
  BronzeLayer.matching regex_pattern_matches (Some p) files = Py.Return [].
Proof.
  intros H. induction files as [|x rest IH]; [reflexivity|].
  cbn [BronzeLayer.matching BronzeLayer.validate].
  rewrite validate_pattern_without_date_token by assumption.
  cbn [Py.bind]. rewrite IH. reflexivity.
Qed.

(** What the comprehension keeps, when it does not raise. *)
Lemma matching_kept (pat : option string) (files kept : list string) :
  BronzeLayer.matching regex_pattern_matches pat files = Py.Return kept ->
  forall x, In x files ->
    exists k, BronzeLayer.validate regex_pattern_matches pat
                (BronzeLayer.base_name x) = Py.Return k /\
              (k = Some true -> In x kept).
Proof.
  revert kept. induction files as [|y rest IH]; intros kept H x Hx;
    [contradiction|].
  cbn [BronzeLayer.matching] in H.
  destruct (BronzeLayer.validate regex_pattern_matches pat
              (BronzeLayer.base_name y)) as [k|e] eqn:Ev;
    cbn [Py.bind] in H; [|discriminate].
  destruct (BronzeLayer.matching regex_pattern_matches pat rest)
    as [rest'|e] eqn:Er; cbn [Py.bind] in H; [|discriminate].
  injection H as H. destruct Hx as [Hx|Hx].
  - subst y. exists k. split; [assumption|]. intros Hk. subst k kept.
    now left.
  - destruct (IH rest' eq_refl x Hx) as [k' [Hv Hk']]. exists k'.
    split; [assumption|]. intros Hk. specialize (Hk' Hk). subst kept.
    destruct k as [[|]|]; [now right | assumption | assumption].
Qed.

(** The comprehension is empty when every call returns something other
    than True. *)
Lemma matching_none (pat : option string) (files : list string) :
  (forall x, In x files ->
     exists k, BronzeLayer.validate regex_pattern_matches pat
                 (BronzeLayer.base_name x) = Py.Return k /\
               k <> Some true) ->
  BronzeLayer.matching regex_pattern_matches pat files = Py.Return [].
Proof.
  induction files as [|y rest IH]; intros H; [reflexivity|].
  cbn [BronzeLayer.matching].
  destruct (H y (or_introl eq_refl)) as [k [Hv Hk]]. rewrite Hv.
  cbn [Py.bind]. rewrite IH by (intros x Hx; apply H; now right).
  cbn [Py.bind]. destruct k as [[|]|]; [congruence | reflexivity | reflexivity].
Qed.

(** A loop that ends without an exception has a SUCCEEDED row for every
    file it was given, and has kept the rows that were there. *)
Lemma create_tables_returns (pid : Z) (dataset : BronzeLayer.ctlDatasetMaster)
  (landing_path : S3Process.s3_path) (files : list string) :
  forall (n : nat) (st st' : BronzeLayer.state),
  BronzeLayer.create_tables read_csv format_exc clock pid dataset landing_path
    files n st = (st', Py.Return tt) ->
  (forall r, In r (BronzeLayer.log_raw st) -> In r (BronzeLayer.log_raw st')) /\
  (forall f, In f files ->
     exists b, In (BronzeLayer.log_row pid dataset (Some b) f "SUCCEEDED" None)
                 (BronzeLayer.log_raw st')).
Proof.
  induction files as [|g rest IH]; intros n st st' H.
  - cbn [BronzeLayer.create_tables] in H. injection H as H. subst st'.
    split; [auto | intros f []].
  - cbn [BronzeLayer.create_tables] in H.
    destruct (BatchId.batch_id (clock n)) as [b|e]; [|discriminate].
    destruct (BronzeLayer.write_landing read_csv dataset landing_path g b)
      as [call|e]; [|discriminate].
    apply IH in H. destruct H as [Hkeep Hrows].
    cbn [BronzeLayer.log_raw] in Hkeep.
    unfold Catalog.insert_log_raw_process_detail in Hkeep. split.
    + intros r Hr. apply Hkeep. apply in_or_app. now left.
    + intros f [Hf|Hf].
      * subst g. exists b. apply Hkeep. apply in_or_app. right. now left.
      * now apply Hrows.
Qed.

(** X18: with a file pattern that has no date token (no YYYY in it), the
    bronze layer never lands a file: whatever the inbound folder holds,
    the call raises and leaves the log and the landing table as they
    were. *)
Theorem pattern_without_date_token_lands_nothing (self_process_id : Z)
  (dataset : BronzeLayer.ctlDatasetMaster) (st : BronzeLayer.state)
  (inbound landing pattern : string) :
  BronzeLayer.inbound_location dataset = Some inbound ->
  BronzeLayer.landing_location dataset = Some landing ->
  BronzeLayer.inbound_file_pattern dataset = Some pattern ->
  PyStr.contains "YYYY" pattern = false ->
  BronzeLayer._handle_raw_table_creation env list_objects_v2
    regex_pattern_matches read_csv format_exc set_iter clock self_process_id
    dataset st =
  (st,
   Py.Raise
     match BronzeLayer.s3_list_files list_objects_v2
             (S3Process.bucket (S3Process.path_to_s3 inbound env))
             (S3Process.key (S3Process.path_to_s3 inbound env)) with
     | Some _ =>
         Py.Exception [Py.Lit "No new files found to create raw delta table."]
     | None => Py.TypeError
     end).
Proof.
  intros Hin Hland Hpat Htoken.
  unfold BronzeLayer._handle_raw_table_creation, BronzeLayer.new_files.
  rewrite Hin, Hland, Hpat. cbn [BronzeLayer.path_of Py.bind].
  destruct (BronzeLayer.s3_list_files _ _ _) as [files|]; [|reflexivity].
  rewrite matching_without_date_token by assumption. reflexivity.
Qed.

(** X19: an empty inbound folder is not reported as "no new files": the
    listing is False, the comprehension over it raises TypeError, and
    nothing is logged. *)
Theorem empty_inbound_raises_type_error (self_process_id : Z)
  (dataset : BronzeLayer.ctlDatasetMaster) (st : BronzeLayer.state)
  (inbound landing : string) :
  BronzeLayer.inbound_location dataset = Some inbound ->
  BronzeLayer.landing_location dataset = Some landing ->
  (list_objects_v2 (S3Process.bucket (S3Process.path_to_s3 inbound env))
     (S3Process.key (S3Process.path_to_s3 inbound env)) = None \/
   list_objects_v2 (S3Process.bucket (S3Process.path_to_s3 inbound env))
     (S3Process.key (S3Process.path_to_s3 inbound env)) = Some []) ->
  BronzeLayer._handle_raw_table_creation env list_objects_v2
    regex_pattern_matches read_csv format_exc set_iter clock self_process_id
    dataset st = (st, Py.Raise Py.TypeError).
Proof.
  intros Hin Hland Hlist.
  unfold BronzeLayer._handle_raw_table_creation, BronzeLayer.new_files,
    BronzeLayer.s3_list_files.
  rewrite Hin, Hland. cbn [BronzeLayer.path_of Py.bind].
  destruct Hlist as [-> | ->]; reflexivity.
Qed.

(** X20: a second run over the same inbound folder, after a run that
    ended without an exception, finds no new file: it raises and leaves
    the log and the landing table as the first run left them.  The
    iteration order of the set plays no part. *)
Theorem second_run_finds_no_new_files
  (dataset : BronzeLayer.ctlDatasetMaster) (st st' : BronzeLayer.state) :
  (forall l x, In x (set_iter l) <-> In x l) ->
  BronzeLayer._handle_raw_table_creation env list_objects_v2
    regex_pattern_matches read_csv format_exc set_iter clock
    (BronzeLayer.process_id dataset) dataset st = (st', Py.Return tt) ->
  BronzeLayer._handle_raw_table_creation env list_objects_v2
    regex_pattern_matches read_csv format_exc set_iter clock
    (BronzeLayer.process_id dataset) dataset st' =
  (st',
   Py.Raise
     (Py.Exception [Py.Lit "No new files found to create raw delta table."])).
Proof.
  intros Hset H. unfold BronzeLayer._handle_raw_table_creation in *.
  destruct (BronzeLayer.new_files env list_objects_v2 regex_pattern_matches
              set_iter dataset st) as [files|e] eqn:Enew; [|discriminate].
  destruct files as [|f0 files]; [discriminate|].
  destruct (BronzeLayer.path_of env (BronzeLayer.landing_location dataset))
    as [landing_path|e] eqn:Eland; [|discriminate].
  apply create_tables_returns in H. destruct H as [Hkeep Hrows].
  unfold BronzeLayer.new_files in *. rewrite Eland in *.
  destruct (BronzeLayer.path_of env (BronzeLayer.inbound_location dataset))
    as [inbound_path|e]; [|discriminate].
  cbn [Py.bind] in *.
  destruct (BronzeLayer.s3_list_files list_objects_v2
              (S3Process.bucket inbound_path) (S3Process.key inbound_path))
    as [listed|]; [|discriminate].
  rewrite matching_none; [reflexivity|].
  intros x Hx. apply (proj1 (Hset _ _)) in Hx. apply filter_In in Hx.
  destruct Hx as [Hlisted Hnew]. apply negb_true_iff in Hnew.
  assert (Hold : In x (set_iter
                   (filter
                      (fun x => negb (BronzeLayer.completed
                         (map Catalog.source_file
                            (Catalog.get_log_raw_process_dtl
                               (BronzeLayer.log_raw st)
                               (BronzeLayer.process_id dataset)
                               (BronzeLayer.dataset_id dataset) "SUCCEEDED"))
                         x))
                      (map (fun x => "s3a://" ++ S3Process.bucket inbound_path
                                     ++ "/" ++ x) listed)))).
  { apply (proj2 (Hset _ _)). apply filter_In. split; [assumption|].
    apply negb_true_iff. apply not_true_is_false. intros Hdone.
    apply completed_spec in Hdone. apply in_map_iff in Hdone.
    destruct Hdone as [r [Hfile Hr]].
    apply in_get_log_raw_process_dtl in Hr. destruct Hr as [Hr Hcols].
    assert (Hdone' : BronzeLayer.completed
              (map Catalog.source_file
                 (Catalog.get_log_raw_process_dtl (BronzeLayer.log_raw st')
                    (BronzeLayer.process_id dataset)
                    (BronzeLayer.dataset_id dataset) "SUCCEEDED")) x = true).
    { apply completed_spec. apply in_map_iff. exists r.
      split; [assumption|]. apply in_get_log_raw_process_dtl.
      split; [now apply Hkeep | assumption]. }
    congruence. }
  destruct (matching_kept _ _ _ Enew x Hold) as [k [Hv Hk]].
  exists k. split; [assumption|]. intros Htrue. specialize (Hk Htrue).
  destruct (Hrows x Hk) as [b Hrow].
  assert (Hdone' : BronzeLayer.completed
            (map Catalog.source_file
               (Catalog.get_log_raw_process_dtl (BronzeLayer.log_raw st')
                  (BronzeLayer.process_id dataset)
                  (BronzeLayer.dataset_id dataset) "SUCCEEDED")) x = true).
  { apply completed_spec. apply in_map_iff.
    exists (BronzeLayer.log_row (BronzeLayer.process_id dataset) dataset
              (Some b) x "SUCCEEDED" None).
    split; [reflexivity|]. apply in_get_log_raw_process_dtl.
    split; [assumption|]. repeat split. }
  congruence.
Qed.

End Bronze.


Section BronzeRows.

Variable env : string.
Variable list_objects_v2 : string -> string -> option (list string).
Variable regex_pattern_matches : string -> string -> Py.outcome bool.
Variable read_csv :
  string -> option string -> bool -> Py.outcome Polars.Frame.
Variable format_exc : Py.exn -> string.
Variable set_iter : list string -> list string.
Variable clock : nat -> BatchId.datetime.

(** A write that the landing step makes carries the batch id and goes to
    the landing table. *)
Lemma write_landing_tagged (dataset : BronzeLayer.ctlDatasetMaster)
  (landing_path : S3Process.s3_path) (new_file : string) (batch_id : Z)
  (call : DataProcessor.write_delta_call) :
  BronzeLayer.write_landing read_csv dataset landing_path new_file batch_id =
  Py.Return (Some call) ->
  DataProcessor.tagged_with batch_id (DataProcessor.written call) /\
  DataProcessor.target call = S3Process.s3_location landing_path.
Proof.
  unfold BronzeLayer.write_landing.
  destruct (BronzeLayer.landing_partition_columns dataset) as [pc|].
  - cbn [DataProcessor.DeltaTableWriter].
    destruct (PyStr.contains "csv" new_file || PyStr.contains "txt" new_file);
      [|discriminate].
    destruct (read_csv new_file _ false); cbn [Py.bind]; [|discriminate].
    intros [= <-]. split; [apply with_columns_lit_tagged | reflexivity].
  - destruct (PyStr.contains "csv" new_file || PyStr.contains "txt" new_file);
      [|discriminate].
    destruct (read_csv new_file _ false); cbn [Py.bind]; discriminate.
Qed.

(** A path without "csv" and "txt" is not read and not written. *)
Lemma write_landing_skips (dataset : BronzeLayer.ctlDatasetMaster)
  (landing_path : S3Process.s3_path) (new_file : string) (batch_id : Z) :
  PyStr.contains "csv" new_file || PyStr.contains "txt" new_file = false ->
  BronzeLayer.write_landing read_csv dataset landing_path new_file batch_id =
  Py.Return None.
Proof.
  intros H. unfold BronzeLayer.write_landing.
  destruct (BronzeLayer.landing_partition_columns dataset) as [pc|].
  - cbn [DataProcessor.DeltaTableWriter]. now rewrite H.
  - now rewrite H.
Qed.

(** What the loop adds to the log and to the landing table, whatever its
    outcome. *)
Lemma create_tables_trace (pid : Z) (dataset : BronzeLayer.ctlDatasetMaster)
  (landing_path : S3Process.s3_path) (files : list string) :
  forall (n : nat) (st : BronzeLayer.state),
  exists added ws,
    BronzeLayer.log_raw
      (fst (BronzeLayer.create_tables read_csv format_exc clock pid dataset
              landing_path files n st)) =
    (BronzeLayer.log_raw st ++ added)%list /\
    BronzeLayer.writes
      (fst (BronzeLayer.create_tables read_csv format_exc clock pid dataset
              landing_path files n st)) =
    (BronzeLayer.writes st ++ ws)%list /\
    Forall (fun r => Catalog.process_id r = Some pid /\
                     Catalog.dataset_id r =
                     Some (BronzeLayer.dataset_id dataset)) added /\
    (Forall BronzeCases.landed added \/
     exists done f e,
       added = (done ++ [BronzeLayer.log_row pid dataset None f "FAILED"
                           (Some (format_exc e))])%list /\
       Forall BronzeCases.landed done /\
       snd (BronzeLayer.create_tables read_csv format_exc clock pid dataset
              landing_path files n st) = Py.Raise e) /\
    Forall (fun c =>
              DataProcessor.target c = S3Process.s3_location landing_path /\
              exists b f,
                DataProcessor.tagged_with b (DataProcessor.written c) /\
                In (BronzeLayer.log_row pid dataset (Some b) f "SUCCEEDED" None)
                  added) ws.
Proof.
  induction files as [|g rest IH]; intros n st.
  - exists [], []. cbn [BronzeLayer.create_tables fst snd].
    rewrite !app_nil_r. repeat split; auto.
  - cbn [BronzeLayer.create_tables].
    destruct (BatchId.batch_id (clock n)) as [b|e].
    2:{ exists [], []. cbn [fst snd]. rewrite !app_nil_r.
        repeat split; auto. }
    destruct (BronzeLayer.write_landing read_csv dataset landing_path g b)
      as [call|e] eqn:Ew.
    + match goal with
      | |- context [BronzeLayer.create_tables _ _ _ _ _ _ rest (S n) ?s] =>
          destruct (IH (S n) s) as [added [ws [Hlog [Hw [Hids [Hst Htr]]]]]]
      end.
      cbn [BronzeLayer.log_raw BronzeLayer.writes] in Hlog, Hw.
      unfold Catalog.insert_log_raw_process_detail in *.
      exists (BronzeLayer.log_row pid dataset (Some b) g "SUCCEEDED" None
              :: added),
        ((match call with Some c => [c] | None => [] end) ++ ws)%list.
      split; [rewrite Hlog, <- app_assoc; reflexivity|].
      split; [rewrite Hw, <- app_assoc; reflexivity|].
      split; [constructor; [split; reflexivity | assumption]|].
      split.
      * destruct Hst as [Hall | [done [f [e [Hadd [Hdone Hraise]]]]]].
        -- left. constructor; [|assumption]. split; [reflexivity|discriminate].
        -- right.
           exists (BronzeLayer.log_row pid dataset (Some b) g "SUCCEEDED" None
                   :: done), f, e.
           split; [rewrite Hadd; reflexivity|].
           split; [|assumption].
           constructor; [|assumption]. split; [reflexivity|discriminate].
      * apply Forall_app. split.
        -- destruct call as [c|]; [|constructor].
           constructor; [|constructor].
           destruct (write_landing_tagged _ _ _ _ _ Ew) as [Htag Htarget].
           split; [assumption|]. exists b, g. split; [assumption | now left].
        -- eapply Forall_impl; [|exact Htr].
           intros c [Htarget [b' [f [Htag Hin]]]]. split; [assumption|].
           exists b', f. split; [assumption | now right].
    + exists [BronzeLayer.log_row pid dataset None g "FAILED"
                (Some (format_exc e))], [].
      cbn [fst snd BronzeLayer.log_raw BronzeLayer.writes].
      rewrite app_nil_r. split; [reflexivity|]. split; [reflexivity|].
      split; [constructor; [split; reflexivity | constructor]|].
      split; [|constructor].
      right. exists [], g, e. repeat split; constructor.
Qed.

(** X21: a run only appends to the raw-process log.  The rows it appends
    name the process and the dataset of the run; all of them are
    SUCCEEDED rows with a batch id, except that a run which raises while a
    file is read or written ends with one FAILED row without a batch id,
    holding the traceback of the exception raised. *)
Theorem run_appends_rows_of_its_dataset (self_process_id : Z)
  (dataset : BronzeLayer.ctlDatasetMaster) (st : BronzeLayer.state) :
  exists added,
    BronzeLayer.log_raw
      (fst (BronzeLayer._handle_raw_table_creation env list_objects_v2
              regex_pattern_matches read_csv format_exc set_iter clock
              self_process_id dataset st)) =
    (BronzeLayer.log_raw st ++ added)%list /\
    Forall (fun r => Catalog.process_id r = Some self_process_id /\
                     Catalog.dataset_id r =
                     Some (BronzeLayer.dataset_id dataset)) added /\
    (Forall BronzeCases.landed added \/
     exists done f e,
       added = (done ++ [BronzeLayer.log_row self_process_id dataset None f
                           "FAILED" (Some (format_exc e))])%list /\
       Forall BronzeCases.landed done /\
       snd (BronzeLayer._handle_raw_table_creation env list_objects_v2
              regex_pattern_matches read_csv format_exc set_iter clock
              self_process_id dataset st) = Py.Raise e).
Proof.
  unfold BronzeLayer._handle_raw_table_creation.
  destruct (BronzeLayer.new_files env list_objects_v2 regex_pattern_matches
              set_iter dataset st) as [[|f0 files]|e];
    try (exists []; cbn [fst snd]; rewrite app_nil_r;
         repeat split; auto; fail).
  destruct (BronzeLayer.path_of env (BronzeLayer.landing_location dataset))
    as [landing_path|e];
    [|exists []; cbn [fst snd]; rewrite app_nil_r; repeat split; auto].
  destruct (create_tables_trace self_process_id dataset landing_path
              (f0 :: files) 0%nat st)
    as [added [ws [Hlog [_ [Hids [Hst _]]]]]].
  exists added. auto.
Qed.

(** X22: every write a run makes to the landing table can be traced: it
    goes to the landing location of the dataset, every row of it carries
    a batch id, and the log holds a SUCCEEDED row of the run with that
    batch id - also when a later file makes the run raise. *)
Theorem landing_writes_are_logged (self_process_id : Z)
  (dataset : BronzeLayer.ctlDatasetMaster) (st : BronzeLayer.state) :
  exists ws,
    BronzeLayer.writes
      (fst (BronzeLayer._handle_raw_table_creation env list_objects_v2
              regex_pattern_matches read_csv format_exc set_iter clock
              self_process_id dataset st)) =
    (BronzeLayer.writes st ++ ws)%list /\
    Forall (fun c =>
              (exists l, BronzeLayer.landing_location dataset = Some l /\
                         DataProcessor.target c =
                         S3Process.s3_location (S3Process.path_to_s3 l env)) /\
              exists b f,
                DataProcessor.tagged_with b (DataProcessor.written c) /\
                In (BronzeLayer.log_row self_process_id dataset (Some b) f
                      "SUCCEEDED" None)
                  (BronzeLayer.log_raw
                     (fst (BronzeLayer._handle_raw_table_creation env
                             list_objects_v2 regex_pattern_matches read_csv
                             format_exc set_iter clock self_process_id dataset
                             st)))) ws.
Proof.
  unfold BronzeLayer._handle_raw_table_creation.
  destruct (BronzeLayer.new_files env list_objects_v2 regex_pattern_matches
              set_iter dataset st) as [[|f0 files]|e];
    try (exists []; cbn [fst]; rewrite app_nil_r; split; [reflexivity|];
         constructor; fail).
  destruct (BronzeLayer.landing_location dataset) as [l|] eqn:El;
    cbn [BronzeLayer.path_of];
    [|exists []; cbn [fst]; rewrite app_nil_r; split; [reflexivity|];
      constructor].
  destruct (create_tables_trace self_process_id dataset
              (S3Process.path_to_s3 l env) (f0 :: files) 0%nat st)
    as [added [ws [Hlog [Hw [_ [_ Htr]]]]]].
  exists ws. split; [assumption|].
  eapply Forall_impl; [|exact Htr].
  intros c [Htarget [b [f [Htag Hin]]]]. split.
  - exists l. split; [reflexivity | assumption].
  - exists b, f. split; [assumption|]. rewrite Hlog. apply in_or_app.
    now right.
Qed.

(** X23: a new file whose URI holds neither "csv" nor "txt" is reported
    as landed although nothing is written: the run returns, the landing
    table is as before, and the log has a SUCCEEDED row with a batch id
    for the file. *)
Theorem file_without_csv_or_txt_logged_not_written (self_process_id : Z)
  (dataset : BronzeLayer.ctlDatasetMaster) (st : BronzeLayer.state)
  (landing f0 : string) (files : list string) :
  BronzeLayer.landing_location dataset = Some landing ->
  BronzeLayer.new_files env list_objects_v2 regex_pattern_matches set_iter
    dataset st = Py.Return (f0 :: files) ->
  Forall (fun f => PyStr.contains "csv" f || PyStr.contains "txt" f = false)
    (f0 :: files) ->
  snd (BronzeLayer._handle_raw_table_creation env list_objects_v2
         regex_pattern_matches read_csv format_exc set_iter clock
         self_process_id dataset st) = Py.Return tt /\
  BronzeLayer.writes
    (fst (BronzeLayer._handle_raw_table_creation env list_objects_v2
            regex_pattern_matches read_csv format_exc set_iter clock
            self_process_id dataset st)) = BronzeLayer.writes st /\
  forall f, In f (f0 :: files) ->
    exists b,
      In (BronzeLayer.log_row self_process_id dataset (Some b) f "SUCCEEDED"
            None)
        (BronzeLayer.log_raw
           (fst (BronzeLayer._handle_raw_table_creation env list_objects_v2
                   regex_pattern_matches read_csv format_exc set_iter clock
                   self_process_id dataset st))).
Proof.
  intros Hland Hnew Hskip.
  unfold BronzeLayer._handle_raw_table_creation. rewrite Hnew, Hland.
  cbn [BronzeLayer.path_of].
  assert (Hloop : forall fs n s,
            Forall (fun f => PyStr.contains "csv" f || PyStr.contains "txt" f
                             = false) fs ->
            snd (BronzeLayer.create_tables read_csv format_exc clock
                   self_process_id dataset (S3Process.path_to_s3 landing env)
                   fs n s) = Py.Return tt /\
            BronzeLayer.writes
              (fst (BronzeLayer.create_tables read_csv format_exc clock
                      self_process_id dataset
                      (S3Process.path_to_s3 landing env) fs n s)) =
            BronzeLayer.writes s).
  { induction fs as [|g rest IH]; intros n s Hfs; [split; reflexivity|].
    inversion Hfs as [|? ? Hg Hrest]; subst.
    cbn [BronzeLayer.create_tables].
    destruct (batch_id_returns (clock n)) as [b ->].
    rewrite write_landing_skips by assumption.
    destruct (IH (S n)
                {| BronzeLayer.log_raw :=
                     Catalog.insert_log_raw_process_detail
                       (BronzeLayer.log_raw s)
                       (BronzeLayer.log_row self_process_id dataset (Some b) g
                          "SUCCEEDED" None);
                   BronzeLayer.writes := (BronzeLayer.writes s ++ [])%list |}
                Hrest) as [Hret Hw].
    split; [assumption|]. rewrite Hw. cbn [BronzeLayer.writes].
    apply app_nil_r. }
  destruct (Hloop (f0 :: files) 0%nat st Hskip) as [Hret Hw].
  split; [assumption|]. split; [assumption|].
  intros f Hf.
  destruct (BronzeLayer.create_tables read_csv format_exc clock
              self_process_id dataset (S3Process.path_to_s3 landing env)
              (f0 :: files) 0 st) as [st' o] eqn:E.
  cbn [snd] in Hret. subst o.
  destruct (create_tables_returns read_csv format_exc clock self_process_id
              dataset _ _ _ _ _ E) as [_ Hrows].
  cbn [fst]. now apply Hrows.
Qed.

End BronzeRows.

Lemma pattern_without_date_token_lands_nothing_witness :
  BronzeLayer._handle_raw_table_creation "dev"
    (BronzeCases.one_object "sales_20250101.csv") BronzeCases.accept
    ReaderCases.one_file BronzeCases.format_exc BronzeCases.in_order
    BronzeCases.clock 7 (BronzeCases.sales "sales_*.csv") BronzeCases.fresh =
  (BronzeCases.fresh,
   Py.Raise
     (Py.Exception [Py.Lit "No new files found to create raw delta table."])).
Proof.
  exact (pattern_without_date_token_lands_nothing "dev"
           (BronzeCases.one_object "sales_20250101.csv") BronzeCases.accept
           ReaderCases.one_file BronzeCases.format_exc BronzeCases.in_order
           BronzeCases.clock 7 (BronzeCases.sales "sales_*.csv")
           BronzeCases.fresh "bronze/inbound/sales" "bronze/landing/sales"
           "sales_*.csv" eq_refl eq_refl eq_refl eq_refl).
Defined.

Lemma empty_inbound_raises_type_error_witness :
  BronzeLayer._handle_raw_table_creation "dev" BronzeCases.no_object
    BronzeCases.accept ReaderCases.one_file BronzeCases.format_exc
    BronzeCases.in_order BronzeCases.clock 7
    (BronzeCases.sales "sales_YYYYMMDD.csv") BronzeCases.fresh =
  (BronzeCases.fresh, Py.Raise Py.TypeError).
Proof.
  apply (empty_inbound_raises_type_error "dev" BronzeCases.no_object
           BronzeCases.accept ReaderCases.one_file BronzeCases.format_exc
           BronzeCases.in_order BronzeCases.clock 7
           (BronzeCases.sales "sales_YYYYMMDD.csv") BronzeCases.fresh
           "bronze/inbound/sales" "bronze/landing/sales");
    [reflexivity | reflexivity | left; reflexivity].
Defined.

Lemma second_run_finds_no_new_files_witness :
  BronzeLayer._handle_raw_table_creation "dev"
    (BronzeCases.one_object "sales_20250101.csv") BronzeCases.accept
    ReaderCases.one_file BronzeCases.format_exc BronzeCases.in_order
    BronzeCases.clock 7 (BronzeCases.sales "sales_YYYYMMDD.csv")
    (fst (BronzeLayer._handle_raw_table_creation "dev"
            (BronzeCases.one_object "sales_20250101.csv") BronzeCases.accept
            ReaderCases.one_file BronzeCases.format_exc BronzeCases.in_order
            BronzeCases.clock 7 (BronzeCases.sales "sales_YYYYMMDD.csv")
            BronzeCases.fresh)) =
  (fst (BronzeLayer._handle_raw_table_creation "dev"
          (BronzeCases.one_object "sales_20250101.csv") BronzeCases.accept
          ReaderCases.one_file BronzeCases.format_exc BronzeCases.in_order
          BronzeCases.clock 7 (BronzeCases.sales "sales_YYYYMMDD.csv")
          BronzeCases.fresh),
   Py.Raise
     (Py.Exception [Py.Lit "No new files found to create raw delta table."])).
Proof.
  apply (second_run_finds_no_new_files "dev"
           (BronzeCases.one_object "sales_20250101.csv") BronzeCases.accept
           ReaderCases.one_file BronzeCases.format_exc BronzeCases.in_order
           BronzeCases.clock (BronzeCases.sales "sales_YYYYMMDD.csv")
           BronzeCases.fresh).
  - intros l x. reflexivity.
  - vm_compute. reflexivity.
Defined.

Lemma file_without_csv_or_txt_logged_not_written_witness :
  snd (BronzeLayer._handle_raw_table_creation "dev"
         (BronzeCases.one_object "sales_20250101.parquet") BronzeCases.accept
         ReaderCases.one_file BronzeCases.format_exc BronzeCases.in_order
         BronzeCases.clock 7 (BronzeCases.sales "sales_YYYYMMDD.parquet")
         BronzeCases.fresh) = Py.Return tt /\
  BronzeLayer.writes
    (fst (BronzeLayer._handle_raw_table_creation "dev"
            (BronzeCases.one_object "sales_20250101.parquet")
            BronzeCases.accept ReaderCases.one_file BronzeCases.format_exc
            BronzeCases.in_order BronzeCases.clock 7
            (BronzeCases.sales "sales_YYYYMMDD.parquet") BronzeCases.fresh)) =
  [].
Proof.
  destruct (file_without_csv_or_txt_logged_not_written "dev"
              (BronzeCases.one_object "sales_20250101.parquet")
              BronzeCases.accept ReaderCases.one_file BronzeCases.format_exc
              BronzeCases.in_order BronzeCases.clock 7
              (BronzeCases.sales "sales_YYYYMMDD.parquet") BronzeCases.fresh
              "bronze/landing/sales"
              "s3a://dev-bronze/inbound/sales/sales_20250101.parquet" [])
    as [Hret [Hw _]].
  - reflexivity.
  - vm_compute. reflexivity.
  - repeat constructor.
  - split; assumption.
Defined.


(** ** The DQM run over the standardized batches *)

(** A SUCCEEDED DQM row that names a source file hides every
    standardization row of that file from the DQM selector. *)
Lemma succeeded_row_hides_file
  (log_standardization : list Schema.logDataStandardisationDtl)
  (log_dqm : list Schema.logDqmDtl) (pid did : Z) (d : Schema.logDqmDtl)
  (f : string) :
  In d log_dqm -> Schema.dqm_status d = Some "SUCCEEDED" ->
  Schema.dqm_source_file d = Some f ->
  Forall (fun s => Schema.std_source_file s <> Some f)
    (Catalog.get_dqm_unprocessed_files log_standardization log_dqm pid did).
Proof.
  intros Hd Hst Hf. apply Forall_forall. intros s Hin Hsame.
  unfold Catalog.get_dqm_unprocessed_files in Hin.
  apply in_order_by in Hin. apply filter_In in Hin.
  destruct Hin as [_ Hcond]. rewrite !andb_true_iff in Hcond.
  destruct Hcond as [[[Hnot _] _] _]. rewrite Hsame in Hnot.
  apply not_in_holds in Hnot. destruct Hnot as [Hnot _]. apply Hnot.
  apply in_map_iff. exists d. split; [assumption|].
  apply filter_In. split; [assumption|]. now apply eq_str_holds.
Qed.

Section QualityRuns.

Variable sql : string -> Polars.Frame -> Py.outcome Polars.Frame.
Variable filter_by_column : string -> Polars.Frame -> Py.outcome Polars.Frame.
Variable unique : list string -> Polars.Frame -> Py.outcome Polars.Frame.
Variable filter_contains :
  string -> option string -> Polars.Frame -> Py.outcome Polars.Frame.
Variable filter_sql_expr :
  string -> option string -> Polars.Frame -> Py.outcome Polars.Frame.
Variable json_field : option string -> string -> Py.outcome string.
Variable read_csv :
  string -> option string -> bool -> Py.outcome Polars.Frame.
Variable table : string -> Py.outcome Polars.Frame.
Variable latest_batch : string -> Py.outcome Polars.Frame.

(** A rule function that returns a frame has logged a SUCCEEDED row. *)
Lemma check_returns_frame (kind : DataQualityCheck.qc_kind)
  (df df' : Polars.Frame) (batch_id : option Z) (source_file : option string)
  (dqm_detail : Schema.ctlDqmMasterDtl)
  (dataset_master : Schema.ctlDatasetMaster) (log log' : list Schema.logDqmDtl) :
  DataQualityCheck.check sql filter_by_column unique filter_contains
    filter_sql_expr json_field kind df batch_id source_file dqm_detail
    dataset_master log = (log', Py.Return (Some df')) ->
  exists error_count error_pct,
    log' = (log ++ [DataQualityCheck.log_row dataset_master batch_id
                      source_file dqm_detail error_count error_pct
                      "SUCCEEDED"])%list.
Proof.
  unfold DataQualityCheck.check.
  destruct (DataQualityCheck.passing_rows _ _ _ _ _ _ kind dqm_detail df)
    as [passing|e]; [|discriminate].
  unfold DataQualityCheck.gate, OrchestrationProcess.insert_log_dqm.
  destruct (negb _).
  - destruct (DataQualityCheck.failure_percentage _ _) as [pct|e];
      [|discriminate].
    destruct (DataQualityCheck.is_crit dqm_detail "C").
    + destruct (Schema.criticality_threshold_pct dqm_detail) as [t|];
        [|discriminate].
      destruct (PyFloat.ge_int pct t); [discriminate|].
      destruct (PyFloat.le_int pct t); [|discriminate].
      intros [= <- _]. eauto.
    + destruct (DataQualityCheck.is_crit dqm_detail "NC"); [|discriminate].
      intros [= <- _]. eauto.
  - destruct kind; try discriminate; intros [= <- _]; eauto.
Qed.

(** The loop over the rules only appends to the log. *)
Lemma run_rules_extends (dqm_details : list Schema.ctlDqmMasterDtl) :
  forall (df : option Polars.Frame) (batch_id : option Z)
    (source_file : option string) (dataset_master : Schema.ctlDatasetMaster)
    (log : list Schema.logDqmDtl),
  exists added,
    fst (QualityRun.run_rules sql filter_by_column unique filter_contains
           filter_sql_expr json_field dqm_details df batch_id source_file
           dataset_master log) = (log ++ added)%list.
Proof.
  induction dqm_details as [|d rest IH]; intros df batch_id source_file dm log.
  - exists []. cbn. now rewrite app_nil_r.
  - cbn [QualityRun.run_rules].
    destruct (QualityRun.dispatch (Schema.qc_type d)) as [kind|]; [|apply IH].
    destruct df as [df|]; [|exists []; cbn; now rewrite app_nil_r].
    pose proof (check_log sql filter_by_column unique filter_contains
                  filter_sql_expr json_field kind df batch_id source_file d dm
                  log) as Hlog.
    cbv zeta in Hlog.
    destruct (DataQualityCheck.check _ _ _ _ _ _ kind df batch_id source_file
                d dm log) as [log' [df'|e]]; cbn [fst] in Hlog.
    + destruct (IH df' batch_id source_file dm log') as [added Hadd].
      rewrite Hadd.
      destruct Hlog as [-> | [c [p [s ->]]]]; [eauto|].
      rewrite <- app_assoc. eauto.
    + cbn [fst]. destruct Hlog as [-> | [c [p [s ->]]]]; [|eauto].
      exists []. now rewrite app_nil_r.
Qed.

(** Rules of unknown type are passed over. *)
Lemma run_rules_unknown (dqm_details : list Schema.ctlDqmMasterDtl)
  (df : option Polars.Frame) (batch_id : option Z)
  (source_file : option string) (dataset_master : Schema.ctlDatasetMaster)
  (log : list Schema.logDqmDtl) :
  Forall QualityRunCases.unknown dqm_details ->
  QualityRun.run_rules sql filter_by_column unique filter_contains
    filter_sql_expr json_field dqm_details df batch_id source_file
    dataset_master log = (log, Py.Return df).
Proof.
  induction 1 as [|d rest Hd _ IH]; [reflexivity|].
  cbn [QualityRun.run_rules]. unfold QualityRunCases.unknown in Hd.
  now rewrite Hd.
Qed.


(** X24: a batch is lost when a rule passes and a later rule fails: once
    the first rule has returned a frame, the batch is never selected for
    DQM again, whatever the rest of the run does - and a run that raises
    has written nothing to staging. *)
Theorem batch_with_passed_rule_is_not_retried
  (dqm_detail : Schema.ctlDqmMasterDtl) (rest : list Schema.ctlDqmMasterDtl)
  (dataset_master : Schema.ctlDatasetMaster)
  (staging_location : string) (staging_partition_columns : option string)
  (env : string) (unprocessed_file : Schema.logDataStandardisationDtl)
  (st : QualityRun.state) (kind : DataQualityCheck.qc_kind)
  (df passing : Polars.Frame) (f location : string)
  (log_standardization : list Schema.logDataStandardisationDtl)
  (pid did : Z) :
  QualityRun.dispatch (Schema.qc_type dqm_detail) = Some kind ->
  Schema.data_standardisation_location dataset_master = Some location ->
  DeltaTableRead.read table latest_batch
    (S3Process.s3_location (S3Process.path_to_s3 location env))
    (Schema.std_batch_id unprocessed_file) false = Py.Return df ->
  snd (DataQualityCheck.check sql filter_by_column unique filter_contains
         filter_sql_expr json_field kind df
         (Schema.std_batch_id unprocessed_file)
         (Schema.std_source_file unprocessed_file) dqm_detail dataset_master
         (QualityRun.log_dqm st)) = Py.Return (Some passing) ->
  Schema.std_source_file unprocessed_file = Some f ->
  Forall (fun s => Schema.std_source_file s <> Some f)
    (Catalog.get_dqm_unprocessed_files log_standardization
       (QualityRun.log_dqm
          (fst (QualityRun.check_file sql filter_by_column unique
                  filter_contains filter_sql_expr json_field read_csv table
                  latest_batch (dqm_detail :: rest) dataset_master
                  (Some staging_location) staging_partition_columns env
                  unprocessed_file st)))
       pid did) /\
  (forall e,
     snd (QualityRun.check_file sql filter_by_column unique filter_contains
            filter_sql_expr json_field read_csv table latest_batch
            (dqm_detail :: rest) dataset_master (Some staging_location)
            staging_partition_columns env unprocessed_file st) = Py.Raise e ->
     QualityRun.writes
       (fst (QualityRun.check_file sql filter_by_column unique filter_contains
               filter_sql_expr json_field read_csv table latest_batch
               (dqm_detail :: rest) dataset_master (Some staging_location)
               staging_partition_columns env unprocessed_file st)) =
     QualityRun.writes st).
Proof.
  intros Hkind Hloc Hread Hcheck Hf. unfold QualityRun.check_file.
  rewrite Hloc, Hread. cbn [QualityRun.run_rules]. rewrite Hkind.
  destruct (DataQualityCheck.check _ _ _ _ _ _ kind df _ _ dqm_detail
              dataset_master (QualityRun.log_dqm st)) as [log1 o] eqn:E.
  cbn [snd] in Hcheck. subst o.
  destruct (check_returns_frame _ _ _ _ _ _ _ _ _ E) as [c [p Hlog1]].
  destruct (run_rules_extends rest (Some passing)
              (Schema.std_batch_id unprocessed_file)
              (Schema.std_source_file unprocessed_file) dataset_master log1)
    as [added Hadd].
  destruct (QualityRun.run_rules _ _ _ _ _ _ rest (Some passing) _ _ _ log1)
    as [log2 o2]. cbn [fst] in Hadd. subst log2 log1.
  assert (Hhide : Forall (fun s => Schema.std_source_file s <> Some f)
            (Catalog.get_dqm_unprocessed_files log_standardization
               ((QualityRun.log_dqm st ++
                 [DataQualityCheck.log_row dataset_master
                    (Schema.std_batch_id unprocessed_file)
                    (Schema.std_source_file unprocessed_file) dqm_detail c p
                    "SUCCEEDED"]) ++ added) pid did)).
  { apply (succeeded_row_hides_file _ _ _ _
             (DataQualityCheck.log_row dataset_master
                (Schema.std_batch_id unprocessed_file)
                (Schema.std_source_file unprocessed_file) dqm_detail c p
                "SUCCEEDED")); [|reflexivity|exact Hf].
    apply in_or_app. left. apply in_or_app. right. now left. }
  destruct o2 as [dqm_check_df|e2].
  - destruct (QualityRun.write_staging _ _ _ _ _) as [call|e3];
      cbn [fst snd QualityRun.log_dqm QualityRun.writes];
      (split; [exact Hhide|]); [discriminate | reflexivity].
  - cbn [fst snd QualityRun.log_dqm QualityRun.writes].
    split; [exact Hhide | reflexivity].
Qed.

(** X25: rules whose type is none of the eight known names are passed
    over without a log row: the batch goes to staging as it was read,
    tagged with its batch id, and the DQM log is as before - so the
    selector will return the batch again. *)
Theorem unknown_rule_types_leave_no_trace
  (dqm_detail : Schema.ctlDqmMasterDtl) (rest : list Schema.ctlDqmMasterDtl)
  (dataset_master : Schema.ctlDatasetMaster)
  (staging_location partition_columns env location : string)
  (unprocessed_file : Schema.logDataStandardisationDtl)
  (st : QualityRun.state) (df : Polars.Frame) :
  Forall QualityRunCases.unknown (dqm_detail :: rest) ->
  Schema.data_standardisation_location dataset_master = Some location ->
  DeltaTableRead.read table latest_batch
    (S3Process.s3_location (S3Process.path_to_s3 location env))
    (Schema.std_batch_id unprocessed_file) false = Py.Return df ->
  QualityRun.check_file sql filter_by_column unique filter_contains
    filter_sql_expr json_field read_csv table latest_batch
    (dqm_detail :: rest) dataset_master (Some staging_location)
    (Some partition_columns) env unprocessed_file st =
  ({| QualityRun.log_dqm := QualityRun.log_dqm st;
      QualityRun.writes :=
        (QualityRun.writes st ++
         [{| DataProcessor.written :=
               Polars.with_columns_lit "batch_id"
                 (Polars.lit (Schema.std_batch_id unprocessed_file)) df;
             DataProcessor.target :=
               S3Process.s3_location
                 (S3Process.path_to_s3 staging_location env);
             DataProcessor.target_keyword := None;
             DataProcessor.mode := "append";
             DataProcessor.partition_by :=
               PyStr.split_list "," partition_columns |}])%list |},
   Py.Return tt).
Proof.
  intros Hunknown Hloc Hread. unfold QualityRun.check_file.
  rewrite Hloc, Hread.
  rewrite run_rules_unknown by assumption. reflexivity.
Qed.


(** X27: a dataset without rules: the batch is copied to staging, tagged
    with its batch id, one SUCCEEDED row is logged under the process id
    and dataset id of the dataset, and the batch is not selected for DQM
    again. *)
Theorem batch_without_rules_is_checked_once
  (dataset_master : Schema.ctlDatasetMaster)
  (staging_location partition_columns env location : string)
  (unprocessed_file : Schema.logDataStandardisationDtl)
  (st : QualityRun.state) (df : Polars.Frame) (f : string)
  (log_standardization : list Schema.logDataStandardisationDtl)
  (pid did : Z) :
  Schema.data_standardisation_location dataset_master = Some location ->
  DeltaTableRead.read table latest_batch
    (S3Process.s3_location (S3Process.path_to_s3 location env))
    (Schema.std_batch_id unprocessed_file) false = Py.Return df ->
  Schema.std_source_file unprocessed_file = Some f ->
  QualityRun.check_file sql filter_by_column unique filter_contains
    filter_sql_expr json_field read_csv table latest_batch [] dataset_master
    (Some staging_location) (Some partition_columns) env unprocessed_file st =
  ({| QualityRun.log_dqm :=
        (QualityRun.log_dqm st ++
         [QualityRun.log_row dataset_master unprocessed_file])%list;
      QualityRun.writes :=
        (QualityRun.writes st ++
         [{| DataProcessor.written :=
               Polars.with_columns_lit "batch_id"
                 (Polars.lit (Schema.std_batch_id unprocessed_file)) df;
             DataProcessor.target :=
               S3Process.s3_location
                 (S3Process.path_to_s3 staging_location env);
             DataProcessor.target_keyword := None;
             DataProcessor.mode := "append";
             DataProcessor.partition_by :=
               PyStr.split_list "," partition_columns |}])%list |},
   Py.Return tt) /\
  Forall (fun s => Schema.std_source_file s <> Some f)
    (Catalog.get_dqm_unprocessed_files log_standardization
       (QualityRun.log_dqm
          (fst (QualityRun.check_file sql filter_by_column unique
                  filter_contains filter_sql_expr json_field read_csv table
                  latest_batch [] dataset_master (Some staging_location)
                  (Some partition_columns) env unprocessed_file st)))
       pid did).
Proof.
  intros Hloc Hread Hf. unfold QualityRun.check_file. rewrite Hloc, Hread.
  split; [reflexivity|]. cbn [fst QualityRun.log_dqm QualityRun.write_staging
    DataProcessor.DeltaTableWriter].
  apply (succeeded_row_hides_file _ _ _ _
           (QualityRun.log_row dataset_master unprocessed_file));
    [|reflexivity|exact Hf].
  unfold OrchestrationProcess.insert_log_dqm. apply in_or_app. right.
  now left.
Qed.

End QualityRuns.


Lemma batch_with_passed_rule_is_not_retried_witness :
  Forall (fun s => Schema.std_source_file s <>
                   Some "s3a://dev-bronze/inbound/sales_20250101.csv")
    (Catalog.get_dqm_unprocessed_files [CatalogCases.standardized_row]
       (QualityRun.log_dqm
          (fst (QualityRun.check_file QualityCases.idle QualityCases.idle
                  QualityCases.idle_unique QualityCases.idle_pattern
                  QualityCases.idle_pattern QualityCases.idle_json
                  ReaderCases.one_file QualityRunCases.table
                  QualityRunCases.table
                  [QualityCases.rule "region" "null" "NC" 5;
                   QualityRunCases.domain_rule "EU" "C" 10]
                  QualityCases.dataset (Some "silver/staging/sales")
                  (Some "region") "dev" CatalogCases.standardized_row
                  QualityRunCases.fresh)))
       7 1) /\
  (forall e,
     snd (QualityRun.check_file QualityCases.idle QualityCases.idle
            QualityCases.idle_unique QualityCases.idle_pattern
            QualityCases.idle_pattern QualityCases.idle_json
            ReaderCases.one_file QualityRunCases.table QualityRunCases.table
            [QualityCases.rule "region" "null" "NC" 5;
             QualityRunCases.domain_rule "EU" "C" 10]
            QualityCases.dataset (Some "silver/staging/sales") (Some "region")
            "dev" CatalogCases.standardized_row QualityRunCases.fresh) =
     Py.Raise e ->
     QualityRun.writes
       (fst (QualityRun.check_file QualityCases.idle QualityCases.idle
               QualityCases.idle_unique QualityCases.idle_pattern
               QualityCases.idle_pattern QualityCases.idle_json
               ReaderCases.one_file QualityRunCases.table
               QualityRunCases.table
               [QualityCases.rule "region" "null" "NC" 5;
                QualityRunCases.domain_rule "EU" "C" 10]
               QualityCases.dataset (Some "silver/staging/sales")
               (Some "region") "dev" CatalogCases.standardized_row
               QualityRunCases.fresh)) =
     QualityRun.writes QualityRunCases.fresh).
Proof.
  apply (batch_with_passed_rule_is_not_retried QualityCases.idle
           QualityCases.idle QualityCases.idle_unique
           QualityCases.idle_pattern QualityCases.idle_pattern
           QualityCases.idle_json ReaderCases.one_file QualityRunCases.table
           QualityRunCases.table (QualityCases.rule "region" "null" "NC" 5)
           [QualityRunCases.domain_rule "EU" "C" 10] QualityCases.dataset
           "silver/staging/sales" (Some "region") "dev"
           CatalogCases.standardized_row QualityRunCases.fresh
           DataQualityCheck.QcNull QualityRunCases.standardized
           {| Polars.columns := ["region"; "batch_id"];
              Polars.rows :=
                [[Polars.Text "EU"; Polars.Num 2025010109300012];
                 [Polars.Text "EU"; Polars.Num 2025010109300012];
                 [Polars.Text "US"; Polars.Num 2025010109300012]] |}
           "s3a://dev-bronze/inbound/sales_20250101.csv"
           "silver/standardized/sales"
           [CatalogCases.standardized_row] 7 1);
    reflexivity.
Defined.

Lemma unknown_rule_types_leave_no_trace_witness :
  QualityRun.log_dqm
    (fst (QualityRun.check_file QualityCases.idle QualityCases.idle
            QualityCases.idle_unique QualityCases.idle_pattern
            QualityCases.idle_pattern QualityCases.idle_json
            ReaderCases.one_file QualityRunCases.table QualityRunCases.table
            [QualityCases.rule "region" "regex" "C" 5]
            QualityCases.dataset (Some "silver/staging/sales") (Some "region")
            "dev" CatalogCases.standardized_row QualityRunCases.fresh)) = [].
Proof.
  rewrite (unknown_rule_types_leave_no_trace QualityCases.idle
             QualityCases.idle QualityCases.idle_unique
             QualityCases.idle_pattern QualityCases.idle_pattern
             QualityCases.idle_json ReaderCases.one_file QualityRunCases.table
             QualityRunCases.table (QualityCases.rule "region" "regex" "C" 5)
             [] QualityCases.dataset "silver/staging/sales" "region" "dev"
             "silver/standardized/sales" CatalogCases.standardized_row
             QualityRunCases.fresh QualityRunCases.standardized);
    [reflexivity | repeat constructor | reflexivity | reflexivity].
Defined.


Lemma batch_without_rules_is_checked_once_witness :
  Forall (fun s => Schema.std_source_file s <>
                   Some "s3a://dev-bronze/inbound/sales_20250101.csv")
    (Catalog.get_dqm_unprocessed_files [CatalogCases.standardized_row]
       (QualityRun.log_dqm
          (fst (QualityRun.check_file QualityCases.idle QualityCases.idle
                  QualityCases.idle_unique QualityCases.idle_pattern
                  QualityCases.idle_pattern QualityCases.idle_json
                  ReaderCases.one_file QualityRunCases.table
                  QualityRunCases.table [] QualityCases.dataset
                  (Some "silver/staging/sales") (Some "region") "dev"
                  CatalogCases.standardized_row QualityRunCases.fresh)))
       7 1).
Proof.
  apply (batch_without_rules_is_checked_once QualityCases.idle
           QualityCases.idle QualityCases.idle_unique
           QualityCases.idle_pattern QualityCases.idle_pattern
           QualityCases.idle_json ReaderCases.one_file QualityRunCases.table
           QualityRunCases.table QualityCases.dataset "silver/staging/sales"
           "region" "dev" "silver/standardized/sales"
           CatalogCases.standardized_row QualityRunCases.fresh
           QualityRunCases.standardized
           "s3a://dev-bronze/inbound/sales_20250101.csv"
           [CatalogCases.standardized_row] 7 1);
    reflexivity.
Defined.


(** ** The direct transformation into gold *)

Section DirectTransformation.

Variable env : string.
Variable table : string -> Py.outcome Polars.Frame.
Variable latest_batch : string -> Py.outcome Polars.Frame.
Variable stage :
  list string -> list string -> option Z -> Polars.Frame ->
  Py.outcome (list DataProcessor.gold_row).
Variable format_exc : Py.exn -> string.

(** A loop in which every batch can be read and staged logs one
    SUCCEEDED row per element of the list it goes through. *)
Lemma transform_files_succeed (dataset_master : Schema.ctlDatasetMaster)
  (columns key_columns : list string) (staging_path : S3Process.s3_path)
  (target : Transformation.table_details) (partition_columns : string)
  (unprocessed_files : list Schema.logDqmDtl) :
  Transformation.transformation_partition_columns target =
  Some partition_columns ->
  (forall u, In u unprocessed_files ->
     exists df rows,
       DeltaTableRead.read table latest_batch
         (S3Process.s3_location staging_path) (Schema.dqm_batch_id u) false =
       Py.Return df /\
       stage columns key_columns (Schema.dqm_batch_id u) df = Py.Return rows) ->
  forall st,
    snd (Transformation.transform_files table latest_batch stage format_exc
           dataset_master columns key_columns staging_path target
           unprocessed_files st) = Py.Return tt /\
    Transformation.log_transformation
      (fst (Transformation.transform_files table latest_batch stage format_exc
              dataset_master columns key_columns staging_path target
              unprocessed_files st)) =
    (Transformation.log_transformation st ++
     map (fun u => Transformation.log_row dataset_master u "SUCCEEDED" None)
       unprocessed_files)%list.
Proof.
  intros Hpc. induction unprocessed_files as [|u rest IH]; intros Hok st.
  - cbn. now rewrite app_nil_r.
  - cbn [Transformation.transform_files].
    destruct (Hok u (or_introl eq_refl)) as [df [rows [Hread Hstage]]].
    assert (Hstep : exists rows',
              Transformation.transform table latest_batch stage columns
                key_columns staging_path target u (Transformation.gold st) =
              Py.Return rows').
    { unfold Transformation.transform. rewrite Hread. cbn [Py.bind].
      rewrite Hstage. cbn [Py.bind].
      destruct (Transformation.gold st); [eauto|]. rewrite Hpc. eauto. }
    destruct Hstep as [rows' ->].
    match goal with
    | |- context [Transformation.transform_files _ _ _ _ _ _ _ _ _ rest ?s] =>
        destruct (IH (fun v Hv => Hok v (or_intror Hv)) s) as [Hret Hlog]
    end.
    split; [assumption|]. rewrite Hlog.
    cbn [Transformation.log_transformation map].
    unfold OrchestrationProcess.insert_log_transformation.
    now rewrite <- app_assoc.
Qed.

(** X28: the direct transformation goes through the rows of the DQM log,
    not through the batches: when every selected batch can be read and
    staged, it logs one SUCCEEDED transformation row for every row that
    [get_unprocessed_transformation_files] returned, so a batch that DQM
    logged once per rule is transformed once per rule. *)
Theorem batch_transformed_once_per_dqm_row
  (dataset_master : Schema.ctlDatasetMaster)
  (dependency : Transformation.ctlTransformationDependencyMaster)
  (more : list Transformation.ctlTransformationDependencyMaster)
  (columns : list string)
  (target dependent : Transformation.table_details)
  (log_dqm : list Schema.logDqmDtl) (st : Transformation.state)
  (keys staging location partition_columns : string) :
  Transformation.primary_keys dependency = Some keys ->
  Transformation.staging_location dependent = Some staging ->
  Transformation.transformation_location target = Some location ->
  Transformation.transformation_partition_columns target =
  Some partition_columns ->
  (forall u,
     In u (OrchestrationProcess.get_unprocessed_transformation_files log_dqm
             (Transformation.log_transformation st)
             (Schema.process_id dataset_master)
             (Transformation.depedent_dataset_id dependency)) ->
     exists df rows,
       DeltaTableRead.read table latest_batch
         (S3Process.s3_location (S3Process.path_to_s3 staging env))
         (Schema.dqm_batch_id u) false = Py.Return df /\
       stage columns (PyStr.split_list "," keys) (Schema.dqm_batch_id u) df =
       Py.Return rows) ->
  OrchestrationProcess.get_unprocessed_transformation_files log_dqm
    (Transformation.log_transformation st) (Schema.process_id dataset_master)
    (Transformation.depedent_dataset_id dependency) <> [] ->
  snd (Transformation.direct_transformation env table latest_batch stage
         format_exc dataset_master (dependency :: more) columns (Some target)
         (Some dependent) log_dqm st) = Py.Return tt /\
  Transformation.log_transformation
    (fst (Transformation.direct_transformation env table latest_batch stage
            format_exc dataset_master (dependency :: more) columns
            (Some target) (Some dependent) log_dqm st)) =
  (Transformation.log_transformation st ++
   map (fun u => Transformation.log_row dataset_master u "SUCCEEDED" None)
     (OrchestrationProcess.get_unprocessed_transformation_files log_dqm
        (Transformation.log_transformation st)
        (Schema.process_id dataset_master)
        (Transformation.depedent_dataset_id dependency)))%list.
Proof.
  intros Hkeys Hstaging Hloc Hpc Hok Hsome.
  unfold Transformation.direct_transformation.
  rewrite Hkeys, Hstaging, Hloc.
  destruct (OrchestrationProcess.get_unprocessed_transformation_files _ _ _ _)
    as [|u files] eqn:E; [contradiction|].
  exact (transform_files_succeed dataset_master columns
           (PyStr.split_list "," keys) (S3Process.path_to_s3 staging env)
           target partition_columns (u :: files) Hpc Hok st).
Qed.

End DirectTransformation.

Lemma batch_transformed_once_per_dqm_row_witness :
  Transformation.log_transformation
    (fst (Transformation.direct_transformation "dev" QualityRunCases.table
            QualityRunCases.table TransformationCases.stage
            BronzeCases.format_exc TransformationCases.gold_dataset
            [TransformationCases.dependency] ["id"; "region"]
            (Some TransformationCases.details)
            (Some TransformationCases.details)
            [TransformationCases.rule_row "id";
             TransformationCases.rule_row "region"]
            TransformationCases.fresh)) =
  [Transformation.log_row TransformationCases.gold_dataset
     (TransformationCases.rule_row "id") "SUCCEEDED" None;
   Transformation.log_row TransformationCases.gold_dataset
     (TransformationCases.rule_row "region") "SUCCEEDED" None].
Proof.
  refine (proj2 (batch_transformed_once_per_dqm_row "dev"
                   QualityRunCases.table QualityRunCases.table
                   TransformationCases.stage BronzeCases.format_exc
                   TransformationCases.gold_dataset
                   TransformationCases.dependency [] ["id"; "region"]
                   TransformationCases.details TransformationCases.details
                   [TransformationCases.rule_row "id";
                    TransformationCases.rule_row "region"]
                   TransformationCases.fresh "id" "silver/staging/sales"
                   "gold/sales" "region" eq_refl eq_refl eq_refl eq_refl _ _)).
  - intros u Hu. vm_compute in Hu. destruct Hu as [<-|[<-|[]]];
      exists QualityRunCases.standardized, GoldCases.day1; split; reflexivity.
  - discriminate.
Defined.


(** ** The S3 extractor: where a file is stored and what the log says *)

Lemma append_cancel_l (a x y : string) : a ++ x = a ++ y -> x = y.
Proof.
  induction a as [|c a IH]; cbn [append]; intros H; [assumption|].
  injection H as H. auto.
Qed.

Lemma append_cancel_r (x y a : string) : x ++ a = y ++ a -> x = y.
Proof.
  revert y. induction x as [|c x IH]; intros [|d y] H; cbn [append] in H.
  - reflexivity.
  - exfalso. apply (f_equal String.length) in H. cbn [String.length] in H.
    rewrite length_append in H. lia.
  - exfalso. apply (f_equal String.length) in H. cbn [String.length] in H.
    rewrite length_append in H. lia.
  - injection H as -> H. f_equal. auto.
Qed.

Lemma lacks_app (c : ascii) (a b : string) :
  PyStr.lacks c (a ++ b) = PyStr.lacks c a && PyStr.lacks c b.
Proof.
  induction a as [|x a IH]; cbn [append PyStr.lacks]; [reflexivity|].
  now rewrite IH, andb_assoc.
Qed.

Lemma rstrip_lacks (c : ascii) (s : string) :
  PyStr.lacks c s = true -> S3Extractor.rstrip c s = s.
Proof.
  induction s as [|a s IH]; cbn [PyStr.lacks S3Extractor.rstrip];
    [reflexivity|].
  intros H. apply andb_true_iff in H. destruct H as [Ha Hs].
  rewrite (IH Hs). apply negb_true_iff in Ha. rewrite Ha.
  now destruct s.
Qed.

Lemma in_last {A : Type} (l : list A) (d : A) : l <> [] -> In (last l d) l.
Proof.
  induction l as [|a l IH]; intros H; [contradiction|].
  destruct l as [|b l]; [now left|]. right. apply IH. discriminate.
Qed.

(** The last segment of a key holds no separator. *)
Lemma base_name_lacks (x : string) :
  PyStr.lacks "/" (BronzeLayer.base_name x) = true.
Proof.
  unfold BronzeLayer.base_name.
  pose proof (split_segments "/" x) as H. rewrite Forall_forall in H.
  apply H. apply in_last. unfold PyStr.split_list.
  destruct (PyStr.split "/" x). discriminate.
Qed.

Lemma base_name_of_name (x : string) :
  PyStr.lacks "/" x = true -> BronzeLayer.base_name x = x.
Proof.
  intros H. unfold BronzeLayer.base_name, PyStr.split_list.
  now rewrite (split_lacks _ _ H).
Qed.

(** The URI of the uploaded object. *)
Lemma upload_target_uri (inbound name : string) :
  PyStr.lacks "/" name = true ->
  "s3a://" ++ fst (S3Extractor.upload_target inbound name) ++ "/"
  ++ snd (S3Extractor.upload_target inbound name) =
  if PyStr.lacks "/" inbound
  then "s3a://prod-" ++ inbound ++ "/" ++ name
  else "s3a://prod-" ++ inbound ++ name.
Proof.
  intros Hname. unfold S3Extractor.upload_target.
  rewrite (base_name_of_name _ Hname).
  pose proof (join_split "/" inbound) as Hjoin.
  pose proof (split_segments "/" inbound) as Hsegs.
  unfold PyStr.split_list in Hjoin, Hsegs.
  destruct (PyStr.split "/" inbound) as [first rest]. cbn [fst snd].
  destruct rest as [|r rest].
  - cbn [PyStr.join] in Hjoin. subst first.
    inversion Hsegs as [|? ? Hfirst _]; subst. rewrite Hfirst.
    cbn [PyStr.join append]. rewrite ?append_assoc. reflexivity.
  - change (PyStr.join "/" (first :: r :: rest))
      with (first ++ "/" ++ PyStr.join "/" (r :: rest)) in Hjoin.
    rewrite <- Hjoin. rewrite lacks_app. cbn [append PyStr.lacks].
    rewrite andb_false_r. cbn [append]. rewrite ?append_assoc.
    reflexivity.
Qed.

(** The logged location names the uploaded object exactly when the
    inbound location names a bucket only or ends in one slash. *)
Lemma logged_location_names_upload (inbound name : string) :
  PyStr.lacks "/" name = true ->
  S3Extractor.file_save_name inbound name =
  "s3a://" ++ fst (S3Extractor.upload_target inbound name) ++ "/"
  ++ snd (S3Extractor.upload_target inbound name) <->
  PyStr.lacks "/" inbound = true \/
  inbound = S3Extractor.rstrip "/" inbound ++ "/".
Proof.
  intros Hname. rewrite (upload_target_uri _ _ Hname).
  unfold S3Extractor.file_save_name.
  destruct (PyStr.lacks "/" inbound) eqn:E.
  - rewrite (rstrip_lacks _ _ E). split; [now left | reflexivity].
  - split.
    + intros H. right. apply (append_cancel_l "s3a://prod-") in H.
      rewrite <- !append_assoc in H. apply append_cancel_r in H.
      now symmetry.
    + intros [H|H]; [discriminate|]. rewrite H at 2.
      now rewrite !append_assoc.
Qed.

Section Extractor.

Variable json_loads : option string -> Py.outcome (list (string * string)).
Variable client : list (string * string) -> Py.outcome unit.
Variable list_objects_v2 :
  list (string * string) -> string -> string -> Py.outcome (option (list string)).
Variable download_fileobj :
  list (string * string) -> string -> string -> Py.outcome string.
Variable s3_raw_file_write : string -> string -> string -> Py.outcome unit.
Variable regex_pattern_matches : string -> string -> Py.outcome bool.
Variable format_exc : Py.exn -> string.
Variable clock : nat -> BatchId.datetime.

(** What the loop adds: every SUCCEEDED row belongs to an upload of the
    same run. *)
Lemma extract_trace (config_ : list (string * string)) (bucket : string)
  (processed : list (option string))
  (detail : S3Extractor.ctlDataAcquisitionDetail) (inbound : string)
  (files : list string) :
  S3Extractor.inbound_location detail = Some inbound ->
  forall (new_files : list string) (st : S3Extractor.state),
  exists added objs,
    S3Extractor.log_acquisition
      (fst (S3Extractor.extract download_fileobj s3_raw_file_write
              regex_pattern_matches format_exc clock config_ bucket processed
              detail files new_files st)) =
    (S3Extractor.log_acquisition st ++ added)%list /\
    S3Extractor.uploaded
      (fst (S3Extractor.extract download_fileobj s3_raw_file_write
              regex_pattern_matches format_exc clock config_ bucket processed
              detail files new_files st)) =
    (S3Extractor.uploaded st ++ objs)%list /\
    Forall (fun row =>
              Catalog.acq_status row = Some "SUCCEEDED" ->
              exists name body,
                PyStr.lacks "/" name = true /\
                Catalog.inbound_file_location row =
                Some (S3Extractor.file_save_name inbound name) /\
                In (S3Extractor.upload_target inbound name, body) objs) added.
Proof.
  intros Hin. induction files as [|file_ rest IH]; intros new_files st.
  - exists [], []. cbn. rewrite !app_nil_r. auto.
  - cbn [S3Extractor.extract].
    destruct (S3Extractor.validate regex_pattern_matches _ _ _)
      as [[[|]|]|e]; try apply IH;
      [|exists [], []; cbn; rewrite !app_nil_r; auto].
    rewrite Hin.
    destruct (BronzeLayer.completed processed _); [apply IH|].
    destruct (BatchId.batch_id _) as [b|e];
      [|exists [], []; cbn; rewrite !app_nil_r; auto].
    destruct (S3Extractor.upload_target inbound (BronzeLayer.base_name file_))
      as [bucket_name aws_file_key] eqn:Et.
    destruct (download_fileobj config_ bucket file_) as [buffer|e];
      cbn [Py.bind].
    2:{ eexists [_], []. cbn [fst S3Extractor.log_acquisition
          S3Extractor.uploaded].
        rewrite app_nil_r. split; [reflexivity|]. split; [reflexivity|].
        constructor; [discriminate|constructor]. }
    destruct (s3_raw_file_write buffer bucket_name aws_file_key) as [[]|e];
      cbn [Py.bind].
    2:{ eexists [_], []. cbn [fst S3Extractor.log_acquisition
          S3Extractor.uploaded].
        rewrite app_nil_r. split; [reflexivity|]. split; [reflexivity|].
        constructor; [discriminate|constructor]. }
    match goal with
    | |- context [S3Extractor.extract _ _ _ _ _ _ _ _ _ rest ?n ?s] =>
        destruct (IH n s) as [added [objs [Hlog [Hup Htr]]]]
    end.
    cbn [S3Extractor.log_acquisition S3Extractor.uploaded] in Hlog, Hup.
    unfold Catalog.insert_log_data_acquisition_detail in *.
    eexists (_ :: added), (_ :: objs).
    split; [rewrite Hlog, <- app_assoc; reflexivity|].
    split; [rewrite Hup, <- app_assoc; reflexivity|].
    constructor.
    + intros _. exists (BronzeLayer.base_name file_), buffer.
      split; [apply base_name_lacks|]. split; [reflexivity|].
      left. now rewrite Et.
    + eapply Forall_impl; [|exact Htr].
      intros row Hrow Hst. destruct (Hrow Hst) as [name [body [H1 [H2 H3]]]].
      exists name, body. split; [assumption|]. split; [assumption|].
      now right.
Qed.

(** X29: the extractor logs a file under
    [s3a://prod-<inbound_location without trailing slashes>/<name>], but
    uploads it under the key that joins the folder and the name without a
    separator.  For every SUCCEEDED row of a run there is an upload of the
    run such that the row names the uploaded object exactly when the
    inbound location is a bare bucket name or ends in exactly one
    slash. *)
Theorem extractor_logged_location (connection_config : option string)
  (pre_ingestion_logs : list Catalog.logDataAcquisitionDetail)
  (detail : S3Extractor.ctlDataAcquisitionDetail) (st : S3Extractor.state)
  (inbound : string) :
  S3Extractor.inbound_location detail = Some inbound ->
  exists added objs,
    S3Extractor.log_acquisition
      (fst (S3Extractor.S3Extractor json_loads client list_objects_v2
              download_fileobj s3_raw_file_write regex_pattern_matches
              format_exc clock connection_config pre_ingestion_logs detail
              st)) =
    (S3Extractor.log_acquisition st ++ added)%list /\
    S3Extractor.uploaded
      (fst (S3Extractor.S3Extractor json_loads client list_objects_v2
              download_fileobj s3_raw_file_write regex_pattern_matches
              format_exc clock connection_config pre_ingestion_logs detail
              st)) =
    (S3Extractor.uploaded st ++ objs)%list /\
    Forall (fun row =>
              Catalog.acq_status row = Some "SUCCEEDED" ->
              exists bucket_name aws_file_key body,
                In (bucket_name, aws_file_key, body) objs /\
                (Catalog.inbound_file_location row =
                 Some ("s3a://" ++ bucket_name ++ "/" ++ aws_file_key) <->
                 PyStr.lacks "/" inbound = true \/
                 inbound = S3Extractor.rstrip "/" inbound ++ "/")) added.
Proof.
  intros Hin. unfold S3Extractor.S3Extractor.
  destruct (S3Extractor.listing _ _ _ _ _)
    as [[[config_ bucket] [[|file_ files]|]]|e];
    try (exists [], []; cbn; rewrite !app_nil_r; auto; fail).
  destruct (extract_trace config_ bucket
              (map Catalog.inbound_file_location pre_ingestion_logs) detail
              inbound (file_ :: files) Hin [] st)
    as [added [objs [Hlog [Hup Htr]]]].
  exists added, objs.
  destruct (S3Extractor.extract _ _ _ _ _ _ _ _ _ (file_ :: files) [] st)
    as [st' [[|n ns]|e]]; cbn [fst] in *;
    (split; [assumption|]); (split; [assumption|]);
    (eapply Forall_impl; [|exact Htr]);
    intros row Hrow Hst;
    destruct (Hrow Hst) as [name [body [Hname [Hloc Hobj]]]];
    exists (fst (S3Extractor.upload_target inbound name)),
      (snd (S3Extractor.upload_target inbound name)), body;
    (split; [now rewrite <- surjective_pairing|]);
    pose proof (logged_location_names_upload inbound name Hname) as Hiff;
    rewrite Hloc;
    (split; [intros H; apply Hiff; congruence
            | intros H; f_equal; now apply Hiff]).
Qed.

End Extractor.


Lemma extractor_logged_location_witness :
  exists added objs,
    S3Extractor.log_acquisition
      (fst (S3Extractor.S3Extractor ExtractorCases.json_loads
              ExtractorCases.client ExtractorCases.list_objects_v2
              ExtractorCases.download_fileobj ExtractorCases.s3_raw_file_write
              BronzeCases.accept BronzeCases.format_exc BronzeCases.clock
              None [] (ExtractorCases.sales "bronze/inbound/sales")
              ExtractorCases.fresh)) =
    (S3Extractor.log_acquisition ExtractorCases.fresh ++ added)%list /\
    S3Extractor.uploaded
      (fst (S3Extractor.S3Extractor ExtractorCases.json_loads
              ExtractorCases.client ExtractorCases.list_objects_v2
              ExtractorCases.download_fileobj ExtractorCases.s3_raw_file_write
              BronzeCases.accept BronzeCases.format_exc BronzeCases.clock
              None [] (ExtractorCases.sales "bronze/inbound/sales")
              ExtractorCases.fresh)) =
    (S3Extractor.uploaded ExtractorCases.fresh ++ objs)%list /\
    Forall (fun row =>
              Catalog.acq_status row = Some "SUCCEEDED" ->
              exists bucket_name aws_file_key body,
                In (bucket_name, aws_file_key, body) objs /\
                (Catalog.inbound_file_location row =
                 Some ("s3a://" ++ bucket_name ++ "/" ++ aws_file_key) <->
                 PyStr.lacks "/" "bronze/inbound/sales" = true \/
                 "bronze/inbound/sales" =
                 S3Extractor.rstrip "/" "bronze/inbound/sales" ++ "/")) added.
Proof.
  exact (extractor_logged_location ExtractorCases.json_loads
           ExtractorCases.client ExtractorCases.list_objects_v2
           ExtractorCases.download_fileobj ExtractorCases.s3_raw_file_write
           BronzeCases.accept BronzeCases.format_exc BronzeCases.clock None []
           (ExtractorCases.sales "bronze/inbound/sales") ExtractorCases.fresh
           "bronze/inbound/sales" eq_refl).
Defined.


Lemma in_get_log_data_acquisition_detail
  (log : list Catalog.logDataAcquisitionDetail) (pid did : Z) (status : string)
  (r : Catalog.logDataAcquisitionDetail) :
  In r (Catalog.get_log_data_acquisition_detail log pid did status) <->
  In r log /\ Catalog.acq_process_id r = Some pid /\
  Catalog.pre_ingestion_dataset_id r = Some did /\
  Catalog.acq_status r = Some status.
Proof.
  unfold Catalog.get_log_data_acquisition_detail.
  rewrite filter_In, !holds_and, !andb_true_iff.
  rewrite !eq_int_holds, eq_str_holds. tauto.
Qed.

Section ExtractorRuns.

Variable json_loads : option string -> Py.outcome (list (string * string)).
Variable client : list (string * string) -> Py.outcome unit.
Variable list_objects_v2 :
  list (string * string) -> string -> string -> Py.outcome (option (list string)).
Variable download_fileobj :
  list (string * string) -> string -> string -> Py.outcome string.
Variable s3_raw_file_write : string -> string -> string -> Py.outcome unit.
Variable regex_pattern_matches : string -> string -> Py.outcome bool.
Variable format_exc : Py.exn -> string.
Variable clock : nat -> BatchId.datetime.

(** What is known of every listed key after a loop that came to its
    end: the pattern was evaluated, and a key that it accepted was either
    known as processed or has a SUCCEEDED row now. *)
Lemma extract_returns (config_ : list (string * string)) (bucket : string)
  (processed : list (option string))
  (detail : S3Extractor.ctlDataAcquisitionDetail) (files : list string) :
  forall (new_files new_files' : list string) (st st' : S3Extractor.state),
  S3Extractor.extract download_fileobj s3_raw_file_write regex_pattern_matches
    format_exc clock config_ bucket processed detail files new_files st =
  (st', Py.Return new_files') ->
  (forall row, In row (S3Extractor.log_acquisition st) ->
               In row (S3Extractor.log_acquisition st')) /\
  (forall file_, In file_ files ->
     exists k,
       S3Extractor.validate regex_pattern_matches
         (S3Extractor.outbound_source_file_pattern detail)
         (BronzeLayer.base_name file_)
         match S3Extractor.outbound_source_file_pattern_static detail with
         | Some y => String.eqb y "Y"
         | None => false
         end = Py.Return k /\
       (k = Some true ->
        exists inbound,
          S3Extractor.inbound_location detail = Some inbound /\
          (BronzeLayer.completed processed
             (S3Extractor.file_save_name inbound (BronzeLayer.base_name file_))
           = true \/
           exists b,
             In (S3Extractor.log_row detail b
                   (Some (S3Extractor.file_save_name inbound
                            (BronzeLayer.base_name file_)))
                   "SUCCEEDED" None)
               (S3Extractor.log_acquisition st')))).
Proof.
  induction files as [|file_ rest IH]; intros nf nf' st st' H.
  - cbn [S3Extractor.extract] in H. injection H as -> _.
    split; [auto | intros f []].
  - cbn [S3Extractor.extract] in H.
    destruct (S3Extractor.validate regex_pattern_matches _ _ _) as [k|e] eqn:Ev;
      [|discriminate].
    destruct k as [[|]|].
    2,3: apply IH in H; destruct H as [Hkeep Hrest]; (split; [assumption|]);
         intros f [<-|Hf];
         [eexists; split; [exact Ev|discriminate] | now apply Hrest].
    destruct (S3Extractor.inbound_location detail) as [inbound|] eqn:Ein;
      [|discriminate].
    destruct (BronzeLayer.completed processed _) eqn:Ec.
    + apply IH in H. destruct H as [Hkeep Hrest]. split; [assumption|].
      intros f [<-|Hf]; [|now apply Hrest].
      eexists. split; [exact Ev|]. intros _. exists inbound.
      split; [reflexivity|]. now left.
    + destruct (BatchId.batch_id _) as [b|e]; [|discriminate].
      destruct (S3Extractor.upload_target inbound (BronzeLayer.base_name file_))
        as [bucket_name aws_file_key].
      destruct (download_fileobj config_ bucket file_) as [buffer|e];
        cbn [Py.bind] in H; [|discriminate].
      destruct (s3_raw_file_write buffer bucket_name aws_file_key) as [[]|e];
        cbn [Py.bind] in H; [|discriminate].
      apply IH in H. destruct H as [Hkeep Hrest].
      cbn [S3Extractor.log_acquisition] in Hkeep.
      unfold Catalog.insert_log_data_acquisition_detail in Hkeep. split.
      * intros row Hrow. apply Hkeep. apply in_or_app. now left.
      * intros f [<-|Hf]; [|now apply Hrest].
        eexists. split; [exact Ev|]. intros _. exists inbound.
        split; [reflexivity|]. right. exists b. apply Hkeep.
        apply in_or_app. right. now left.
Qed.

(** A loop in which every accepted key is known as processed does
    nothing. *)
Lemma extract_idle (config_ : list (string * string)) (bucket : string)
  (processed : list (option string))
  (detail : S3Extractor.ctlDataAcquisitionDetail) (files : list string)
  (new_files : list string) (st : S3Extractor.state) :
  (forall file_, In file_ files ->
     exists k,
       S3Extractor.validate regex_pattern_matches
         (S3Extractor.outbound_source_file_pattern detail)
         (BronzeLayer.base_name file_)
         match S3Extractor.outbound_source_file_pattern_static detail with
         | Some y => String.eqb y "Y"
         | None => false
         end = Py.Return k /\
       (k = Some true ->
        exists inbound,
          S3Extractor.inbound_location detail = Some inbound /\
          BronzeLayer.completed processed
            (S3Extractor.file_save_name inbound (BronzeLayer.base_name file_))
          = true)) ->
  S3Extractor.extract download_fileobj s3_raw_file_write regex_pattern_matches
    format_exc clock config_ bucket processed detail files new_files st =
  (st, Py.Return new_files).
Proof.
  induction files as [|file_ rest IH]; intros H; [reflexivity|].
  cbn [S3Extractor.extract].
  destruct (H file_ (or_introl eq_refl)) as [k [Hv Hk]]. rewrite Hv.
  assert (Hrest : S3Extractor.extract download_fileobj s3_raw_file_write
            regex_pattern_matches format_exc clock config_ bucket processed
            detail rest new_files st = (st, Py.Return new_files))
    by (apply IH; intros f Hf; apply H; now right).
  destruct k as [[|]|]; try exact Hrest.
  destruct (Hk eq_refl) as [inbound [-> ->]]. exact Hrest.
Qed.

(** X30: extraction is resumable.  After a run of the S3 arm that
    returned, a second run over the same listing downloads and logs
    nothing: it ends with "No unprocessed files are found." - or, when
    the listing is empty, returns as silently as the first run did. *)
Theorem extraction_second_run_finds_nothing (connection_config : option string)
  (detail : S3Extractor.ctlDataAcquisitionDetail)
  (st st' : S3Extractor.state) :
  Extraction._handle_extraction json_loads client list_objects_v2
    download_fileobj s3_raw_file_write regex_pattern_matches format_exc clock
    connection_config detail st = (st', Py.Return tt) ->
  Extraction._handle_extraction json_loads client list_objects_v2
    download_fileobj s3_raw_file_write regex_pattern_matches format_exc clock
    connection_config detail st' =
  (st', Py.Raise (Py.Exception [Py.Lit "No unprocessed files are found."])) \/
  (st' = st /\
   Extraction._handle_extraction json_loads client list_objects_v2
     download_fileobj s3_raw_file_write regex_pattern_matches format_exc clock
     connection_config detail st' = (st', Py.Return tt)).
Proof.
  unfold Extraction._handle_extraction, S3Extractor.S3Extractor.
  destruct (S3Extractor.listing _ _ _ _ _)
    as [[[config_ bucket] [[|file_ files]|]]|e]; intros H;
    try discriminate;
    try (right; injection H as <-; split; reflexivity).
  left.
  destruct (S3Extractor.extract _ _ _ _ _ _ _ _ _ (file_ :: files) [] st)
    as [st1 [[|n ns]|e]] eqn:E; try discriminate.
  injection H as ->.
  destruct (extract_returns _ _ _ _ _ _ _ _ _ E) as [Hkeep Hfiles].
  rewrite extract_idle; [reflexivity|].
  intros f Hf. destruct (Hfiles f Hf) as [k [Hv Hk]]. exists k.
  split; [assumption|]. intros Htrue.
  destruct (Hk Htrue) as [inbound [Hin Hdone]]. exists inbound.
  split; [assumption|]. apply completed_spec. apply in_map_iff.
  destruct Hdone as [Hdone | [b Hrow]].
  - apply completed_spec in Hdone. apply in_map_iff in Hdone.
    destruct Hdone as [row [Hloc Hrow]]. exists row. split; [assumption|].
    apply in_get_log_data_acquisition_detail in Hrow.
    apply in_get_log_data_acquisition_detail.
    destruct Hrow as [Hrow Hcols]. split; [now apply Hkeep | assumption].
  - eexists. split; [|apply in_get_log_data_acquisition_detail;
                      split; [exact Hrow | repeat split]].
    reflexivity.
Qed.

End ExtractorRuns.

Lemma extraction_second_run_finds_nothing_witness :
  Extraction._handle_extraction ExtractorCases.json_loads
    ExtractorCases.client ExtractorCases.list_objects_v2
    ExtractorCases.download_fileobj ExtractorCases.s3_raw_file_write
    BronzeCases.accept BronzeCases.format_exc BronzeCases.clock None
    (ExtractorCases.sales "bronze/inbound/sales/")
    (fst (Extraction._handle_extraction ExtractorCases.json_loads
            ExtractorCases.client ExtractorCases.list_objects_v2
            ExtractorCases.download_fileobj ExtractorCases.s3_raw_file_write
            BronzeCases.accept BronzeCases.format_exc BronzeCases.clock None
            (ExtractorCases.sales "bronze/inbound/sales/")
            ExtractorCases.fresh)) =
  (fst (Extraction._handle_extraction ExtractorCases.json_loads
          ExtractorCases.client ExtractorCases.list_objects_v2
          ExtractorCases.download_fileobj ExtractorCases.s3_raw_file_write
          BronzeCases.accept BronzeCases.format_exc BronzeCases.clock None
          (ExtractorCases.sales "bronze/inbound/sales/")
          ExtractorCases.fresh),
   Py.Raise (Py.Exception [Py.Lit "No unprocessed files are found."])).
Proof.
  destruct (extraction_second_run_finds_nothing ExtractorCases.json_loads
              ExtractorCases.client ExtractorCases.list_objects_v2
              ExtractorCases.download_fileobj ExtractorCases.s3_raw_file_write
              BronzeCases.accept BronzeCases.format_exc BronzeCases.clock None
              (ExtractorCases.sales "bronze/inbound/sales/")
              ExtractorCases.fresh
              (fst (Extraction._handle_extraction ExtractorCases.json_loads
                      ExtractorCases.client ExtractorCases.list_objects_v2
                      ExtractorCases.download_fileobj
                      ExtractorCases.s3_raw_file_write BronzeCases.accept
                      BronzeCases.format_exc BronzeCases.clock None
                      (ExtractorCases.sales "bronze/inbound/sales/")
                      ExtractorCases.fresh)) eq_refl)
    as [Hraise | [Hsame _]].
  - exact Hraise.
  - discriminate Hsame.
Defined.
